(** * SNFG glyph rendering: orientation frames and CGO solids

    A shallow embedding of [reglyco_interface_plugin/snfg.py].

    Numbers.  The source computes with numpy [float64].  The embedding
    uses the real numbers of the Standard Library: every arithmetic
    operation is the exact one, rounding is outside the model, and
    [np.isnan] is therefore constantly false.

    Effects.  [print] and [warnings.warn] are collected in a writer
    monad [W]; calls into PyMOL ([cmd.delete], [cmd.load_cgo]) are
    recorded as a trace of sink commands and interpreted on a table of
    named CGO objects.

    External routines.  [numpy.linalg.matrix_rank] and [numpy.linalg.svd]
    are LAPACK calls; they enter the frame estimator as an explicit
    oracle [LinAlg], whose answers may also be a [LinAlgError]. *)

From Stdlib Require Import Reals Lra Lia List String Ascii Bool Arith.
From Stdlib Require Import ZArith OrdersEx Sorted Permutation RelationClasses.
Import ListNotations.

Local Open Scope string_scope.
Local Open Scope list_scope.
Local Open Scope R_scope.

(** ** Vectors ([np.array] of three floats) *)

Record V3 : Type := mkV3 { vx : R; vy : R; vz : R }.

Definition vadd (a b : V3) : V3 := mkV3 (vx a + vx b) (vy a + vy b) (vz a + vz b).
Definition vsub (a b : V3) : V3 := mkV3 (vx a - vx b) (vy a - vy b) (vz a - vz b).
Definition vscale (a : V3) (k : R) : V3 := mkV3 (vx a * k) (vy a * k) (vz a * k).
Definition vdiv (a : V3) (k : R) : V3 := mkV3 (vx a / k) (vy a / k) (vz a / k).

(** [np.dot] on two vectors. *)
Definition dot (a b : V3) : R := vx a * vx b + vy a * vy b + vz a * vz b.

(** [np.cross]. *)
Definition cross (a b : V3) : V3 :=
  mkV3 (vy a * vz b - vz a * vy b)
       (vz a * vx b - vx a * vz b)
       (vx a * vy b - vy a * vx b).

(** [np.linalg.norm]. *)
Definition norm (v : V3) : R := sqrt (dot v v).

(** [np.mean(coords, axis=0)] on a non-empty list of points. *)
Definition vsum (l : list V3) : V3 := fold_left vadd l (mkV3 0 0 0).
Definition vmean (l : list V3) : V3 := vdiv (vsum l) (INR (List.length l)).

(** [np.isnan(v).any()]: a real number is never NaN. *)
Definition isnan_any (v : V3) : bool := false.

(** ** Diagnostics *)

(** Residue key [(atom.chain, atom.resi, atom.resn)]. *)
Definition res_key : Type := (string * string * string)%type.

Inductive pyexn : Type := PyExn (msg : string).

(** One constructor per [print] / [warnings.warn] site of the module. *)
Inductive Diag : Type :=
| WarnNearZero (v : V3)
| MsgNotEnoughAtoms (k : res_key) (found : nat)
| MsgMissingC4 (k : res_key)
| MsgCoincident (k : res_key)
| MsgFewPlaneAtoms (k : res_key)
| MsgCollinear (k : res_key)
| MsgSvdFailed (k : res_key)
| MsgNearParallel (k : res_key)
| MsgNaNAxes (k : res_key)
| MsgApplying (full_selection : string)
| MsgNoResidues
| MsgProcessing (n : nat)
| MsgNotInTable (resn : string) (center : V3)
| MsgShapeNotImplemented (shape resn : string)
| MsgNoCgo (resn : string) (center : V3) (shape : string)
| MsgSkipAxesNaN (resn : string) (center : V3)
| MsgErrorGenerating (resn : string) (center : V3) (e : pyexn)
| MsgNoValidCgo
| MsgAxesLoaded (name : string)
| MsgProcessed (count : nat) (name : string)
| MsgAxesNoneGenerated
| MsgTransparencyNote (transparency : R).

(** ** The writer monad *)

Definition W (A : Type) : Type := (A * list Diag)%type.

Definition ret {A} (a : A) : W A := (a, []).
Definition bind {A B} (m : W A) (f : A -> W B) : W B :=
  (fst (f (fst m)), snd m ++ snd (f (fst m))).
Definition tell (d : Diag) : W unit := (tt, [d]).
Definition value {A} (m : W A) : A := fst m.
Definition diags {A} (m : W A) : list Diag := snd m.

Declare Scope w_scope.
Delimit Scope w_scope with w.
Notation "x <- m ;; k" := (bind m (fun x => k))
  (at level 61, m at next level, right associativity) : w_scope.
Notation "m ;;; k" := (bind m (fun _ => k))
  (at level 61, right associativity) : w_scope.
Local Open Scope w_scope.

(** ** normalize_vector *)

Definition default_z : V3 := mkV3 0 0 1.
Definition default_x : V3 := mkV3 1 0 0.
Definition default_y : V3 := mkV3 0 1 0.

Definition normalize_vector (v : V3) : W V3 :=
  if Rlt_dec (norm v) 1e-9 then
    tell (WarnNearZero v) ;;;
    ret (mkV3 0 0 1)
  else ret (vdiv v (norm v)).

(** ** Python dictionaries

    A [dict] keeps its keys in insertion order; assigning to a key that
    is present overwrites the value in place, assigning to a new key
    appends it. *)

Section Dict.
Context {K V : Type} (eqb : K -> K -> bool).

Definition dict : Type := list (K * V).

Fixpoint dict_get (k : K) (d : dict) : option V :=
  match d with
  | [] => None
  | (k', v) :: rest => if eqb k k' then Some v else dict_get k rest
  end.

Fixpoint dict_set (k : K) (v : V) (d : dict) : dict :=
  match d with
  | [] => [(k, v)]
  | (k', v') :: rest =>
      if eqb k k' then (k', v) :: rest else (k', v') :: dict_set k v rest
  end.

Definition dict_mem (k : K) (d : dict) : bool :=
  match dict_get k d with Some _ => true | None => false end.

Definition dict_keys (d : dict) : list K := map fst d.
Definition dict_values (d : dict) : list V := map snd d.
End Dict.

Arguments dict : clear implicits.

Definition key_eqb (a b : res_key) : bool :=
  String.eqb (fst (fst a)) (fst (fst b)) &&
  String.eqb (snd (fst a)) (snd (fst b)) &&
  String.eqb (snd a) (snd b).

(** ** The selection handed over by PyMOL *)

(** One entry of [cmd.get_model(selection).atom]. *)
Record Atom : Type := mkAtom {
  atom_name : string;
  atom_chain : string;
  atom_resi : string;
  atom_resn : string;
  atom_coord : V3
}.

(** The two name sets of [get_residue_orientation].  A Python [set] has
    no specified iteration order; one enumeration is fixed here. *)
Definition required_atoms : list string := ["C1"; "C2"; "C3"; "C4"; "C5"; "O5"].
Definition plane_atoms : list string := ["C1"; "C2"; "C3"; "C4"; "C5"].

Definition str_in (s : string) (l : list string) : bool :=
  existsb (String.eqb s) l.

(** The first loop of [get_residue_orientation]: coordinates of the
    relevant atoms, per residue and per atom name. *)
Definition collect_step (residue_atoms : dict res_key (dict string V3)) (atom : Atom)
  : dict res_key (dict string V3) :=
  if str_in (atom_name atom) required_atoms then
    let res_key := (atom_chain atom, atom_resi atom, atom_resn atom) in
    let residue_atoms1 :=
      if dict_mem key_eqb res_key residue_atoms then residue_atoms
      else dict_set key_eqb res_key [] residue_atoms in
    match dict_get key_eqb res_key residue_atoms1 with
    | Some atoms =>
        dict_set key_eqb res_key
          (dict_set String.eqb (atom_name atom) (atom_coord atom) atoms)
          residue_atoms1
    | None => residue_atoms1
    end
  else residue_atoms.

Definition collect_residue_atoms (model_atom : list Atom)
  : dict res_key (dict string V3) :=
  fold_left collect_step model_atom [].

(** ** The linear-algebra oracle *)

(** [matrix_rank] and the last row of [vh] from [svd], each applied to
    the rows of [centered_coords]; [None] stands for a raised
    [np.linalg.LinAlgError]. *)
Record LinAlg : Type := mkLinAlg {
  matrix_rank : list V3 -> option nat;
  svd_vh_last : list V3 -> option V3
}.

(** ** get_residue_orientation *)

(** The tuple [(resn, center, x_axis, y_axis, z_axis)]. *)
Record Frame : Type := mkFrame {
  f_resn : string;
  f_center : V3;
  x_axis : V3;
  y_axis : V3;
  z_axis : V3
}.

(** [[atoms[name] for name in names if name in atoms]]. *)
Definition coords_of (names : list string) (atoms : dict string V3) : list V3 :=
  flat_map (fun name =>
              match dict_get String.eqb name atoms with
              | Some c => [c]
              | None => []
              end) names.

(** Step 3 of the loop body: the plane normal from C1-C5. *)
Definition plane_normal_of (la : LinAlg) (res_key : res_key)
  (atoms : dict string V3) : W V3 :=
  let plane_coords_list := coords_of plane_atoms atoms in
  if (List.length plane_coords_list <? 3)%nat then
    tell (MsgFewPlaneAtoms res_key) ;;;
    ret default_z
  else
    let plane_coords := plane_coords_list in
    let plane_center := vmean plane_coords in
    let centered_coords := map (fun p => vsub p plane_center) plane_coords in
    let shape0 := List.length centered_coords in
    let shape1 := 3%nat in
    if (shape1 <? 2)%nat then
      tell (MsgSvdFailed res_key) ;;; ret default_z
    else
      match matrix_rank la centered_coords with
      | None => tell (MsgSvdFailed res_key) ;;; ret default_z
      | Some rank =>
          if (rank <? Nat.min shape0 shape1 - 1)%nat then
            tell (MsgCollinear res_key) ;;;
            ret default_z
          else
            match svd_vh_last la centered_coords with
            | None => tell (MsgSvdFailed res_key) ;;; ret default_z
            | Some vh_last => normalize_vector vh_last
            end
      end.

(** Step 4 of the loop body: X and Y from Z and the plane normal. *)
Definition xy_axes_of (res_key : res_key) (plane_normal z_axis : V3) : W (V3 * V3) :=
  if Rgt_dec (Rabs (dot plane_normal z_axis)) 0.995 then
    tell (MsgNearParallel res_key) ;;;
    let temp_vec :=
      if Rgt_dec (Rabs (dot (mkV3 1 0 0) z_axis)) 0.99
      then mkV3 0 1 0 else mkV3 1 0 0 in
    y_axis <- normalize_vector (cross z_axis temp_vec) ;;
    x_axis <- normalize_vector (cross y_axis z_axis) ;;
    ret (x_axis, y_axis)
  else
    x_axis <- normalize_vector (cross plane_normal z_axis) ;;
    y_axis <- normalize_vector (cross z_axis x_axis) ;;
    ret (x_axis, y_axis).

(** The body of the second loop: the tuple stored under [res_key]. *)
Definition residue_frame (la : LinAlg) (res_key : res_key)
  (atoms : dict string V3) : W Frame :=
  let resn := snd res_key in
  let center_coords := coords_of required_atoms atoms in
  if (List.length center_coords <? 3)%nat then
    tell (MsgNotEnoughAtoms res_key (List.length center_coords)) ;;;
    let available_coords := dict_values atoms in
    let center :=
      match available_coords with
      | [] => mkV3 0 0 0
      | _ :: _ => vmean available_coords
      end in
    ret (mkFrame resn center default_x default_y default_z)
  else
    let center := vmean center_coords in
    match dict_get String.eqb "C4" atoms with
    | None =>
        tell (MsgMissingC4 res_key) ;;;
        ret (mkFrame resn center default_x default_y default_z)
    | Some coord_C4 =>
        let vec_c4 := vsub coord_C4 center in
        z_axis <- (if Rlt_dec (norm vec_c4) 1e-6
                   then tell (MsgCoincident res_key) ;;; ret default_z
                   else normalize_vector vec_c4) ;;
        plane_normal <- plane_normal_of la res_key atoms ;;
        xy <- xy_axes_of res_key plane_normal z_axis ;;
        let x_axis := fst xy in
        let y_axis := snd xy in
        if isnan_any x_axis || isnan_any y_axis || isnan_any z_axis then
          tell (MsgNaNAxes res_key) ;;;
          ret (mkFrame resn center default_x default_y default_z)
        else
          ret (mkFrame resn center x_axis y_axis z_axis)
    end.

Fixpoint orientation_loop (la : LinAlg)
  (items : list (res_key * dict string V3))
  (orientations : dict res_key Frame) : W (dict res_key Frame) :=
  match items with
  | [] => ret orientations
  | (res_key, atoms) :: rest =>
      frame <- residue_frame la res_key atoms ;;
      orientation_loop la rest (dict_set key_eqb res_key frame orientations)
  end.

(** The dictionary [orientations] at the end of the second loop. *)
Definition orientations_of (la : LinAlg) (model_atom : list Atom)
  : W (dict res_key Frame) :=
  orientation_loop la (collect_residue_atoms model_atom) [].

(** [model_atom] is [cmd.get_model(selection).atom]; the caller performs
    the [cmd.get_model] call. *)
Definition get_residue_orientation (la : LinAlg) (model_atom : list Atom)
  : W (list Frame) :=
  orientations <- orientations_of la model_atom ;;
  ret (dict_values orientations).

(** ** Rotation and transformation helpers *)

(** A 3x3 [np.array], stored by rows. *)
Record M33 : Type := mkM33 { row0 : V3; row1 : V3; row2 : V3 }.

(** [.T] *)
Definition transpose (m : M33) : M33 :=
  mkM33 (mkV3 (vx (row0 m)) (vx (row1 m)) (vx (row2 m)))
        (mkV3 (vy (row0 m)) (vy (row1 m)) (vy (row2 m)))
        (mkV3 (vz (row0 m)) (vz (row1 m)) (vz (row2 m))).

(** [np.dot(rotation_matrix, v)] *)
Definition mdot (m : M33) (v : V3) : V3 :=
  mkV3 (dot (row0 m) v) (dot (row1 m) v) (dot (row2 m) v).

Definition get_transformation_matrix (x_axis y_axis z_axis : V3) : W M33 :=
  x_axis <- normalize_vector x_axis ;;
  y_axis <- normalize_vector y_axis ;;
  z_axis <- normalize_vector z_axis ;;
  ret (transpose (mkM33 x_axis y_axis z_axis)).

Definition transform_vertices (vertices : list V3) (center : V3)
  (rotation_matrix : M33) : list V3 :=
  map (fun v => let v_rot := mdot rotation_matrix v in vadd v_rot center) vertices.

Fixpoint transform_normals (normals : list V3) (rotation_matrix : M33)
  : W (list V3) :=
  match normals with
  | [] => ret []
  | n :: rest =>
      n_unit <- normalize_vector (mdot rotation_matrix n) ;;
      rest' <- transform_normals rest rotation_matrix ;;
      ret (n_unit :: rest')
  end.

(** ** CGO token streams *)

(** The opcodes and primitive kinds of [pymol.cgo] that the module uses,
    kept symbolic, and the numeric operands between them. *)
Inductive cgo_token : Type :=
| BEGIN | END | VERTEX | NORMAL | COLOR | SPHERE | CYLINDER | CONE
| TRIANGLES | TRIANGLE_STRIP | TRIANGLE_FAN
| Num (r : R).

(** A colour is a triple of floats, as a vector is. *)
Definition Color : Type := V3.

(** [*v] inside a list display. *)
Definition splat (v : V3) : list cgo_token := [Num (vx v); Num (vy v); Num (vz v)].

(** [l[i]] for an index in range. *)
Definition item (l : list V3) (i : nat) : V3 := nth i l (mkV3 0 0 0).

Definition SNFG_WHITE : Color := mkV3 (255/255) (255/255) (255/255).
Definition SNFG_BLUE : Color := mkV3 (0/255) (144/255) (188/255).
Definition SNFG_GREEN : Color := mkV3 (0/255) (166/255) (81/255).
Definition SNFG_YELLOW : Color := mkV3 (255/255) (212/255) (0/255).
Definition SNFG_LIGHT_BLUE : Color := mkV3 (143/255) (204/255) (233/255).
Definition SNFG_PINK : Color := mkV3 (246/255) (158/255) (161/255).
Definition SNFG_PURPLE : Color := mkV3 (165/255) (67/255) (153/255).
Definition SNFG_BROWN : Color := mkV3 (161/255) (122/255) (77/255).
Definition SNFG_ORANGE : Color := mkV3 (244/255) (121/255) (32/255).
Definition SNFG_RED : Color := mkV3 (237/255) (28/255) (36/255).

Definition AXIS_X_COLOR : Color := mkV3 1 0 0.
Definition AXIS_Y_COLOR : Color := mkV3 0 1 0.
Definition AXIS_Z_COLOR : Color := mkV3 0 0 1.

(** ** Shape generators *)

(** [math.radians] *)
Definition radians (deg : R) : R := deg * PI / 180.

Definition star_angles : list R :=
  map (fun i => radians (INR (i * 72))) (seq 0 5).

Definition star_outer_local (r : R) : list V3 :=
  map (fun angle => mkV3 (r * cos angle) 0 (r * sin angle)) star_angles.

Definition star_inner_local (r : R) : list V3 :=
  let r_inner := 0.45 * r in
  map (fun angle =>
         let inner_angle := angle + radians 36 in
         mkV3 (r_inner * cos inner_angle) 0 (r_inner * sin inner_angle))
      star_angles.

Definition star_volume_local (r : R) : list V3 :=
  [mkV3 0 (0.6 * r) 0; mkV3 0 (-0.6 * r) 0].

Definition cgo_star (x y z r : R) (color : Color) (x_axis y_axis z_axis : V3)
  : W (list cgo_token) :=
  let center := mkV3 x y z in
  rotation_matrix <- get_transformation_matrix x_axis y_axis z_axis ;;
  let outer_points := transform_vertices (star_outer_local r) center rotation_matrix in
  let inner_points := transform_vertices (star_inner_local r) center rotation_matrix in
  let volume_points := transform_vertices (star_volume_local r) center rotation_matrix in
  front <- transform_normals [mkV3 0 1 0] rotation_matrix ;;
  back <- transform_normals [mkV3 0 (-1) 0] rotation_matrix ;;
  let normal_front := item front 0 in
  let normal_back := item back 0 in
  let rim :=
    flat_map (fun i => [VERTEX] ++ splat (item outer_points i)
                       ++ [VERTEX] ++ splat (item inner_points i)) (seq 0 5) in
  ret ((COLOR :: splat color)
       ++ ([BEGIN; TRIANGLE_FAN; NORMAL] ++ splat normal_front
           ++ [VERTEX] ++ splat (item volume_points 0))
       ++ rim
       ++ ([VERTEX] ++ splat (item outer_points 0))
       ++ [END]
       ++ ([BEGIN; TRIANGLE_FAN; NORMAL] ++ splat normal_back
           ++ [VERTEX] ++ splat (item volume_points 1))
       ++ rim
       ++ ([VERTEX] ++ splat (item outer_points 0))
       ++ [END]).

Definition cgo_sphere (x y z size : R) (color : Color) : list cgo_token :=
  (COLOR :: splat color) ++ [SPHERE; Num x; Num y; Num z; Num (size * 1.3)].

Definition cgo_cone (x y z r : R) (color : Color) (x_axis y_axis z_axis : V3)
  : W (list cgo_token) :=
  let center := mkV3 x y z in
  rotation_matrix <- get_transformation_matrix x_axis y_axis z_axis ;;
  let vertices_local := [mkV3 0 0 r; mkV3 0 0 (- r)] in
  let vertices := transform_vertices vertices_local center rotation_matrix in
  ret ((COLOR :: splat color)
       ++ [CONE] ++ splat (item vertices 0) ++ splat (item vertices 1)
       ++ [Num 0; Num r] ++ splat color ++ splat color ++ [Num 1; Num 1]).

Definition diamond_vertices_local (r : R) : list V3 :=
  [mkV3 0 0 r; mkV3 0 0 (- r); mkV3 0 r 0; mkV3 0 (- r) 0; mkV3 r 0 0; mkV3 (- r) 0 0].

Fixpoint normalize_all (l : list V3) : W (list V3) :=
  match l with
  | [] => ret []
  | v :: rest =>
      u <- normalize_vector v ;;
      rest' <- normalize_all rest ;;
      ret (u :: rest')
  end.

Definition diamond_normals_local : W (list V3) :=
  normalize_all
    [mkV3 1 1 1; mkV3 (-1) 1 1; mkV3 (-1) (-1) 1; mkV3 1 (-1) 1;
     mkV3 1 1 (-1); mkV3 (-1) 1 (-1); mkV3 (-1) (-1) (-1); mkV3 1 (-1) (-1)].

(** One triangle: [NORMAL, *normals[n], VERTEX, *vertices[a], VERTEX,
    *vertices[b], VERTEX, *vertices[c]]. *)
Definition diamond_face (normals vertices : list V3) (n a b c : nat)
  : list cgo_token :=
  [NORMAL] ++ splat (item normals n)
  ++ [VERTEX] ++ splat (item vertices a)
  ++ [VERTEX] ++ splat (item vertices b)
  ++ [VERTEX] ++ splat (item vertices c).

Definition cgo_diamond (x y z r : R) (color : Color) (x_axis y_axis z_axis : V3)
  : W (list cgo_token) :=
  let center := mkV3 x y z in
  rotation_matrix <- get_transformation_matrix x_axis y_axis z_axis ;;
  let vertices := transform_vertices (diamond_vertices_local r) center rotation_matrix in
  normals_local <- diamond_normals_local ;;
  normals <- transform_normals normals_local rotation_matrix ;;
  ret ((COLOR :: splat color)
       ++ [BEGIN; TRIANGLES]
       ++ diamond_face normals vertices 0 0 2 4
       ++ diamond_face normals vertices 1 0 5 2
       ++ diamond_face normals vertices 2 0 3 5
       ++ diamond_face normals vertices 3 0 4 3
       ++ diamond_face normals vertices 4 1 4 2
       ++ diamond_face normals vertices 5 1 2 5
       ++ diamond_face normals vertices 6 1 5 3
       ++ diamond_face normals vertices 7 1 3 4
       ++ [END]).

Definition cgo_half_diamond (x y z r : R) (color color_2 : Color)
  (x_axis y_axis z_axis : V3) : W (list cgo_token) :=
  let center := mkV3 x y z in
  rotation_matrix <- get_transformation_matrix x_axis y_axis z_axis ;;
  let vertices := transform_vertices (diamond_vertices_local r) center rotation_matrix in
  normals_local <- diamond_normals_local ;;
  normals <- transform_normals normals_local rotation_matrix ;;
  ret ([BEGIN; TRIANGLES]
       ++ (COLOR :: splat color_2) ++ diamond_face normals vertices 0 0 2 4
       ++ (COLOR :: splat color) ++ diamond_face normals vertices 1 0 5 2
       ++ (COLOR :: splat color) ++ diamond_face normals vertices 2 0 3 5
       ++ (COLOR :: splat color_2) ++ diamond_face normals vertices 3 0 4 3
       ++ (COLOR :: splat color_2) ++ diamond_face normals vertices 4 1 4 2
       ++ (COLOR :: splat color) ++ diamond_face normals vertices 5 1 2 5
       ++ (COLOR :: splat color) ++ diamond_face normals vertices 6 1 5 3
       ++ (COLOR :: splat color_2) ++ diamond_face normals vertices 7 1 3 4
       ++ [END]).

Definition cube_vertices_local (r_half : R) : list V3 :=
  let p := r_half in
  let m := - r_half in
  [ mkV3 p p m; mkV3 p m m; mkV3 p p p; mkV3 p m p;
    mkV3 m p p; mkV3 m m p; mkV3 m p m; mkV3 m m m;
    mkV3 m p p; mkV3 p p p; mkV3 m p m; mkV3 p p m;
    mkV3 m m m; mkV3 p m m; mkV3 m m p; mkV3 p m p;
    mkV3 m p p; mkV3 m m p; mkV3 p p p; mkV3 p m p;
    mkV3 m m m; mkV3 m p m; mkV3 p m m; mkV3 p p m ].

Definition cube_strip_orders : list (list nat) :=
  [ [0; 2; 1; 3]; [0; 2; 1; 3]; [0; 2; 1; 3];
    [0; 2; 1; 3]; [0; 2; 1; 3]; [0; 2; 1; 3] ]%nat.

Definition cube_normals_local : list V3 :=
  [ mkV3 1 0 0; mkV3 (-1) 0 0; mkV3 0 1 0;
    mkV3 0 (-1) 0; mkV3 0 0 1; mkV3 0 0 (-1) ].

Definition cgo_cube (x y z r : R) (color : Color) (x_axis y_axis z_axis : V3)
  : W (list cgo_token) :=
  let center := mkV3 x y z in
  rotation_matrix <- get_transformation_matrix x_axis y_axis z_axis ;;
  let r_half := r in
  let vertices := transform_vertices (cube_vertices_local r_half) center rotation_matrix in
  normals <- transform_normals cube_normals_local rotation_matrix ;;
  ret ((COLOR :: splat color)
       ++ flat_map
            (fun i =>
               [BEGIN; TRIANGLE_STRIP]
               ++ ([NORMAL] ++ splat (item normals i))
               ++ (let face_vertex_start_index := (i * 4)%nat in
                   flat_map
                     (fun strip_index =>
                        let vertex_index := (face_vertex_start_index + strip_index)%nat in
                        [VERTEX] ++ splat (item vertices vertex_index))
                     (nth i cube_strip_orders []))
               ++ [END])
            (seq 0 6)).

(** ** render_snfg *)

(** [snfg_shapes]: residue name to colour and shape name. *)
Definition snfg_shapes : dict string (Color * string) :=
  [ ("GLC", (SNFG_BLUE, "sphere"));
    ("MAL", (SNFG_BLUE, "sphere"));
    ("BGC", (SNFG_BLUE, "sphere"));
    ("MAN", (SNFG_GREEN, "sphere"));
    ("BMA", (SNFG_GREEN, "sphere"));
    ("GAL", (SNFG_YELLOW, "sphere"));
    ("GLA", (SNFG_YELLOW, "sphere"));
    ("FUC", (SNFG_RED, "cone"));
    ("FUL", (SNFG_RED, "cone"));
    ("XYL", (SNFG_ORANGE, "star"));
    ("XYP", (SNFG_ORANGE, "star"));
    ("XYS", (SNFG_ORANGE, "star"));
    ("ARA", (SNFG_GREEN, "star"));
    ("AHR", (SNFG_GREEN, "star"));
    ("RIB", (SNFG_PINK, "star"));
    ("NAG", (SNFG_BLUE, "cube"));
    ("GLCNAC", (SNFG_BLUE, "cube"));
    ("4YS", (SNFG_BLUE, "cube"));
    ("SGN", (SNFG_BLUE, "cube"));
    ("BGLN", (SNFG_BLUE, "cube"));
    ("NDG", (SNFG_BLUE, "cube"));
    ("NGA", (SNFG_YELLOW, "cube"));
    ("GALNAC", (SNFG_YELLOW, "cube"));
    ("A2G", (SNFG_YELLOW, "cube"));
    ("MANNA", (SNFG_GREEN, "cube"));
    ("NEU5AC", (SNFG_PURPLE, "diamond"));
    ("SIA", (SNFG_PURPLE, "diamond"));
    ("NEU5GC", (SNFG_LIGHT_BLUE, "diamond"));
    ("NGC", (SNFG_LIGHT_BLUE, "diamond"));
    ("KDN", (SNFG_GREEN, "diamond"));
    ("ADA", (SNFG_YELLOW, "half_diamond"));
    ("GLCA", (SNFG_BLUE, "half_diamond"));
    ("GCU", (SNFG_BLUE, "half_diamond"));
    ("BDP", (SNFG_BLUE, "half_diamond"));
    ("IDOA", (SNFG_BROWN, "half_diamond_reverse"));
    ("IDS", (SNFG_BROWN, "half_diamond_reverse"));
    ("IDR", (SNFG_BROWN, "half_diamond_reverse"));
    ("API", (SNFG_PINK, "diamond")) ].

(** [sep.join(parts)] *)
Fixpoint join (sep : string) (parts : list string) : string :=
  match parts with
  | [] => ""
  | [p] => p
  | p :: rest => p ++ sep ++ join sep rest
  end.

(** [c.isalnum()] on an ASCII character. *)
Definition isalnum (c : ascii) : bool :=
  let n := nat_of_ascii c in
  ((48 <=? n) && (n <=? 57) || (65 <=? n) && (n <=? 90)
   || (97 <=? n) && (n <=? 122))%nat.

Fixpoint sanitize (selection : string) : string :=
  match selection with
  | EmptyString => EmptyString
  | String c rest => String (if isalnum c then c else "_"%char) (sanitize rest)
  end.

Definition safe_selection_name (selection : string) : string :=
  let s := sanitize selection in
  if String.eqb s "" then "selection" else s.

Definition target_resn : string := join "+" (dict_keys snfg_shapes).

Definition full_selection (selection : string) : string :=
  "(" ++ selection ++ ") and resn " ++ target_resn.

(** What a guarded call does: it returns, or it raises. *)
Inductive outcome (A : Type) : Type :=
| Returns (a : A)
| Raises (e : pyexn).
Arguments Returns {A} a.
Arguments Raises {A} e.

(** The shape generators as the per-residue [try] block calls them. *)
Record Generators : Type := mkGenerators {
  gen_sphere : R -> R -> R -> R -> Color -> W (outcome (list cgo_token));
  gen_star : R -> R -> R -> R -> Color -> V3 -> V3 -> V3 -> W (outcome (list cgo_token));
  gen_cone : R -> R -> R -> R -> Color -> V3 -> V3 -> V3 -> W (outcome (list cgo_token));
  gen_cube : R -> R -> R -> R -> Color -> V3 -> V3 -> V3 -> W (outcome (list cgo_token));
  gen_diamond : R -> R -> R -> R -> Color -> V3 -> V3 -> V3 -> W (outcome (list cgo_token));
  gen_half_diamond :
    R -> R -> R -> R -> Color -> Color -> V3 -> V3 -> V3 -> W (outcome (list cgo_token))
}.

Definition returning {A} (m : W A) : W (outcome A) := a <- m ;; ret (Returns a).

(** The generators of this module: none of them raises. *)
Definition cgo_generators : Generators :=
  {| gen_sphere := fun x y z size color => ret (Returns (cgo_sphere x y z size color));
     gen_star := fun x y z r color xa ya za => returning (cgo_star x y z r color xa ya za);
     gen_cone := fun x y z r color xa ya za => returning (cgo_cone x y z r color xa ya za);
     gen_cube := fun x y z r color xa ya za => returning (cgo_cube x y z r color xa ya za);
     gen_diamond := fun x y z r color xa ya za => returning (cgo_diamond x y z r color xa ya za);
     gen_half_diamond := fun x y z r color color_2 xa ya za =>
                           returning (cgo_half_diamond x y z r color color_2 xa ya za) |}.

(** The [if shape == ... elif ... else] chain inside the [try]. *)
Definition dispatch_shape (G : Generators) (scale : R) (resn shape : string)
  (color : Color) (x y z : R) (x_axis y_axis z_axis : V3)
  : W (outcome (list cgo_token)) :=
  let shape_scale_factor := 4.0 * scale in
  if String.eqb shape "sphere" then
    gen_sphere G x y z (1.8 * scale) color
  else if String.eqb shape "star" then
    gen_star G x y z shape_scale_factor color x_axis y_axis z_axis
  else if String.eqb shape "cone" then
    gen_cone G x y z (shape_scale_factor * 0.75) color x_axis y_axis z_axis
  else if String.eqb shape "cube" then
    gen_cube G x y z (shape_scale_factor * 0.55) color x_axis y_axis z_axis
  else if String.eqb shape "diamond" then
    gen_diamond G x y z (shape_scale_factor * 0.75) color x_axis y_axis z_axis
  else if String.eqb shape "half_diamond" then
    gen_half_diamond G x y z (shape_scale_factor * 0.75) color SNFG_WHITE
      x_axis y_axis z_axis
  else if String.eqb shape "half_diamond_reverse" then
    gen_half_diamond G x y z (shape_scale_factor * 0.75) SNFG_WHITE color
      x_axis y_axis z_axis
  else
    tell (MsgShapeNotImplemented shape resn) ;;;
    gen_sphere G x y z (1.8 * scale) color.

(** The three cylinders appended to [debug_cgo_objects] for one frame. *)
Definition debug_axes_cgo (scale : R) (center x_axis y_axis z_axis : V3)
  : list cgo_token :=
  let shape_scale_factor := 4.0 * scale in
  let axis_length := shape_scale_factor * 1.5 in
  let axis_radius := scale * 0.1 in
  let end_x := vadd center (vscale x_axis axis_length) in
  let end_y := vadd center (vscale y_axis axis_length) in
  let end_z := vadd center (vscale z_axis axis_length) in
  ([CYLINDER] ++ splat center ++ splat end_x ++ [Num axis_radius]
   ++ splat AXIS_X_COLOR ++ splat AXIS_X_COLOR)
  ++ ([CYLINDER] ++ splat center ++ splat end_y ++ [Num axis_radius]
      ++ splat AXIS_Y_COLOR ++ splat AXIS_Y_COLOR)
  ++ ([CYLINDER] ++ splat center ++ splat end_z ++ [Num axis_radius]
      ++ splat AXIS_Z_COLOR ++ splat AXIS_Z_COLOR).

(** The variables the per-residue loop updates. *)
Record LoopState : Type := mkLoopState {
  cgo_objects : list cgo_token;
  debug_cgo_objects : list cgo_token;
  processed_count : nat
}.

Definition is_empty {A} (l : list A) : bool :=
  match l with [] => true | _ :: _ => false end.

(** One iteration of the per-residue loop. *)
Definition render_residue (G : Generators) (scale : R) (debug_axes : bool)
  (st : LoopState) (frame : Frame) : W LoopState :=
  let resn := f_resn frame in
  let center := f_center frame in
  match dict_get String.eqb resn snfg_shapes with
  | None =>
      tell (MsgNotInTable resn center) ;;;
      ret st
  | Some (color, shape) =>
      res <- dispatch_shape G scale resn shape color
               (vx center) (vy center) (vz center)
               (x_axis frame) (y_axis frame) (z_axis frame) ;;
      match res with
      | Raises e =>
          tell (MsgErrorGenerating resn center e) ;;;
          ret st
      | Returns cgo_obj =>
          st1 <- (if negb (is_empty cgo_obj) then
                    ret (mkLoopState (cgo_objects st ++ cgo_obj)
                           (debug_cgo_objects st) (S (processed_count st)))
                  else
                    tell (MsgNoCgo resn center shape) ;;;
                    ret st) ;;
          if debug_axes then
            if negb (isnan_any (x_axis frame) || isnan_any (y_axis frame)
                     || isnan_any (z_axis frame)) then
              ret (mkLoopState (cgo_objects st1)
                     (debug_cgo_objects st1
                      ++ debug_axes_cgo scale center (x_axis frame)
                           (y_axis frame) (z_axis frame))
                     (processed_count st1))
            else
              tell (MsgSkipAxesNaN resn center) ;;;
              ret st1
          else ret st1
      end
  end.

Fixpoint render_loop (G : Generators) (scale : R) (debug_axes : bool)
  (orientation_data : list Frame) (st : LoopState) : W LoopState :=
  match orientation_data with
  | [] => ret st
  | frame :: rest =>
      st1 <- render_residue G scale debug_axes st frame ;;
      render_loop G scale debug_axes rest st1
  end.

(** Calls into the PyMOL sink. *)
Inductive SinkCmd : Type :=
| Delete (name : string)
| LoadCgo (primitives : list cgo_token) (name : string).

(** The tail of [render_snfg], after the per-residue loop. *)
Definition render_emit (selection : string) (transparency : R)
  (debug_axes : bool) (st : LoopState) : W (list SinkCmd) :=
  if is_empty (cgo_objects st) then
    tell MsgNoValidCgo ;;;
    if debug_axes && negb (is_empty (debug_cgo_objects st)) then
      let cgo_name := ("snfg_" ++ safe_selection_name selection)%string in
      let debug_cgo_name := (cgo_name ++ "_axes")%string in
      tell (MsgAxesLoaded debug_cgo_name) ;;;
      ret [LoadCgo (debug_cgo_objects st) debug_cgo_name]
    else ret []
  else
    let cgo_name := ("snfg_" ++ safe_selection_name selection)%string in
    tell (MsgProcessed (processed_count st) cgo_name) ;;;
    axes <- (if debug_axes && negb (is_empty (debug_cgo_objects st)) then
               let debug_cgo_name := (cgo_name ++ "_axes")%string in
               tell (MsgAxesLoaded debug_cgo_name) ;;;
               ret [Delete debug_cgo_name;
                    LoadCgo (debug_cgo_objects st) debug_cgo_name]
             else if debug_axes then
               tell MsgAxesNoneGenerated ;;; ret []
             else ret []) ;;
    tell (MsgTransparencyNote transparency) ;;;
    ret ([Delete cgo_name; LoadCgo (cgo_objects st) cgo_name] ++ axes).

(** [render_snfg], with the collaborators it reaches made explicit: the
    linear-algebra oracle, the generators' table, and [cmd.get_model]. *)
Definition render_snfg (la : LinAlg) (G : Generators)
  (cmd_get_model : string -> list Atom)
  (selection : string) (transparency scale : R) (debug_axes : bool)
  : W (list SinkCmd) :=
  tell (MsgApplying (full_selection selection)) ;;;
  orientation_data <- get_residue_orientation la
                        (cmd_get_model (full_selection selection)) ;;
  if is_empty orientation_data then
    tell MsgNoResidues ;;;
    ret []
  else
    tell (MsgProcessing (List.length orientation_data)) ;;;
    st <- render_loop G scale debug_axes orientation_data (mkLoopState [] [] 0) ;;
    render_emit selection transparency debug_axes st.

(** ** The PyMOL object table *)

(** A named CGO object holds one primitive list per state.  [cmd.delete]
    removes the object; [cmd.load_cgo] with its default [state=0] adds a
    state to an object of that name and creates the object otherwise. *)
Definition ObjectTable : Type := dict string (list (list cgo_token)).

Definition table_delete (name : string) (t : ObjectTable) : ObjectTable :=
  filter (fun entry => negb (String.eqb (fst entry) name)) t.

Definition table_load (primitives : list cgo_token) (name : string)
  (t : ObjectTable) : ObjectTable :=
  match dict_get String.eqb name t with
  | Some states => dict_set String.eqb name (states ++ [primitives]) t
  | None => dict_set String.eqb name [primitives] t
  end.

Definition run_cmd (t : ObjectTable) (c : SinkCmd) : ObjectTable :=
  match c with
  | Delete name => table_delete name t
  | LoadCgo primitives name => table_load primitives name t
  end.

Definition run_sink (cmds : list SinkCmd) (t : ObjectTable) : ObjectTable :=
  fold_left run_cmd cmds t.

(** A PyMOL session: the atoms a selection expression denotes, and the
    CGO objects loaded so far.  Rendering reads the first and writes the
    second. *)
Record Session : Type := mkSession {
  cmd_get_model : string -> list Atom;
  cgo_table : ObjectTable
}.

Definition render_session (la : LinAlg) (G : Generators)
  (selection : string) (transparency scale : R) (debug_axes : bool)
  (s : Session) : Session :=
  let cmds := value (render_snfg la G (cmd_get_model s) selection
                       transparency scale debug_axes) in
  mkSession (cmd_get_model s) (run_sink cmds (cgo_table s)).

(** * Vocabulary of the properties *)

(** ** Reading a token stream back *)

(** The face groups of a stream: for each [BEGIN] ... [END] pair, the
    tokens strictly between the two. *)
Fixpoint face_groups_from (inside : option (list cgo_token))
  (l : list cgo_token) : list (list cgo_token) :=
  match l with
  | [] => []
  | BEGIN :: rest => face_groups_from (Some []) rest
  | END :: rest =>
      match inside with
      | Some g => rev g :: face_groups_from None rest
      | None => face_groups_from None rest
      end
  | t :: rest =>
      match inside with
      | Some g => face_groups_from (Some (t :: g)) rest
      | None => face_groups_from None rest
      end
  end.

Definition face_groups (l : list cgo_token) : list (list cgo_token) :=
  face_groups_from None l.

Definition is_op (op t : cgo_token) : bool :=
  match op, t with
  | BEGIN, BEGIN | END, END | VERTEX, VERTEX | NORMAL, NORMAL
  | COLOR, COLOR | SPHERE, SPHERE | CYLINDER, CYLINDER | CONE, CONE
  | TRIANGLES, TRIANGLES | TRIANGLE_STRIP, TRIANGLE_STRIP
  | TRIANGLE_FAN, TRIANGLE_FAN => true
  | _, _ => false
  end.

Definition count_op (op : cgo_token) (l : list cgo_token) : nat :=
  List.length (filter (is_op op) l).

(** The operand triples that follow each occurrence of [op]. *)
Fixpoint operands_of (op : cgo_token) (l : list cgo_token) : list V3 :=
  match l with
  | [] => []
  | t :: rest =>
      if is_op op t then
        match rest with
        | Num a :: Num b :: Num c :: _ => mkV3 a b c :: operands_of op rest
        | _ => operands_of op rest
        end
      else operands_of op rest
  end.

(** A fan as [cgo_star] writes it, between [BEGIN] and [END]: the
    primitive kind, one normal, then the vertices. *)
Definition fan_group (n : V3) (vs : list V3) : list cgo_token :=
  [TRIANGLE_FAN; NORMAL] ++ splat n
  ++ flat_map (fun v => VERTEX :: splat v) vs.

(** ** The residues of a selection *)

Definition residue_of (a : Atom) : res_key :=
  (atom_chain a, atom_resi a, atom_resn a).

(** The atoms of residue [k] in the selection that carry a required
    name, in the order of the selection. *)
Definition required_in (model_atom : list Atom) (k : res_key) : list Atom :=
  filter (fun a => str_in (atom_name a) required_atoms
                   && key_eqb (residue_of a) k) model_atom.

Definition store_atom (atoms : dict string V3) (a : Atom) : dict string V3 :=
  dict_set String.eqb (atom_name a) (atom_coord a) atoms.

(** Name to coordinate for the required atoms found in residue [k]; a
    name that occurs twice keeps its last coordinate. *)
Definition required_atoms_of (model_atom : list Atom) (k : res_key)
  : dict string V3 :=
  fold_left store_atom (required_in model_atom k) [].

(** How many of the six required names residue [k] has. *)
Definition required_found (model_atom : list Atom) (k : res_key) : nat :=
  List.length (coords_of required_atoms (required_atoms_of model_atom k)).

(** ** Orthonormal right-handed frames *)

Definition orthonormal_right_handed (x y z : V3) : Prop :=
  dot x x = 1 /\ dot y y = 1 /\ dot z z = 1 /\
  dot x y = 0 /\ dot y z = 0 /\ dot z x = 0 /\
  dot (cross x y) z = 1.

(** A basis: three mutually orthogonal unit axes, of either hand. *)
Definition orthonormal (x y z : V3) : Prop :=
  dot x x = 1 /\ dot y y = 1 /\ dot z z = 1 /\
  dot x y = 0 /\ dot y z = 0 /\ dot z x = 0.

Ltac w_simpl := unfold bind, ret, tell, value; cbn [fst snd].

(** ** Sample selections, oracles and generator tables *)

Definition sample_key : res_key := ("A", "1", "NAG").

Definition sample_atom (name : string) (c : V3) : Atom :=
  mkAtom name "A" "1" "NAG" c.

(** Four ring atoms in the plane x = 0 whose mean is the position of C4. *)
Definition coincident_model : list Atom :=
  [ sample_atom "C1" (mkV3 0 1 0); sample_atom "C2" (mkV3 0 0 1);
    sample_atom "C4" (mkV3 0 0 0); sample_atom "O5" (mkV3 0 (-1) (-1)) ].

(** Three ring atoms, none of them C4. *)
Definition no_C4_model : list Atom :=
  [ sample_atom "C1" (mkV3 1 0 0); sample_atom "C2" (mkV3 0 1 0);
    sample_atom "C3" (mkV3 0 0 1) ].

(** An oracle that answers as LAPACK does on [coincident_model]: rank 2,
    and the x direction as the singular vector of the smallest singular
    value. *)
Definition plane_x_oracle : LinAlg :=
  mkLinAlg (fun _ => Some 2%nat) (fun _ => Some (mkV3 1 0 0)).

(** A residue with two ring atoms, and one with none of the six. *)
Definition two_atom_model : list Atom :=
  [ mkAtom "C6" "A" "7" "MAN" (mkV3 5 5 5);
    sample_atom "C1" (mkV3 1 0 0); sample_atom "C2" (mkV3 0 1 0) ].

(** ** The per-residue loop, frame by frame *)

(** What the guarded generator call of one iteration does for a frame;
    [None] when the residue name is not in [snfg_shapes]. *)
Definition generated (G : Generators) (scale : R) (f : Frame)
  : option (outcome (list cgo_token)) :=
  match dict_get String.eqb (f_resn f) snfg_shapes with
  | None => None
  | Some (color, shape) =>
      Some (value (dispatch_shape G scale (f_resn f) shape color
                     (vx (f_center f)) (vy (f_center f)) (vz (f_center f))
                     (x_axis f) (y_axis f) (z_axis f)))
  end.

(** The primitives a frame contributes: those its generator returned. *)
Definition primitives_of (G : Generators) (scale : R) (f : Frame)
  : list cgo_token :=
  match generated G scale f with
  | Some (Returns cgo_obj) => cgo_obj
  | _ => []
  end.

(** The name under which the main object is loaded. *)
Definition cgo_name_of (selection : string) : string :=
  ("snfg_" ++ safe_selection_name selection)%string.

(** ** More sample inputs *)

(** A generator table whose cube generator raises. *)
Definition failing_cube_generators : Generators :=
  {| gen_sphere := gen_sphere cgo_generators;
     gen_star := gen_star cgo_generators;
     gen_cone := gen_cone cgo_generators;
     gen_cube := fun _ _ _ _ _ _ _ _ => ret (Raises (PyExn "singular matrix"));
     gen_diamond := gen_diamond cgo_generators;
     gen_half_diamond := gen_half_diamond cgo_generators |}.

(** One GlcNAc residue (a cube) and one mannose residue (a sphere). *)
Definition cube_and_sphere_model : list Atom :=
  [ sample_atom "C1" (mkV3 1 0 0); mkAtom "C1" "A" "2" "MAN" (mkV3 4 0 0) ].

(** A generator table whose generators return without primitives, the
    case the loop's [if cgo_obj:] test provides for. *)
Definition silent_generators : Generators :=
  {| gen_sphere := fun _ _ _ _ _ => ret (Returns []);
     gen_star := fun _ _ _ _ _ _ _ _ => ret (Returns []);
     gen_cone := fun _ _ _ _ _ _ _ _ => ret (Returns []);
     gen_cube := fun _ _ _ _ _ _ _ _ => ret (Returns []);
     gen_diamond := fun _ _ _ _ _ _ _ _ => ret (Returns []);
     gen_half_diamond := fun _ _ _ _ _ _ _ _ _ => ret (Returns []) |}.

(** A table that already holds a main object for the selection "all". *)
Definition earlier_table : ObjectTable :=
  [ ("snfg_all", [cgo_sphere 0 0 0 1 SNFG_GREEN]) ].

(** A session with the two sample residues and an earlier main object. *)
Definition sample_session : Session :=
  mkSession (fun _ => cube_and_sphere_model) earlier_table.

(** ** Decoding a token stream *)

(** The instructions of a stream: each opcode with the numeric operands
    that follow it. *)
Fixpoint instructions_from (current : option (cgo_token * list R))
  (l : list cgo_token) : list (cgo_token * list R) :=
  match l with
  | [] =>
      match current with
      | Some (op, args) => [(op, rev args)]
      | None => []
      end
  | Num r :: rest =>
      match current with
      | Some (op, args) => instructions_from (Some (op, r :: args)) rest
      | None => instructions_from None rest
      end
  | op :: rest =>
      match current with
      | Some (op', args) =>
          (op', rev args) :: instructions_from (Some (op, [])) rest
      | None => instructions_from (Some (op, [])) rest
      end
  end.

Definition instructions (l : list cgo_token) : list (cgo_token * list R) :=
  instructions_from None l.

Definition v3_of (args : list R) : V3 :=
  match args with
  | [a; b; c] => mkV3 a b c
  | _ => mkV3 0 0 0
  end.

(** A triangle as the diamonds write it: the colour in force, the
    declared normal and the three corners. *)
Record Triangle : Type := mkTriangle {
  t_color : V3;
  t_normal : V3;
  t_a : V3;
  t_b : V3;
  t_c : V3
}.

Fixpoint triangles_from (color : V3) (l : list (cgo_token * list R))
  : list Triangle :=
  match l with
  | [] => []
  | (COLOR, c) :: rest => triangles_from (v3_of c) rest
  | (NORMAL, n) :: rest =>
      match rest with
      | (VERTEX, a) :: (VERTEX, b) :: (VERTEX, c) :: _ =>
          mkTriangle color (v3_of n) (v3_of a) (v3_of b) (v3_of c)
          :: triangles_from color rest
      | _ => triangles_from color rest
      end
  | _ :: rest => triangles_from color rest
  end.

Definition triangles_of (l : list cgo_token) : list Triangle :=
  triangles_from (mkV3 0 0 0) (instructions l).


(** The token stream of the two diamonds, from the lists of transformed
    normals and vertices and the colour of each of the eight faces. *)
Definition diamond_faces (normals vertices : list V3) : list (list cgo_token) :=
  [ diamond_face normals vertices 0 0 2 4;
    diamond_face normals vertices 1 0 5 2;
    diamond_face normals vertices 2 0 3 5;
    diamond_face normals vertices 3 0 4 3;
    diamond_face normals vertices 4 1 4 2;
    diamond_face normals vertices 5 1 2 5;
    diamond_face normals vertices 6 1 5 3;
    diamond_face normals vertices 7 1 3 4 ].

(** The sign patterns of the eight local normals. *)
Definition diamond_signs : list V3 :=
  [mkV3 1 1 1; mkV3 (-1) 1 1; mkV3 (-1) (-1) 1; mkV3 1 (-1) 1;
   mkV3 1 1 (-1); mkV3 (-1) 1 (-1); mkV3 (-1) (-1) (-1); mkV3 1 (-1) (-1)].






(** The coordinate a name ends up with: that of the last atom of the
    list that carries it. *)
Definition last_coord (name : string) (l : list Atom) : option V3 :=
  fold_left (fun found a =>
               if String.eqb (atom_name a) name then Some (atom_coord a)
               else found)
            l None.

(** The distinct elements of a list of residue keys, each at the place
    of its first occurrence. *)
Definition first_seen (keys : list res_key) : list res_key :=
  fold_left (fun seen k => if existsb (key_eqb k) seen then seen else seen ++ [k])
            keys [].

(** The atoms of a selection that carry a required name. *)
Definition ring_atoms (model_atom : list Atom) : list Atom :=
  filter (fun a => str_in (atom_name a) required_atoms) model_atom.

(** The three cylinders a frame adds to the axes list when its generator
    returned; nothing when it raised or the residue is not in the
    table. *)
Definition axes_of (G : Generators) (scale : R) (f : Frame) : list cgo_token :=
  match generated G scale f with
  | Some (Returns _) =>
      debug_axes_cgo scale (f_center f) (x_axis f) (y_axis f) (z_axis f)
  | _ => []
  end.

Definition in_table (f : Frame) : bool := dict_mem String.eqb (f_resn f) snfg_shapes.

Definition cmd_name (c : SinkCmd) : string :=
  match c with
  | Delete name => name
  | LoadCgo _ name => name
  end.

(** Letters, digits and the underscore. *)
Definition safe_char (c : ascii) : bool := isalnum c || Ascii.eqb c "_"%char.

(** A selection with atoms, none of which carries a required name. *)
Definition no_ring_model : list Atom :=
  [ mkAtom "C6" "A" "7" "MAN" (mkV3 5 5 5); mkAtom "O6" "A" "7" "MAN" (mkV3 6 5 5) ].

(** * reglyco_interface.py: get_specific_residues_as_dicts *)

(** One CA atom as [cmd.iterate] hands it to the expression
    [residue_map[(chain, int(resi))] = resn]: three strings.  [resi] is
    the residue identifier as PyMOL holds it, a number that may carry an
    insertion code, such as 100A. *)
Record CaAtom : Type := mkCaAtom {
  ca_chain : string;
  ca_resi : string;
  ca_resn : string
}.

(** The key [(chain, resi_num)] of [residue_map]. *)
Definition pos : Type := (string * Z)%type.

Definition pos_eqb (a b : pos) : bool :=
  String.eqb (fst a) (fst b) && Z.eqb (snd a) (snd b).

(** What [cmd.iterate] does when the expression raises for an atom.
    This is PyMOL's part, not the module's: the call may raise in its
    turn, it may end the iteration and return with the entries made so
    far, or it may pass over the atom. *)
Inductive IterateMode : Type :=
| RaiseOnError (exn : CaAtom -> pyexn)
| StopOnError
| SkipOnError.

(** The expression [residue_map[(chain, int(resi))] = resn] for one
    atom.  [int] is Python's builtin on a string; [None] stands for its
    [ValueError]. *)
Definition assign_residue (int : string -> option Z)
  (residue_map : dict pos string) (a : CaAtom) : option (dict pos string) :=
  match int (ca_resi a) with
  | Some resi_num =>
      Some (dict_set pos_eqb (ca_chain a, resi_num) (ca_resn a) residue_map)
  | None => None
  end.

(** [cmd.iterate] over the atoms of the selection, in their order, on
    the dictionary passed as [space]. *)
Fixpoint iterate_residues (int : string -> option Z) (mode : IterateMode)
  (atoms : list CaAtom) (residue_map : dict pos string)
  : outcome (dict pos string) :=
  match atoms with
  | [] => Returns residue_map
  | a :: rest =>
      match assign_residue int residue_map a with
      | Some residue_map' => iterate_residues int mode rest residue_map'
      | None =>
          match mode with
          | RaiseOnError exn => Raises (exn a)
          | StopOnError => Returns residue_map
          | SkipOnError => iterate_residues int mode rest residue_map
          end
      end
  end.

(** Python's [<=] on two [(str, int)] tuples: the strings by code point,
    then the integers. *)
Definition pos_leb (a b : pos) : bool :=
  match String_as_OT.compare (fst a) (fst b) with
  | Lt => true
  | Eq => (snd a <=? snd b)%Z
  | Gt => false
  end.

(** [sorted(...)], as an insertion sort; the keys of a dictionary are
    distinct, so that the order alone fixes the result. *)
Fixpoint insert_pos (k : pos) (l : list pos) : list pos :=
  match l with
  | [] => [k]
  | h :: t => if pos_leb k h then k :: l else h :: insert_pos k t
  end.

Definition sorted (l : list pos) : list pos := fold_right insert_pos [] l.

Definition simple_inclusion_residues : list string := ["SER"; "THR"; "TRP"; "PRO"].
Definition sequon_third_pos_residues : list string := ["SER"; "THR"; "CYS"].

(** One entry of the returned list. *)
Record Site : Type := mkSite {
  residueID : Z;
  residueChain : string;
  residueName : string
}.

Inductive SiteMsg : Type :=
| MsgEmptySelection (selection : string)
| MsgFoundSites (count : nat) (selection : string).

(** [res_stc in sequon_third_pos_residues], where [res_stc] may be
    [None]. *)
Definition in_sequon_third (res_stc : option string) : bool :=
  match res_stc with
  | Some resn => str_in resn sequon_third_pos_residues
  | None => false
  end.

(** The body of the loop over the sorted keys: what it appends. *)
Definition site_step (residue_map : dict pos string) (key : pos) : list Site :=
  let chain := fst key in
  let resi_num := snd key in
  match dict_get pos_eqb (chain, resi_num) residue_map with
  | None => []
  | Some current_resn =>
      if str_in current_resn simple_inclusion_residues then
        [mkSite resi_num chain current_resn]
      else if String.eqb current_resn "ASN" then
        let pos_x := (chain, (resi_num + 1)%Z) in
        let pos_stc := (chain, (resi_num + 2)%Z) in
        let res_x := dict_get pos_eqb pos_x residue_map in
        let res_stc := dict_get pos_eqb pos_stc residue_map in
        match res_x with
        | Some x =>
            if negb (String.eqb x "PRO") && in_sequon_third res_stc
            then [mkSite resi_num chain "ASN"] else []
        | None => []
        end
      else []
  end.

(** [select] gives the atoms of a selection expression, in the order in
    which [cmd.iterate] visits them.  An exception of [cmd.iterate] is
    not caught: it leaves the function before anything is printed. *)
Definition get_specific_residues_as_dicts
  (int : string -> option Z) (mode : IterateMode)
  (select : string -> list CaAtom) (selection : string)
  : outcome (list Site) * list SiteMsg :=
  match iterate_residues int mode
          (select ("(" ++ selection ++ ") and name CA")%string) [] with
  | Raises e => (Raises e, [])
  | Returns residue_map =>
      if is_empty residue_map then
        (Returns [], [MsgEmptySelection selection])
      else
        let final_residue_list :=
          flat_map (site_step residue_map) (sorted (dict_keys residue_map)) in
        (Returns final_residue_list,
         [MsgFoundSites (List.length final_residue_list) selection])
  end.

(** The position of an entry, and the strict order on positions. *)
Definition site_pos (s : Site) : pos := (residueChain s, residueID s).

Definition pos_lt (a b : pos) : Prop :=
  String_as_OT.lt (fst a) (fst b) \/ (fst a = fst b /\ (snd a < snd b)%Z).

(** The rule the loop applies to the residue at a position. *)
Definition reported (residue_map : dict pos string) (s : Site) : Prop :=
  dict_get pos_eqb (site_pos s) residue_map = Some (residueName s) /\
  (In (residueName s) simple_inclusion_residues \/
   (residueName s = "ASN"%string /\
    exists x t,
      dict_get pos_eqb (residueChain s, (residueID s + 1)%Z) residue_map
      = Some x /\
      x <> "PRO"%string /\
      dict_get pos_eqb (residueChain s, (residueID s + 2)%Z) residue_map
      = Some t /\
      In t sequon_third_pos_residues)).

(** [int] accepts the residue identifier of an atom. *)
Definition parses (int : string -> option Z) (a : CaAtom) : bool :=
  match int (ca_resi a) with Some _ => true | None => false end.

(** The atoms for which the assignment took place when [cmd.iterate]
    returned: those before the first one that [int] rejects if the
    iteration stops there, else all those that [int] accepts. *)
Fixpoint recorded (int : string -> option Z) (mode : IterateMode)
  (atoms : list CaAtom) : list CaAtom :=
  match atoms with
  | [] => []
  | a :: rest =>
      if parses int a then a :: recorded int mode rest
      else match mode with
           | StopOnError => []
           | _ => recorded int mode rest
           end
  end.

(** The resn of the last atom of a list that is assigned to a position,
    or [found] if there is none. *)
Definition last_resn_from (int : string -> option Z) (found : option string)
  (key : pos) (atoms : list CaAtom) : option string :=
  fold_left (fun found a =>
               match int (ca_resi a) with
               | Some resi_num =>
                   if pos_eqb (ca_chain a, resi_num) key then Some (ca_resn a)
                   else found
               | None => found
               end)
            atoms found.

Definition last_resn (int : string -> option Z) (key : pos)
  (atoms : list CaAtom) : option string :=
  last_resn_from int None key atoms.

(** ** Sample input *)

(** The value of a run of ASCII decimal digits. *)
Definition digit_of (c : ascii) : option Z :=
  let n := nat_of_ascii c in
  if ((48 <=? n) && (n <=? 57))%nat then Some (Z.of_nat (n - 48)) else None.

Fixpoint digits_value (acc : Z) (s : string) : option Z :=
  match s with
  | EmptyString => Some acc
  | String c rest =>
      match digit_of c with
      | Some d => digits_value (10 * acc + d)%Z rest
      | None => None
      end
  end.

(** [int] on the residue identifiers of the samples: a run of decimal
    digits, with or without a minus sign, has its value; an identifier
    with an insertion code is rejected. *)
Definition decimal_int (s : string) : option Z :=
  match s with
  | EmptyString => None
  | String c rest =>
      if Ascii.eqb c "-"%char then
        match rest with
        | EmptyString => None
        | _ => option_map Z.opp (digits_value 0 rest)
        end
      else digits_value 0 s
  end.

Definition insertion_code_error (a : CaAtom) : pyexn :=
  PyExn ("invalid literal for int() with base 10: " ++ ca_resi a).

(** A short chain, not in sequence order: the sequon N-G-T, an
    asparagine followed by a proline, and an asparagine at the end. *)
Definition sequon_chain : list CaAtom :=
  [ mkCaAtom "A" "12" "THR"; mkCaAtom "A" "10" "ASN"; mkCaAtom "A" "11" "GLY";
    mkCaAtom "A" "13" "ASN"; mkCaAtom "A" "14" "PRO"; mkCaAtom "A" "15" "SER";
    mkCaAtom "A" "16" "ASN" ].

(** The same chain with a residue 12A inserted after the first atom. *)
Definition insertion_chain : list CaAtom :=
  [ mkCaAtom "A" "12" "THR"; mkCaAtom "A" "12A" "GLY";
    mkCaAtom "A" "10" "ASN"; mkCaAtom "A" "11" "GLY";
    mkCaAtom "A" "13" "ASN"; mkCaAtom "A" "14" "PRO"; mkCaAtom "A" "15" "SER";
    mkCaAtom "A" "16" "ASN" ].

(** The shape names [render_snfg] dispatches on. *)
Definition implemented_shapes : list string :=
  ["sphere"; "star"; "cone"; "cube"; "diamond"; "half_diamond";
   "half_diamond_reverse"].

(** Name the items of a list and split them into coordinates. *)
Ltac abstract_items :=
  repeat match goal with
         | |- context [item ?l ?i] =>
             let v := fresh "v" in
             set (v := item l i) in *; clearbody v; destruct v
         end.

(** Six ring atoms of a chair-like residue. *)
Definition ring_model : list Atom :=
  [ sample_atom "C1" (mkV3 1 0 0); sample_atom "C2" (mkV3 0 1 0);
    sample_atom "C3" (mkV3 (-1) 0 0); sample_atom "C4" (mkV3 0 0 6);
    sample_atom "C5" (mkV3 0 (-1) 0); sample_atom "O5" (mkV3 0 0 0) ].

(** A residue whose C1 is listed twice, as with alternate locations. *)
Definition altloc_model : list Atom :=
  [ sample_atom "C1" (mkV3 1 0 0); sample_atom "C2" (mkV3 0 1 0);
    sample_atom "C1" (mkV3 9 9 9) ].

(** An oracle whose two routines raise [LinAlgError]. *)
Definition raising_oracle : LinAlg :=
  mkLinAlg (fun _ => None) (fun _ => None).

(** The atoms kept for a flat five-atom ring. *)
Definition flat_ring_atoms : dict string V3 :=
  [ ("C1", mkV3 1 0 0); ("C2", mkV3 0 1 0); ("C3", mkV3 (-1) 0 0);
    ("C4", mkV3 0 0 6); ("C5", mkV3 0 (-1) 0); ("O5", mkV3 0 0 0) ].

(** * Properties *)

(** ** Vector algebra *)

Lemma V3_eq (a b : V3) :
  vx a = vx b -> vy a = vy b -> vz a = vz b -> a = b.
Proof. destruct a, b; simpl; intros; subst; reflexivity. Qed.

Lemma dot_self_nonneg (v : V3) : 0 <= dot v v.
Proof. unfold dot. nra. Qed.

Lemma norm_nonneg (v : V3) : 0 <= norm v.
Proof. apply sqrt_pos. Qed.

Lemma norm_sqr (v : V3) : norm v * norm v = dot v v.
Proof. apply sqrt_sqrt, dot_self_nonneg. Qed.

Lemma norm_lt_sqr (v : V3) (t : R) : 0 < t -> dot v v < t * t -> norm v < t.
Proof.
  intros Ht H. pose proof (norm_nonneg v) as Hn. pose proof (norm_sqr v) as Hs.
  destruct (Rlt_dec (norm v) t) as [|Hge]; [assumption|]. exfalso.
  apply Rnot_lt_le in Hge. nra.
Qed.

Lemma norm_ge_sqr (v : V3) (t : R) : 0 <= t -> t * t <= dot v v -> t <= norm v.
Proof.
  intros Ht H. pose proof (norm_nonneg v) as Hn. pose proof (norm_sqr v) as Hs.
  destruct (Rle_dec t (norm v)) as [|Hlt]; [assumption|]. exfalso.
  apply Rnot_le_lt in Hlt. nra.
Qed.

Lemma norm_unit (v : V3) : dot v v = 1 -> norm v = 1.
Proof. intros H. unfold norm. rewrite H. apply sqrt_1. Qed.

Lemma dot_vdiv_self (v : V3) (k : R) :
  k <> 0 -> dot (vdiv v k) (vdiv v k) = dot v v / (k * k).
Proof. intros Hk. unfold dot, vdiv; simpl. field. assumption. Qed.

(** ** normalize_vector *)

Lemma normalize_vector_small (v : V3) :
  norm v < 1e-9 -> normalize_vector v = (mkV3 0 0 1, [WarnNearZero v]).
Proof.
  intros H. unfold normalize_vector.
  destruct (Rlt_dec (norm v) 1e-9) as [_|Hn]; [reflexivity | contradiction].
Qed.

Lemma normalize_vector_large (v : V3) :
  1e-9 <= norm v -> normalize_vector v = (vdiv v (norm v), []).
Proof.
  intros H. unfold normalize_vector.
  destruct (Rlt_dec (norm v) 1e-9) as [Hn|_]; [lra | reflexivity].
Qed.

(** The value returned by [normalize_vector] has unit length, whichever
    branch produced it. *)
Lemma normalize_vector_unit (v : V3) :
  dot (value (normalize_vector v)) (value (normalize_vector v)) = 1.
Proof.
  unfold normalize_vector, value.
  destruct (Rlt_dec (norm v) 1e-9) as [Hn|Hn]; simpl.
  - unfold dot; simpl; ring.
  - assert (Hpos : norm v <> 0) by lra.
    rewrite dot_vdiv_self by assumption.
    rewrite norm_sqr. field. rewrite <- norm_sqr. nra.
Qed.

Lemma normalize_vector_of_unit (v : V3) :
  dot v v = 1 -> normalize_vector v = (v, []).
Proof.
  intros H. rewrite normalize_vector_large; rewrite (norm_unit v H); [|lra].
  f_equal. apply V3_eq; simpl; field.
Qed.

(** C6.  A vector of Euclidean norm below 1e-9 is mapped to exactly
    (0,0,1), with one warning-level diagnostic and no failure; a vector
    of norm at least 1e-9 is divided by its norm, silently. *)
Theorem normalize_vector_spec (v : V3) :
  (norm v < 1e-9 ->
   value (normalize_vector v) = mkV3 0 0 1 /\
   diags (normalize_vector v) = [WarnNearZero v]) /\
  (1e-9 <= norm v ->
   value (normalize_vector v) = vdiv v (norm v) /\
   diags (normalize_vector v) = []).
Proof.
  split; intros H.
  - rewrite (normalize_vector_small v H). split; reflexivity.
  - rewrite (normalize_vector_large v H). split; reflexivity.
Qed.

Lemma normalize_vector_spec_witness :
  (norm (mkV3 0 0 1e-12) < 1e-9 /\
   value (normalize_vector (mkV3 0 0 1e-12)) = mkV3 0 0 1 /\
   diags (normalize_vector (mkV3 0 0 1e-12)) = [WarnNearZero (mkV3 0 0 1e-12)]) /\
  (1e-9 <= norm (mkV3 3 4 0) /\
   value (normalize_vector (mkV3 3 4 0)) = vdiv (mkV3 3 4 0) (norm (mkV3 3 4 0)) /\
   diags (normalize_vector (mkV3 3 4 0)) = []).
Proof.
  assert (H1 : norm (mkV3 0 0 1e-12) < 1e-9).
  { apply norm_lt_sqr; [lra | unfold dot; simpl; lra]. }
  assert (H2 : 1e-9 <= norm (mkV3 3 4 0)).
  { apply norm_ge_sqr; [lra | unfold dot; simpl; lra]. }
  split.
  - split; [exact H1 | exact (proj1 (normalize_vector_spec _) H1)].
  - split; [exact H2 | exact (proj2 (normalize_vector_spec _) H2)].
Defined.

(** ** Identity basis *)

(** C9.  With the matrix built from the identity basis and the centre at
    the origin, [transform_vertices] returns the local vertices as they
    were given, in the same order. *)
Theorem transform_vertices_identity (vertices : list V3) :
  transform_vertices vertices (mkV3 0 0 0)
    (value (get_transformation_matrix (mkV3 1 0 0) (mkV3 0 1 0) (mkV3 0 0 1)))
  = vertices.
Proof.
  unfold get_transformation_matrix, bind, value.
  rewrite !normalize_vector_of_unit by (unfold dot; simpl; ring).
  simpl. unfold transform_vertices.
  induction vertices as [|v rest IH]; simpl; [reflexivity|].
  f_equal; [|exact IH].
  apply V3_eq; unfold vadd, mdot, dot; simpl; ring.
Qed.

(** ** cgo_cube *)

(** C7.  Whatever the centre, size, colour and basis, [cgo_cube] emits
    six [BEGIN]/[END] groups, and each group holds four [VERTEX]
    opcodes and one [NORMAL]. *)
Theorem cgo_cube_faces (x y z r : R) (color : Color) (x_axis y_axis z_axis : V3) :
  let stream := value (cgo_cube x y z r color x_axis y_axis z_axis) in
  count_op BEGIN stream = 6%nat /\
  count_op END stream = 6%nat /\
  List.length (face_groups stream) = 6%nat /\
  Forall (fun g => count_op VERTEX g = 4%nat /\ count_op NORMAL g = 1%nat)
         (face_groups stream).
Proof.
  cbv zeta.
  cbv [cgo_cube bind ret value fst snd app flat_map map seq item nth
       transform_vertices transform_normals splat cube_vertices_local
       cube_normals_local cube_strip_orders Nat.mul Nat.add
       face_groups face_groups_from rev count_op filter is_op List.length].
  repeat split; repeat constructor.
Qed.

(** ** cgo_star *)

Lemma star_outer_radius (r : R) :
  List.length (star_outer_local r) = 5%nat /\
  Forall (fun p => vy p = 0 /\ dot p p = r * r) (star_outer_local r).
Proof.
  split; [reflexivity|].
  unfold star_outer_local. induction star_angles as [|a l IH]; simpl;
    constructor; [|exact IH].
  split; [reflexivity|]. unfold dot; simpl.
  pose proof (sin2_cos2 a) as H. unfold Rsqr in H.
  transitivity (r * r * (sin a * sin a + cos a * cos a)); [ring|].
  rewrite H; ring.
Qed.

Lemma star_inner_radius (r : R) :
  List.length (star_inner_local r) = 5%nat /\
  Forall (fun p => vy p = 0 /\ dot p p = (0.45 * r) * (0.45 * r))
         (star_inner_local r).
Proof.
  split; [reflexivity|].
  unfold star_inner_local. induction star_angles as [|a l IH]; simpl;
    constructor; [|exact IH].
  split; [reflexivity|]. unfold dot; simpl.
  pose proof (sin2_cos2 (a + radians 36)) as H. unfold Rsqr in H.
  set (b := a + radians 36) in *.
  transitivity (0.45 * r * (0.45 * r) * (sin b * sin b + cos b * cos b)); [ring|].
  rewrite H; ring.
Qed.

(** Each inner point is its outer point turned by 36 degrees about the
    local Y axis (and shortened): the cosine and the sine of the angle
    between the two are those of 36 degrees. *)
Lemma star_inner_rotation (r : R) :
  Forall2 (fun o i =>
             dot o i = r * (0.45 * r) * cos (radians 36) /\
             vy (cross o i) = - (r * (0.45 * r) * sin (radians 36)))
          (star_outer_local r) (star_inner_local r).
Proof.
  unfold star_outer_local, star_inner_local.
  induction star_angles as [|a l IH]; simpl; constructor; [|exact IH].
  unfold dot, cross; simpl. rewrite cos_plus, sin_plus.
  pose proof (sin2_cos2 a) as H. unfold Rsqr in H.
  set (d := radians 36) in *.
  split.
  - transitivity (r * (0.45 * r) * cos d * (sin a * sin a + cos a * cos a));
      [ring|]. rewrite H; ring.
  - transitivity (- (r * (0.45 * r) * sin d * (sin a * sin a + cos a * cos a)));
      [ring|]. rewrite H; ring.
Qed.

Lemma mdot_basis_y (x_axis y_axis z_axis : V3) :
  mdot (value (get_transformation_matrix x_axis y_axis z_axis)) (mkV3 0 1 0)
  = value (normalize_vector y_axis).
Proof.
  unfold get_transformation_matrix, bind, ret, value; simpl.
  apply V3_eq; unfold mdot, dot; simpl; ring.
Qed.

Lemma mdot_basis_y_neg (x_axis y_axis z_axis : V3) :
  mdot (value (get_transformation_matrix x_axis y_axis z_axis)) (mkV3 0 (-1) 0)
  = vscale (value (normalize_vector y_axis)) (-1).
Proof.
  unfold get_transformation_matrix, bind, ret, value; simpl.
  apply V3_eq; unfold mdot, dot, vscale; simpl; ring.
Qed.

Lemma dot_vscale_neg (v : V3) : dot (vscale v (-1)) (vscale v (-1)) = dot v v.
Proof. unfold dot, vscale; simpl; ring. Qed.

Lemma operands_vertex_run (vs : list V3) :
  operands_of VERTEX (flat_map (fun v => VERTEX :: splat v) vs) = vs.
Proof.
  induction vs as [|[a b c] rest IH]; [reflexivity|].
  simpl in *. rewrite IH. reflexivity.
Qed.

Lemma operands_normal_run (vs : list V3) :
  operands_of NORMAL (flat_map (fun v => VERTEX :: splat v) vs) = [].
Proof.
  induction vs as [|[a b c] rest IH]; [reflexivity|].
  simpl in *. exact IH.
Qed.

Lemma fan_group_vertices (n : V3) (vs : list V3) :
  operands_of VERTEX (fan_group n vs) = vs.
Proof.
  destruct n as [a b c]. unfold fan_group. simpl.
  apply operands_vertex_run.
Qed.

Lemma fan_group_normals (n : V3) (vs : list V3) :
  operands_of NORMAL (fan_group n vs) = [n].
Proof.
  destruct n as [a b c]. unfold fan_group. simpl.
  f_equal. apply operands_normal_run.
Qed.

Lemma transformation_matrix_of_units (x y z : V3) :
  dot x x = 1 -> dot y y = 1 -> dot z z = 1 ->
  value (get_transformation_matrix x y z) = transpose (mkM33 x y z).
Proof.
  intros Hx Hy Hz. unfold get_transformation_matrix, bind, ret, value.
  rewrite (normalize_vector_of_unit x Hx). cbn [fst snd].
  rewrite (normalize_vector_of_unit y Hy). cbn [fst snd].
  rewrite (normalize_vector_of_unit z Hz). reflexivity.
Qed.

Lemma basis_preserves_dot (x y z p q : V3) :
  orthonormal x y z ->
  dot (mdot (transpose (mkM33 x y z)) p) (mdot (transpose (mkM33 x y z)) q)
  = dot p q.
Proof.
  intros (Hx & Hy & Hz & Hxy & Hyz & Hzx).
  transitivity
    (vx p * vx q * dot x x + vy p * vy q * dot y y + vz p * vz q * dot z z
     + (vx p * vy q + vy p * vx q) * dot x y
     + (vy p * vz q + vz p * vy q) * dot y z
     + (vz p * vx q + vx p * vz q) * dot z x);
    [unfold mdot, transpose, dot; simpl; ring|].
  rewrite Hx, Hy, Hz, Hxy, Hyz, Hzx. unfold dot; ring.
Qed.

Lemma basis_dot_y (x y z p : V3) :
  orthonormal x y z ->
  dot (mdot (transpose (mkM33 x y z)) p) y = vy p.
Proof.
  intros (Hx & Hy & Hz & Hxy & Hyz & Hzx).
  transitivity (vx p * dot x y + vy p * dot y y + vz p * dot y z);
    [unfold mdot, transpose, dot; simpl; ring|].
  rewrite Hy, Hxy, Hyz. ring.
Qed.

Lemma basis_cross_y (x y z p q : V3) :
  dot (cross (mdot (transpose (mkM33 x y z)) p)
             (mdot (transpose (mkM33 x y z)) q)) y
  = dot (cross x y) z * vy (cross p q).
Proof. unfold mdot, transpose, dot, cross; simpl; ring. Qed.

Lemma moved_back (m : M33) (center p : V3) :
  vsub (vadd (mdot m p) center) center = mdot m p.
Proof. apply V3_eq; unfold vsub, vadd; simpl; ring. Qed.

Lemma Forall2_map_both {A B C D : Type} (f : A -> C) (g : B -> D)
  (P : C -> D -> Prop) (l : list A) (l' : list B) :
  Forall2 (fun a b => P (f a) (g b)) l l' -> Forall2 P (map f l) (map g l').
Proof. induction 1; simpl; constructor; assumption. Qed.

(** C8.  [cgo_star] emits two fans, front and back, whatever the axes.
    Each carries one normal, plus or minus the transformed local Y axis,
    and, after its hub vertex, the five outer and five inner rim
    vertices alternately, closed by the first outer vertex again.  With
    a basis, that is three mutually orthogonal unit axes, the
    transformed local Y axis is the Y axis of the basis, the emitted
    outer vertices lie at distance [r] from the centre and the inner
    ones at [0.45 * r], all in the plane through the centre orthogonal
    to Y, and each inner vertex is turned by 36 degrees about Y from its
    outer vertex, in the sense given by the hand of the basis. *)
Theorem cgo_star_fans (x y z r : R) (color : Color) (x_axis y_axis z_axis : V3) :
  let center := mkV3 x y z in
  let rotation_matrix := value (get_transformation_matrix x_axis y_axis z_axis) in
  let outer := transform_vertices (star_outer_local r) center rotation_matrix in
  let inner := transform_vertices (star_inner_local r) center rotation_matrix in
  let local_y := mdot rotation_matrix (mkV3 0 1 0) in
  let fan :=
    [item outer 0; item inner 0; item outer 1; item inner 1; item outer 2;
     item inner 2; item outer 3; item inner 3; item outer 4; item inner 4;
     item outer 0]%nat in
  (List.length outer = 5%nat /\ List.length inner = 5%nat) /\
  (exists front back,
      face_groups (value (cgo_star x y z r color x_axis y_axis z_axis))
      = [front; back] /\
      tl (operands_of VERTEX front) = fan /\
      tl (operands_of VERTEX back) = fan /\
      operands_of NORMAL front = [local_y] /\
      operands_of NORMAL back = [vscale local_y (-1)]) /\
  (orthonormal x_axis y_axis z_axis ->
   local_y = y_axis /\
   Forall (fun v =>
             dot (vsub v center) y_axis = 0 /\
             dot (vsub v center) (vsub v center) = r * r)
          outer /\
   Forall (fun v =>
             dot (vsub v center) y_axis = 0 /\
             dot (vsub v center) (vsub v center) = (0.45 * r) * (0.45 * r))
          inner /\
   Forall2 (fun o i =>
              dot (vsub o center) (vsub i center)
              = r * (0.45 * r) * cos (radians 36) /\
              dot (cross (vsub o center) (vsub i center)) y_axis
              = - (dot (cross x_axis y_axis) z_axis
                   * (r * (0.45 * r) * sin (radians 36))))
           outer inner).
Proof.
  intros center rotation_matrix outer inner local_y fan.
  split; [split; reflexivity|].
  split.
  { assert (Hf : value (normalize_vector (mdot rotation_matrix (mkV3 0 1 0)))
                 = local_y).
    { unfold local_y, rotation_matrix. rewrite mdot_basis_y.
      rewrite normalize_vector_of_unit by apply normalize_vector_unit.
      reflexivity. }
    assert (Hb : value (normalize_vector (mdot rotation_matrix (mkV3 0 (-1) 0)))
                 = vscale local_y (-1)).
    { unfold local_y, rotation_matrix. rewrite mdot_basis_y, mdot_basis_y_neg.
      rewrite normalize_vector_of_unit; [reflexivity|].
      rewrite dot_vscale_neg. apply normalize_vector_unit. }
    set (volume := transform_vertices (star_volume_local r) center rotation_matrix).
    exists (fan_group (value (normalize_vector (mdot rotation_matrix (mkV3 0 1 0))))
              (item volume 0 :: fan)).
    exists (fan_group (value (normalize_vector (mdot rotation_matrix (mkV3 0 (-1) 0))))
              (item volume 1 :: fan)).
    split; [reflexivity|].
    rewrite !fan_group_vertices, !fan_group_normals, Hf, Hb.
    repeat split. }
  intros Hon. pose proof Hon as (Hx & Hy & Hz & _).
  assert (Hm : rotation_matrix = transpose (mkM33 x_axis y_axis z_axis))
    by (apply transformation_matrix_of_units; assumption).
  split.
  { unfold local_y. rewrite Hm.
    apply V3_eq; unfold mdot, transpose, dot; simpl; ring. }
  unfold outer, inner, transform_vertices. rewrite Hm.
  split; [|split].
  - rewrite Forall_map.
    apply (Forall_impl _ (P := fun p => vy p = 0 /\ dot p p = r * r));
      [|apply star_outer_radius].
    intros p [H0 Hr]. cbv zeta. rewrite moved_back.
    rewrite (basis_dot_y _ _ _ _ Hon), (basis_preserves_dot _ _ _ _ _ Hon).
    split; assumption.
  - rewrite Forall_map.
    apply (Forall_impl _
             (P := fun p => vy p = 0 /\ dot p p = (0.45 * r) * (0.45 * r)));
      [|apply star_inner_radius].
    intros p [H0 Hr]. cbv zeta. rewrite moved_back.
    rewrite (basis_dot_y _ _ _ _ Hon), (basis_preserves_dot _ _ _ _ _ Hon).
    split; assumption.
  - apply Forall2_map_both.
    apply (Forall2_impl
             (R1 := fun o i =>
                      dot o i = r * (0.45 * r) * cos (radians 36) /\
                      vy (cross o i) = - (r * (0.45 * r) * sin (radians 36))));
      [|apply star_inner_rotation].
    intros o i [Hd Hc]. cbv zeta. rewrite !moved_back.
    rewrite (basis_preserves_dot _ _ _ _ _ Hon), basis_cross_y, Hc.
    split; [exact Hd | ring].
Qed.

Lemma cgo_star_fans_witness :
  let xa := mkV3 0 (-1) 0 in
  let ya := mkV3 1 0 0 in
  let za := mkV3 0 0 1 in
  let center := mkV3 1 2 3 in
  let m := value (get_transformation_matrix xa ya za) in
  orthonormal xa ya za /\
  mdot m (mkV3 0 1 0) = ya /\
  Forall (fun v =>
            dot (vsub v center) ya = 0 /\
            dot (vsub v center) (vsub v center) = 2 * 2)
         (transform_vertices (star_outer_local 2) center m) /\
  Forall (fun v =>
            dot (vsub v center) ya = 0 /\
            dot (vsub v center) (vsub v center) = (0.45 * 2) * (0.45 * 2))
         (transform_vertices (star_inner_local 2) center m).
Proof.
  intros xa ya za center m.
  assert (Hon : orthonormal xa ya za)
    by (unfold orthonormal, xa, ya, za, dot; simpl; repeat split; ring).
  split; [exact Hon|].
  destruct (proj2 (proj2 (cgo_star_fans 1 2 3 2 SNFG_ORANGE xa ya za)) Hon)
    as (Hy & Hout & Hinn & _).
  split; [exact Hy|]. split; [exact Hout | exact Hinn].
Defined.

(** ** Dictionaries *)

Section DictFacts.
Context {K V : Type} (eqb : K -> K -> bool).
Hypothesis eqb_eq : forall a b, eqb a b = true <-> a = b.

Lemma eqb_refl (a : K) : eqb a a = true.
Proof. apply eqb_eq. reflexivity. Qed.

Lemma eqb_neq (a b : K) : eqb a b = false <-> a <> b.
Proof.
  split.
  - intros H E. apply eqb_eq in E. congruence.
  - intros H. destruct (eqb a b) eqn:E; [|reflexivity].
    apply eqb_eq in E. contradiction.
Qed.

Lemma dict_get_set_same (k : K) (v : V) (d : dict K V) :
  dict_get eqb k (dict_set eqb k v d) = Some v.
Proof.
  induction d as [|[k' v'] rest IH]; simpl.
  - rewrite eqb_refl. reflexivity.
  - destruct (eqb k k') eqn:E; simpl; rewrite E; [reflexivity | exact IH].
Qed.

Lemma dict_get_set_other (k k2 : K) (v : V) (d : dict K V) :
  k <> k2 -> dict_get eqb k2 (dict_set eqb k v d) = dict_get eqb k2 d.
Proof.
  intros Hne. induction d as [|[k' v'] rest IH]; simpl.
  - assert (E : eqb k2 k = false) by (apply eqb_neq; congruence).
    rewrite E. reflexivity.
  - destruct (eqb k k') eqn:E; simpl.
    + apply eqb_eq in E. subst k'.
      assert (E2 : eqb k2 k = false) by (apply eqb_neq; congruence).
      rewrite E2. reflexivity.
    + rewrite IH. reflexivity.
Qed.

Lemma dict_get_In (k : K) (v : V) (d : dict K V) :
  dict_get eqb k d = Some v -> In (k, v) d.
Proof.
  induction d as [|[k' v'] rest IH]; simpl; [discriminate|].
  destruct (eqb k k') eqn:E.
  - intros H. injection H as <-. apply eqb_eq in E. subst. left. reflexivity.
  - intros H. right. apply IH, H.
Qed.

Lemma dict_get_value (k : K) (v : V) (d : dict K V) :
  dict_get eqb k d = Some v -> In v (dict_values d).
Proof.
  intros H. apply dict_get_In in H. unfold dict_values.
  change v with (snd (k, v)). apply in_map, H.
Qed.

Lemma dict_get_None_keys (k : K) (d : dict K V) :
  dict_get eqb k d = None <-> ~ In k (dict_keys d).
Proof.
  induction d as [|[k' v'] rest IH]; simpl.
  - split; [intros _ [] | reflexivity].
  - destruct (eqb k k') eqn:E.
    + apply eqb_eq in E. subst. split; [discriminate|].
      intros H. exfalso. apply H. left. reflexivity.
    + apply eqb_neq in E. rewrite IH. split.
      * intros H [H1|H1]; [congruence | contradiction].
      * intros H H1. apply H. right. exact H1.
Qed.

Lemma dict_set_keys (k : K) (v : V) (d : dict K V) :
  dict_keys (dict_set eqb k v d)
  = if dict_mem eqb k d then dict_keys d else dict_keys d ++ [k].
Proof.
  unfold dict_mem. induction d as [|[k' v'] rest IH]; simpl; [reflexivity|].
  destruct (eqb k k') eqn:E; simpl; [reflexivity|].
  rewrite IH. destruct (dict_get eqb k rest); reflexivity.
Qed.

Lemma dict_set_NoDup (k : K) (v : V) (d : dict K V) :
  NoDup (dict_keys d) -> NoDup (dict_keys (dict_set eqb k v d)).
Proof.
  intros H. rewrite dict_set_keys. unfold dict_mem.
  destruct (dict_get eqb k d) eqn:E; [exact H|].
  apply dict_get_None_keys in E.
  apply NoDup_rev in H. rewrite <- (rev_involutive (dict_keys d ++ [k])).
  apply NoDup_rev. rewrite rev_app_distr. simpl. constructor; [|exact H].
  rewrite <- in_rev. exact E.
Qed.
End DictFacts.

Lemma key_eqb_eq (a b : res_key) : key_eqb a b = true <-> a = b.
Proof.
  destruct a as [[c1 i1] n1], b as [[c2 i2] n2]. unfold key_eqb; simpl.
  rewrite !andb_true_iff, !String.eqb_eq. split.
  - intros [[-> ->] ->]. reflexivity.
  - intros H. injection H as -> -> ->. auto.
Qed.

(** ** The collected atoms of a residue *)

Lemma collect_step_get (d : dict res_key (dict string V3)) (a : Atom) (k : res_key) :
  dict_get key_eqb k (collect_step d a)
  = if str_in (atom_name a) required_atoms && key_eqb (residue_of a) k
    then Some (store_atom
                 (match dict_get key_eqb k d with Some atoms => atoms | None => [] end)
                 a)
    else dict_get key_eqb k d.
Proof.
  unfold collect_step. fold (residue_of a).
  destruct (str_in (atom_name a) required_atoms); simpl; [|reflexivity].
  destruct (key_eqb (residue_of a) k) eqn:E.
  - apply key_eqb_eq in E. subst k. unfold dict_mem.
    destruct (dict_get key_eqb (residue_of a) d) as [atoms|] eqn:Hd.
    + rewrite Hd. apply (dict_get_set_same key_eqb key_eqb_eq).
    + rewrite (dict_get_set_same key_eqb key_eqb_eq).
      apply (dict_get_set_same key_eqb key_eqb_eq).
  - assert (Hne : residue_of a <> k).
    { intros H. apply key_eqb_eq in H. congruence. }
    unfold dict_mem.
    destruct (dict_get key_eqb (residue_of a) d) as [atoms|] eqn:Hd.
    + rewrite Hd. apply (dict_get_set_other key_eqb key_eqb_eq); exact Hne.
    + rewrite (dict_get_set_same key_eqb key_eqb_eq).
      rewrite !(dict_get_set_other key_eqb key_eqb_eq) by exact Hne.
      reflexivity.
Qed.

Lemma collect_fold_get (model_atom : list Atom) (k : res_key) :
  forall d,
    dict_get key_eqb k (fold_left collect_step model_atom d)
    = match required_in model_atom k with
      | [] => dict_get key_eqb k d
      | _ :: _ =>
          Some (fold_left store_atom (required_in model_atom k)
                  (match dict_get key_eqb k d with
                   | Some atoms => atoms
                   | None => []
                   end))
      end.
Proof.
  induction model_atom as [|a rest IH]; intros d; [reflexivity|].
  change (fold_left collect_step (a :: rest) d)
    with (fold_left collect_step rest (collect_step d a)).
  rewrite IH, collect_step_get. unfold required_in. cbn [filter].
  destruct (str_in (atom_name a) required_atoms && key_eqb (residue_of a) k).
  - cbn [fold_left]. destruct (filter _ rest); reflexivity.
  - reflexivity.
Qed.

(** The dictionary built by the first loop holds, for a residue with a
    required atom, exactly [required_atoms_of]; a residue without one has
    no entry. *)
Lemma collect_residue_atoms_get (model_atom : list Atom) (k : res_key) :
  dict_get key_eqb k (collect_residue_atoms model_atom)
  = match required_in model_atom k with
    | [] => None
    | _ :: _ => Some (required_atoms_of model_atom k)
    end.
Proof.
  unfold collect_residue_atoms. rewrite collect_fold_get. reflexivity.
Qed.

Lemma collect_step_NoDup (d : dict res_key (dict string V3)) (a : Atom) :
  NoDup (dict_keys d) -> NoDup (dict_keys (collect_step d a)).
Proof.
  intros H. unfold collect_step.
  destruct (str_in (atom_name a) required_atoms); [|exact H].
  set (k := (atom_chain a, atom_resi a, atom_resn a)).
  assert (H1 : NoDup (dict_keys (if dict_mem key_eqb k d then d
                                 else dict_set key_eqb k [] d))).
  { destruct (dict_mem key_eqb k d); [exact H|].
    apply (dict_set_NoDup key_eqb key_eqb_eq), H. }
  destruct (dict_get key_eqb k _); [|exact H1].
  apply (dict_set_NoDup key_eqb key_eqb_eq), H1.
Qed.

Lemma collect_residue_atoms_NoDup (model_atom : list Atom) :
  NoDup (dict_keys (collect_residue_atoms model_atom)).
Proof.
  unfold collect_residue_atoms.
  assert (H : forall d, NoDup (dict_keys d) ->
                        NoDup (dict_keys (fold_left collect_step model_atom d))).
  { induction model_atom as [|a rest IH]; intros d Hd; simpl; [exact Hd|].
    apply IH, collect_step_NoDup, Hd. }
  apply H. constructor.
Qed.

(** ** The second loop *)

Lemma orientation_loop_get (la : LinAlg) (k : res_key)
  (items : list (res_key * dict string V3)) :
  NoDup (dict_keys items) ->
  forall acc,
    dict_get key_eqb k (value (orientation_loop la items acc))
    = match dict_get key_eqb k items with
      | Some atoms => Some (value (residue_frame la k atoms))
      | None => dict_get key_eqb k acc
      end.
Proof.
  induction items as [|[k1 a1] rest IH]; intros Hnd acc; simpl; [reflexivity|].
  inversion Hnd as [|? ? Hnotin Hnd']; subst.
  unfold value, bind in *; simpl. fold (@fst (dict res_key Frame) (list Diag)).
  rewrite (IH Hnd'). destruct (key_eqb k k1) eqn:E.
  - apply key_eqb_eq in E. subst k1.
    apply (dict_get_None_keys key_eqb key_eqb_eq) in Hnotin. rewrite Hnotin.
    apply (dict_get_set_same key_eqb key_eqb_eq).
  - destruct (dict_get key_eqb k rest); [reflexivity|].
    apply (dict_get_set_other key_eqb key_eqb_eq).
    intros H. subst. rewrite (eqb_refl key_eqb key_eqb_eq) in E. discriminate.
Qed.

(** Every residue with a required atom gets its frame, and the frame is
    the one the loop body computes from the residue's collected atoms. *)
Lemma orientations_of_get (la : LinAlg) (model_atom : list Atom) (k : res_key) :
  dict_get key_eqb k (value (orientations_of la model_atom))
  = match required_in model_atom k with
    | [] => None
    | _ :: _ => Some (value (residue_frame la k (required_atoms_of model_atom k)))
    end.
Proof.
  unfold orientations_of.
  rewrite (orientation_loop_get la k _ (collect_residue_atoms_NoDup model_atom)).
  rewrite collect_residue_atoms_get.
  destruct (required_in model_atom k); reflexivity.
Qed.

Lemma get_residue_orientation_value (la : LinAlg) (model_atom : list Atom) :
  value (get_residue_orientation la model_atom)
  = dict_values (value (orientations_of la model_atom)).
Proof. reflexivity. Qed.

(** ** Cross and dot products *)

Lemma cross_dot_left (a b : V3) : dot (cross a b) a = 0.
Proof. unfold dot, cross; simpl; ring. Qed.

Lemma cross_dot_right (a b : V3) : dot (cross a b) b = 0.
Proof. unfold dot, cross; simpl; ring. Qed.

Lemma dot_comm (a b : V3) : dot a b = dot b a.
Proof. unfold dot; ring. Qed.

Lemma cross_norm_sqr (a b : V3) :
  dot (cross a b) (cross a b) = dot a a * dot b b - dot a b * dot a b.
Proof. unfold dot, cross; simpl; ring. Qed.

Lemma triple_cyclic (a b c : V3) : dot (cross a b) c = dot (cross b c) a.
Proof. unfold dot, cross; simpl; ring. Qed.

Lemma dot_vdiv_left (v w : V3) (k : R) : dot (vdiv v k) w = dot v w / k.
Proof. unfold dot, vdiv, Rdiv; simpl; ring. Qed.

Lemma Rabs_bound_sqr (d t : R) : ~ Rabs d > t -> d * d <= t * t.
Proof.
  intros H. apply Rnot_gt_le in H. unfold Rabs in H.
  destruct (Rcase_abs d); nra.
Qed.

Lemma Rabs_gt_sqr (d t : R) : 0 <= t -> Rabs d > t -> d * d > t * t.
Proof.
  intros Ht H. unfold Rabs in H. destruct (Rcase_abs d); nra.
Qed.

(** Normalising a vector that is long enough keeps what it is orthogonal
    to. *)
Lemma normalize_vector_orth (v w : V3) :
  1e-9 * 1e-9 <= dot v v -> dot v w = 0 ->
  dot (value (normalize_vector v)) w = 0.
Proof.
  intros Hlen Hvw.
  rewrite normalize_vector_large by (apply norm_ge_sqr; [lra | exact Hlen]).
  unfold value; simpl. rewrite dot_vdiv_left, Hvw. unfold Rdiv. ring.
Qed.

(** ** Orthonormal right-handed frames *)

Lemma default_basis_orthonormal :
  orthonormal_right_handed default_x default_y default_z.
Proof. unfold orthonormal_right_handed, dot, cross; simpl. repeat split; ring. Qed.

(** Step 4, near-parallel branch: Y from Z and a global axis, X from Y
    and Z. *)
Lemma xy_axes_arbitrary (z temp : V3) :
  dot z z = 1 -> dot temp temp = 1 -> dot z temp * dot z temp <= 0.9801 ->
  let y := value (normalize_vector (cross z temp)) in
  let x := value (normalize_vector (cross y z)) in
  orthonormal_right_handed x y z.
Proof.
  intros Hz Ht Hd y x.
  assert (Hc : 1e-9 * 1e-9 <= dot (cross z temp) (cross z temp)).
  { rewrite cross_norm_sqr, Hz, Ht. lra. }
  assert (Hyy : dot y y = 1) by apply normalize_vector_unit.
  assert (Hyz : dot y z = 0).
  { apply normalize_vector_orth; [exact Hc | apply cross_dot_left]. }
  assert (Hxu : dot (cross y z) (cross y z) = 1).
  { rewrite cross_norm_sqr, Hyy, Hz, Hyz. ring. }
  assert (Hx : x = cross y z).
  { unfold x. rewrite normalize_vector_of_unit by exact Hxu. reflexivity. }
  unfold orthonormal_right_handed. rewrite Hx.
  repeat split; try assumption.
  - apply cross_dot_left.
  - rewrite dot_comm. apply cross_dot_right.
  - rewrite triple_cyclic. exact Hxu.
Qed.

(** Step 4, normal branch: X from the plane normal and Z, Y from Z and
    X. *)
Lemma xy_axes_from_normal (plane_normal z : V3) :
  dot z z = 1 -> dot plane_normal plane_normal = 1 ->
  dot plane_normal z * dot plane_normal z <= 0.995 * 0.995 ->
  let x := value (normalize_vector (cross plane_normal z)) in
  let y := value (normalize_vector (cross z x)) in
  orthonormal_right_handed x y z.
Proof.
  intros Hz Hp Hd x y.
  assert (Hc : 1e-9 * 1e-9 <= dot (cross plane_normal z) (cross plane_normal z)).
  { rewrite cross_norm_sqr, Hz, Hp. lra. }
  assert (Hxx : dot x x = 1) by apply normalize_vector_unit.
  assert (Hxz : dot x z = 0).
  { apply normalize_vector_orth; [exact Hc | apply cross_dot_right]. }
  assert (Hzx : dot z x = 0) by (rewrite dot_comm; exact Hxz).
  assert (Hyu : dot (cross z x) (cross z x) = 1).
  { rewrite cross_norm_sqr, Hxx, Hz, Hzx. ring. }
  assert (Hy : y = cross z x).
  { unfold y. rewrite normalize_vector_of_unit by exact Hyu. reflexivity. }
  unfold orthonormal_right_handed. rewrite Hy.
  repeat split; try assumption.
  - rewrite dot_comm. apply cross_dot_right.
  - apply cross_dot_left.
  - rewrite triple_cyclic, triple_cyclic. exact Hyu.
Qed.

Lemma default_z_unit : dot default_z default_z = 1.
Proof. unfold dot, default_z; simpl; ring. Qed.

Lemma plane_normal_of_unit (la : LinAlg) (k : res_key) (atoms : dict string V3) :
  dot (value (plane_normal_of la k atoms)) (value (plane_normal_of la k atoms)) = 1.
Proof.
  unfold plane_normal_of.
  repeat match goal with
         | |- context [if ?c then _ else _] => destruct c
         | |- context [match ?o with Some _ => _ | None => _ end] => destruct o
         end;
    try apply default_z_unit; apply normalize_vector_unit.
Qed.

Lemma xy_axes_of_orthonormal (k : res_key) (plane_normal z : V3) :
  dot plane_normal plane_normal = 1 -> dot z z = 1 ->
  orthonormal_right_handed (fst (value (xy_axes_of k plane_normal z)))
                           (snd (value (xy_axes_of k plane_normal z))) z.
Proof.
  intros Hp Hz. unfold xy_axes_of.
  destruct (Rgt_dec (Rabs (dot plane_normal z)) 0.995) as [Hpar|Hpar].
  - destruct (Rgt_dec (Rabs (dot (mkV3 1 0 0) z)) 0.99) as [Hx|Hx].
    + apply (xy_axes_arbitrary z (mkV3 0 1 0) Hz).
      * unfold dot; simpl; ring.
      * apply Rabs_gt_sqr in Hx; [|lra].
        unfold dot in *; simpl in *. nra.
    + apply (xy_axes_arbitrary z (mkV3 1 0 0) Hz).
      * unfold dot; simpl; ring.
      * apply Rabs_bound_sqr in Hx. rewrite (dot_comm z). lra.
  - apply (xy_axes_from_normal plane_normal z Hz Hp).
    apply Rabs_bound_sqr in Hpar. exact Hpar.
Qed.

(** The Z axis of step 2 has unit length on both of its branches. *)
Lemma z_axis_unit (k : res_key) (vec_c4 : V3) :
  let z := value (if Rlt_dec (norm vec_c4) 1e-6
                  then tell (MsgCoincident k) ;;; ret default_z
                  else normalize_vector vec_c4) in
  dot z z = 1.
Proof.
  cbv zeta. destruct (Rlt_dec (norm vec_c4) 1e-6).
  - apply default_z_unit.
  - apply normalize_vector_unit.
Qed.

(** *** The three ways out of the loop body *)

Lemma residue_frame_few (la : LinAlg) (k : res_key) (atoms : dict string V3) :
  (List.length (coords_of required_atoms atoms) < 3)%nat ->
  value (residue_frame la k atoms)
  = mkFrame (snd k)
      (match dict_values atoms with
       | [] => mkV3 0 0 0
       | _ :: _ => vmean (dict_values atoms)
       end)
      default_x default_y default_z.
Proof.
  intros H. apply Nat.ltb_lt in H. unfold residue_frame. rewrite H.
  reflexivity.
Qed.

Lemma residue_frame_no_C4 (la : LinAlg) (k : res_key) (atoms : dict string V3) :
  (3 <= List.length (coords_of required_atoms atoms))%nat ->
  dict_get String.eqb "C4" atoms = None ->
  value (residue_frame la k atoms)
  = mkFrame (snd k) (vmean (coords_of required_atoms atoms))
      default_x default_y default_z.
Proof.
  intros H Hc4. apply Nat.ltb_ge in H. unfold residue_frame.
  rewrite H, Hc4. reflexivity.
Qed.

Lemma residue_frame_with_C4 (la : LinAlg) (k : res_key) (atoms : dict string V3)
  (coord_C4 : V3) :
  (3 <= List.length (coords_of required_atoms atoms))%nat ->
  dict_get String.eqb "C4" atoms = Some coord_C4 ->
  let center := vmean (coords_of required_atoms atoms) in
  let z := value (if Rlt_dec (norm (vsub coord_C4 center)) 1e-6
                  then tell (MsgCoincident k) ;;; ret default_z
                  else normalize_vector (vsub coord_C4 center)) in
  let plane_normal := value (plane_normal_of la k atoms) in
  let xy := value (xy_axes_of k plane_normal z) in
  value (residue_frame la k atoms) = mkFrame (snd k) center (fst xy) (snd xy) z.
Proof.
  intros H Hc4. apply Nat.ltb_ge in H. unfold residue_frame.
  rewrite H, Hc4. reflexivity.
Qed.

(** Every frame the loop body stores is orthonormal and right-handed. *)
Lemma residue_frame_orthonormal (la : LinAlg) (k : res_key)
  (atoms : dict string V3) :
  let f := value (residue_frame la k atoms) in
  orthonormal_right_handed (x_axis f) (y_axis f) (z_axis f).
Proof.
  cbv zeta.
  destruct (Nat.lt_ge_cases (List.length (coords_of required_atoms atoms)) 3)
    as [Hfew|Hok].
  - rewrite residue_frame_few by exact Hfew. apply default_basis_orthonormal.
  - destruct (dict_get String.eqb "C4" atoms) as [coord_C4|] eqn:Hc4.
    + rewrite (residue_frame_with_C4 la k atoms coord_C4 Hok Hc4).
      cbn [x_axis y_axis z_axis].
      apply xy_axes_of_orthonormal;
        [apply plane_normal_of_unit | apply z_axis_unit].
    + rewrite residue_frame_no_C4 by assumption.
      apply default_basis_orthonormal.
Qed.

(** ** Frames of the residues of a selection *)

Lemma required_found_positive (model_atom : list Atom) (k : res_key) :
  (1 <= required_found model_atom k)%nat ->
  required_in model_atom k <> [] /\
  dict_values (required_atoms_of model_atom k) <> [].
Proof.
  unfold required_found, required_atoms_of. intros H. split.
  - intros E. rewrite E in H. simpl in H. lia.
  - destruct (fold_left store_atom (required_in model_atom k) []) eqn:E.
    + simpl in H. lia.
    + simpl. discriminate.
Qed.

(** A residue with a required atom has an entry in [orientations], its
    frame is in the returned list, and the frame is the one computed by
    the loop body. *)
Lemma frame_emitted (la : LinAlg) (model_atom : list Atom) (k : res_key) :
  (1 <= required_found model_atom k)%nat ->
  let f := value (residue_frame la k (required_atoms_of model_atom k)) in
  dict_get key_eqb k (value (orientations_of la model_atom)) = Some f /\
  In f (value (get_residue_orientation la model_atom)).
Proof.
  intros H f. apply required_found_positive in H as [Hin _].
  assert (Hget : dict_get key_eqb k (value (orientations_of la model_atom))
                 = Some f).
  { rewrite orientations_of_get.
    destruct (required_in model_atom k); [contradiction | reflexivity]. }
  split; [exact Hget|].
  rewrite get_residue_orientation_value.
  apply (dict_get_value key_eqb key_eqb_eq k), Hget.
Qed.

Lemma Rabs_zero_le (a t : R) : a = 0 -> 0 <= t -> Rabs a <= t.
Proof. intros -> Ht. rewrite Rabs_R0. exact Ht. Qed.

Lemma norm_unit_within (v : V3) (t : R) :
  dot v v = 1 -> 0 <= t -> Rabs (norm v - 1) <= t.
Proof.
  intros H Ht. rewrite (norm_unit v H).
  apply Rabs_zero_le; [ring | exact Ht].
Qed.

(** C2.  For a residue with at least three of the required atoms
    C1-C5, O5, the frame returned by [get_residue_orientation] has axes
    that are pairwise orthogonal (dot products within 1e-3 of 0), of
    unit norm (within 1e-6), and right-handed: the triple product
    [dot (cross x_axis y_axis) z_axis] is 1. *)
Theorem frame_axes_orthonormal (la : LinAlg) (model_atom : list Atom)
  (k : res_key) :
  (3 <= required_found model_atom k)%nat ->
  exists f,
    dict_get key_eqb k (value (orientations_of la model_atom)) = Some f /\
    In f (value (get_residue_orientation la model_atom)) /\
    Rabs (dot (x_axis f) (y_axis f)) <= 1e-3 /\
    Rabs (dot (y_axis f) (z_axis f)) <= 1e-3 /\
    Rabs (dot (z_axis f) (x_axis f)) <= 1e-3 /\
    Rabs (norm (x_axis f) - 1) <= 1e-6 /\
    Rabs (norm (y_axis f) - 1) <= 1e-6 /\
    Rabs (norm (z_axis f) - 1) <= 1e-6 /\
    dot (cross (x_axis f) (y_axis f)) (z_axis f) = 1.
Proof.
  intros H.
  exists (value (residue_frame la k (required_atoms_of model_atom k))).
  destruct (frame_emitted la model_atom k) as [Hget Hin]; [lia|].
  split; [exact Hget|]. split; [exact Hin|].
  destruct (residue_frame_orthonormal la k (required_atoms_of model_atom k))
    as (Hxx & Hyy & Hzz & Hxy & Hyz & Hzx & Hrh).
  repeat split;
    first [ apply Rabs_zero_le; [assumption | lra]
          | apply norm_unit_within; [assumption | lra]
          | exact Hrh ].
Qed.

Lemma frame_axes_orthonormal_witness :
  (3 <= required_found coincident_model sample_key)%nat /\
  exists f,
    dict_get key_eqb sample_key
      (value (orientations_of plane_x_oracle coincident_model)) = Some f /\
    In f (value (get_residue_orientation plane_x_oracle coincident_model)) /\
    Rabs (dot (x_axis f) (y_axis f)) <= 1e-3 /\
    Rabs (dot (y_axis f) (z_axis f)) <= 1e-3 /\
    Rabs (dot (z_axis f) (x_axis f)) <= 1e-3 /\
    Rabs (norm (x_axis f) - 1) <= 1e-6 /\
    Rabs (norm (y_axis f) - 1) <= 1e-6 /\
    Rabs (norm (z_axis f) - 1) <= 1e-6 /\
    dot (cross (x_axis f) (y_axis f)) (z_axis f) = 1.
Proof.
  assert (H : (3 <= required_found coincident_model sample_key)%nat)
    by (vm_compute; lia).
  split; [exact H|].
  exact (frame_axes_orthonormal plane_x_oracle coincident_model sample_key H).
Defined.

(** ** Missing or coincident C4 *)

(** C1, as the code has it.  For a residue with at least three required
    atoms: when C4 is absent the frame has exactly the default basis;
    when C4 is present and within 1e-6 of the centre, the Z axis is
    exactly (0,0,1), and X and Y are still derived from the plane
    normal and that Z. *)
Theorem C4_fallback (la : LinAlg) (model_atom : list Atom) (k : res_key) :
  (3 <= required_found model_atom k)%nat ->
  let atoms := required_atoms_of model_atom k in
  let center := vmean (coords_of required_atoms atoms) in
  exists f,
    dict_get key_eqb k (value (orientations_of la model_atom)) = Some f /\
    In f (value (get_residue_orientation la model_atom)) /\
    (dict_get String.eqb "C4" atoms = None ->
     x_axis f = mkV3 1 0 0 /\ y_axis f = mkV3 0 1 0 /\ z_axis f = mkV3 0 0 1) /\
    (forall coord_C4,
        dict_get String.eqb "C4" atoms = Some coord_C4 ->
        norm (vsub coord_C4 center) < 1e-6 ->
        z_axis f = mkV3 0 0 1 /\
        x_axis f = fst (value (xy_axes_of k (value (plane_normal_of la k atoms))
                                 (mkV3 0 0 1))) /\
        y_axis f = snd (value (xy_axes_of k (value (plane_normal_of la k atoms))
                                 (mkV3 0 0 1)))).
Proof.
  intros H atoms center.
  exists (value (residue_frame la k atoms)).
  destruct (frame_emitted la model_atom k) as [Hget Hin]; [lia|].
  split; [exact Hget|]. split; [exact Hin|]. split.
  - intros Hc4. unfold atoms. rewrite residue_frame_no_C4 by assumption.
    repeat split.
  - intros coord_C4 Hc4 Hnear.
    rewrite (residue_frame_with_C4 la k atoms coord_C4 H Hc4).
    fold center. cbn [x_axis y_axis z_axis].
    destruct (Rlt_dec (norm (vsub coord_C4 center)) 1e-6) as [_|Hn];
      [|contradiction].
    repeat split.
Qed.

Lemma coincident_model_atoms :
  required_atoms_of coincident_model sample_key
  = [ ("C1", mkV3 0 1 0); ("C2", mkV3 0 0 1); ("C4", mkV3 0 0 0);
      ("O5", mkV3 0 (-1) (-1)) ].
Proof. reflexivity. Qed.

Lemma coincident_model_center :
  vmean (coords_of required_atoms (required_atoms_of coincident_model sample_key))
  = mkV3 0 0 0.
Proof.
  rewrite coincident_model_atoms.
  apply V3_eq; unfold vmean, vsum, vdiv; simpl; lra.
Qed.

Lemma coincident_model_near :
  norm (vsub (mkV3 0 0 0)
          (vmean (coords_of required_atoms
                    (required_atoms_of coincident_model sample_key)))) < 1e-6.
Proof.
  rewrite coincident_model_center.
  apply norm_lt_sqr; [lra | unfold dot, vsub; simpl; lra].
Qed.

Lemma C4_fallback_witness :
  ((3 <= required_found no_C4_model sample_key)%nat /\
   dict_get String.eqb "C4" (required_atoms_of no_C4_model sample_key) = None /\
   exists f,
     In f (value (get_residue_orientation plane_x_oracle no_C4_model)) /\
     x_axis f = mkV3 1 0 0 /\ y_axis f = mkV3 0 1 0 /\ z_axis f = mkV3 0 0 1) /\
  ((3 <= required_found coincident_model sample_key)%nat /\
   dict_get String.eqb "C4" (required_atoms_of coincident_model sample_key)
   = Some (mkV3 0 0 0) /\
   exists f,
     In f (value (get_residue_orientation plane_x_oracle coincident_model)) /\
     z_axis f = mkV3 0 0 1).
Proof.
  assert (H1 : (3 <= required_found no_C4_model sample_key)%nat)
    by (vm_compute; lia).
  assert (H2 : (3 <= required_found coincident_model sample_key)%nat)
    by (vm_compute; lia).
  split.
  - split; [exact H1|]. split; [reflexivity|].
    destruct (C4_fallback plane_x_oracle no_C4_model sample_key H1)
      as (f & _ & Hin & Hno & _).
    exists f. split; [exact Hin|]. apply Hno. reflexivity.
  - split; [exact H2|]. split; [reflexivity|].
    destruct (C4_fallback plane_x_oracle coincident_model sample_key H2)
      as (f & _ & Hin & _ & Hco).
    exists f. split; [exact Hin|].
    apply (Hco (mkV3 0 0 0)); [reflexivity | exact coincident_model_near].
Defined.

(** On [coincident_model], where C4 sits at the centre, the X and Y axes
    come out as (0,-1,0) and (1,0,0). *)
Lemma coincident_model_frame :
  value (get_residue_orientation plane_x_oracle coincident_model)
  = [mkFrame "NAG" (mkV3 0 0 0) (mkV3 0 (-1) 0) (mkV3 1 0 0) (mkV3 0 0 1)].
Proof.
  assert (E : value (get_residue_orientation plane_x_oracle coincident_model)
              = [value (residue_frame plane_x_oracle sample_key
                          (required_atoms_of coincident_model sample_key))])
    by reflexivity.
  rewrite E. f_equal.
  assert (H3 : (3 <= List.length (coords_of required_atoms
                        (required_atoms_of coincident_model sample_key)))%nat)
    by (vm_compute; lia).
  rewrite (residue_frame_with_C4 plane_x_oracle sample_key _ (mkV3 0 0 0) H3)
    by reflexivity.
  pose proof coincident_model_near as Hnear.
  rewrite coincident_model_center in *.
  destruct (Rlt_dec (norm (vsub (mkV3 0 0 0) (mkV3 0 0 0))) 1e-6) as [_|Hn];
    [|contradiction].
  assert (Hpn : value (plane_normal_of plane_x_oracle sample_key
                         (required_atoms_of coincident_model sample_key))
                = mkV3 1 0 0).
  { rewrite coincident_model_atoms. unfold plane_normal_of. simpl.
    rewrite normalize_vector_of_unit by (unfold dot; simpl; ring).
    reflexivity. }
  rewrite Hpn. w_simpl. unfold xy_axes_of.
  destruct (Rgt_dec (Rabs (dot (mkV3 1 0 0) default_z)) 0.995) as [Hgt|_].
  { exfalso. replace (dot (mkV3 1 0 0) default_z) with 0 in Hgt
      by (unfold dot; simpl; ring).
    rewrite Rabs_R0 in Hgt. lra. }
  assert (Hx : cross (mkV3 1 0 0) default_z = mkV3 0 (-1) 0)
    by (apply V3_eq; unfold cross; simpl; ring).
  rewrite Hx.
  w_simpl.
  rewrite (normalize_vector_of_unit (mkV3 0 (-1) 0))
    by (unfold dot; simpl; ring).
  cbn [fst snd].
  assert (Hy : cross default_z (mkV3 0 (-1) 0) = mkV3 1 0 0)
    by (apply V3_eq; unfold cross; simpl; ring).
  rewrite Hy.
  rewrite (normalize_vector_of_unit (mkV3 1 0 0)) by (unfold dot; simpl; ring).
  reflexivity.
Qed.

(** C1 as stated fails where C4 coincides with the centre.  On
    [coincident_model] the residue has four required atoms, C4 lies at
    their mean, the plane of C1, C2, C4 is x = 0 so that its normal is
    the x direction, and the frame returned has X = (0,-1,0) and
    Y = (1,0,0): only Z is the default. *)
Lemma coincident_C4_not_default :
  (3 <= required_found coincident_model sample_key)%nat /\
  dict_get String.eqb "C4" (required_atoms_of coincident_model sample_key)
  = Some (mkV3 0 0 0) /\
  norm (vsub (mkV3 0 0 0)
          (vmean (coords_of required_atoms
                    (required_atoms_of coincident_model sample_key)))) < 1e-6 /\
  (let plane_coords :=
     coords_of plane_atoms (required_atoms_of coincident_model sample_key) in
   Forall (fun p => dot (vsub p (vmean plane_coords)) (mkV3 1 0 0) = 0)
          plane_coords) /\
  exists f,
    value (get_residue_orientation plane_x_oracle coincident_model) = [f] /\
    x_axis f = mkV3 0 (-1) 0 /\ y_axis f = mkV3 1 0 0 /\ z_axis f = mkV3 0 0 1 /\
    ~ (x_axis f = mkV3 1 0 0 /\ y_axis f = mkV3 0 1 0 /\ z_axis f = mkV3 0 0 1).
Proof.
  split; [vm_compute; lia|]. split; [reflexivity|].
  split; [exact coincident_model_near|]. split.
  - rewrite coincident_model_atoms. cbv zeta.
    repeat constructor; unfold dot, vsub, vmean, vsum, vdiv; simpl; lra.
  - eexists. split; [exact coincident_model_frame|]. cbn [x_axis y_axis z_axis].
    repeat split. intros (Hx & _). apply (f_equal vx) in Hx. simpl in Hx. lra.
Qed.

(** The same holds for every answer LAPACK can give on
    [coincident_model]: whatever the rank reported (at least 2), and
    whichever multiple of the x direction comes back as the plane normal,
    the X axis of the frame has no x component at all. *)
Lemma coincident_model_any_normal (la : LinAlg) (n : V3) (rank : nat) :
  let plane_coords :=
    coords_of plane_atoms (required_atoms_of coincident_model sample_key) in
  let centered_coords :=
    map (fun p => vsub p (vmean plane_coords)) plane_coords in
  matrix_rank la centered_coords = Some rank -> (2 <= rank)%nat ->
  svd_vh_last la centered_coords = Some n ->
  vy n = 0 -> vz n = 0 -> 1e-9 <= Rabs (vx n) ->
  forall f,
    In f (value (get_residue_orientation la coincident_model)) ->
    vx (x_axis f) = 0 /\ z_axis f = mkV3 0 0 1.
Proof.
  intros plane_coords centered_coords Hrank Hrk Hsvd Hy Hz Hx f Hin.
  assert (E : value (get_residue_orientation la coincident_model)
              = [value (residue_frame la sample_key
                          (required_atoms_of coincident_model sample_key))])
    by reflexivity.
  rewrite E in Hin. destruct Hin as [<-|[]].
  assert (H3 : (3 <= List.length (coords_of required_atoms
                        (required_atoms_of coincident_model sample_key)))%nat)
    by (vm_compute; lia).
  rewrite (residue_frame_with_C4 la sample_key _ (mkV3 0 0 0) H3) by reflexivity.
  pose proof coincident_model_near as Hnear.
  destruct (Rlt_dec _ 1e-6) as [_|Hn]; [|contradiction].
  cbn [x_axis z_axis]. split; [|reflexivity].
  assert (Hpn : value (plane_normal_of la sample_key
                         (required_atoms_of coincident_model sample_key))
                = value (normalize_vector n)).
  { unfold plane_normal_of. cbv zeta. fold plane_coords.
    assert (Hl : (List.length plane_coords <? 3)%nat = false) by reflexivity.
    rewrite Hl. change (3 <? 2)%nat with false. cbv iota.
    fold centered_coords. rewrite Hrank.
    assert (Hm : (rank <? Nat.min (List.length centered_coords) 3 - 1)%nat
                 = false).
    { apply Nat.ltb_ge. change (List.length centered_coords) with 3%nat.
      simpl. exact Hrk. }
    rewrite Hm, Hsvd. reflexivity. }
  rewrite Hpn.
  assert (Hnn : dot n n = vx n * vx n) by (unfold dot; rewrite Hy, Hz; ring).
  assert (Hsq : 1e-9 * 1e-9 <= vx n * vx n).
  { unfold Rabs in Hx. destruct (Rcase_abs (vx n)); nra. }
  assert (Hlen : 1e-9 <= norm n).
  { apply norm_ge_sqr; [lra | rewrite Hnn; exact Hsq]. }
  rewrite (normalize_vector_large n Hlen). w_simpl.
  set (u := vdiv n (norm n)).
  assert (Huy : vy u = 0) by (unfold u, vdiv; simpl; rewrite Hy; field; lra).
  assert (Huz : vz u = 0) by (unfold u, vdiv; simpl; rewrite Hz; field; lra).
  clearbody u. unfold xy_axes_of.
  destruct (Rgt_dec (Rabs (dot u default_z)) 0.995) as [Hgt|_].
  { exfalso. replace (dot u default_z) with 0 in Hgt
      by (unfold dot, default_z; simpl; rewrite Huz; ring).
    rewrite Rabs_R0 in Hgt. lra. }
  w_simpl.
  assert (Hc : vx (cross u default_z) = 0)
    by (unfold cross, default_z; simpl; rewrite Huy, Huz; ring).
  unfold normalize_vector.
  destruct (Rlt_dec (norm (cross u default_z)) 1e-9); cbn [fst tell ret bind];
    [reflexivity|].
  unfold vdiv; cbn [vx]. rewrite Hc. unfold Rdiv. ring.
Qed.

(** ** Residues with fewer than three required atoms *)

(** C3, as the code has it.  A residue with at least one but fewer than
    three required atoms is not dropped and nothing fails: its frame is
    in the returned list, centred on the mean of the required-atom
    coordinates found, with the default basis as axes. *)
Theorem few_atoms_default_frame (la : LinAlg) (model_atom : list Atom)
  (k : res_key) :
  (1 <= required_found model_atom k)%nat ->
  (required_found model_atom k < 3)%nat ->
  exists f,
    dict_get key_eqb k (value (orientations_of la model_atom)) = Some f /\
    In f (value (get_residue_orientation la model_atom)) /\
    f_resn f = snd k /\
    f_center f = vmean (dict_values (required_atoms_of model_atom k)) /\
    x_axis f = mkV3 1 0 0 /\ y_axis f = mkV3 0 1 0 /\ z_axis f = mkV3 0 0 1.
Proof.
  intros H1 H3.
  exists (value (residue_frame la k (required_atoms_of model_atom k))).
  destruct (frame_emitted la model_atom k H1) as [Hget Hin].
  split; [exact Hget|]. split; [exact Hin|].
  rewrite residue_frame_few by exact H3.
  apply required_found_positive in H1 as [_ Hne].
  destruct (dict_values (required_atoms_of model_atom k)) eqn:E;
    [contradiction|].
  repeat split.
Qed.

Lemma few_atoms_default_frame_witness :
  (1 <= required_found two_atom_model sample_key)%nat /\
  (required_found two_atom_model sample_key < 3)%nat /\
  exists f,
    dict_get key_eqb sample_key
      (value (orientations_of plane_x_oracle two_atom_model)) = Some f /\
    In f (value (get_residue_orientation plane_x_oracle two_atom_model)) /\
    f_resn f = snd sample_key /\
    f_center f = vmean (dict_values (required_atoms_of two_atom_model sample_key)) /\
    x_axis f = mkV3 1 0 0 /\ y_axis f = mkV3 0 1 0 /\ z_axis f = mkV3 0 0 1.
Proof.
  assert (H1 : (1 <= required_found two_atom_model sample_key)%nat)
    by (vm_compute; lia).
  assert (H3 : (required_found two_atom_model sample_key < 3)%nat)
    by (vm_compute; lia).
  split; [exact H1|]. split; [exact H3|].
  exact (few_atoms_default_frame plane_x_oracle two_atom_model sample_key H1 H3).
Defined.

(** C3 as stated fails for a residue none of whose atoms carries a
    required name.  In [two_atom_model] residue ("A","7","MAN") is
    present with its C6 atom only; no required atom is found for it, and
    the list returned holds the frame of the other residue alone. *)
Lemma residue_without_required_atoms_omitted :
  In (mkAtom "C6" "A" "7" "MAN" (mkV3 5 5 5)) two_atom_model /\
  (required_found two_atom_model ("A", "7", "MAN") < 3)%nat /\
  dict_get key_eqb ("A", "7", "MAN")
    (value (orientations_of plane_x_oracle two_atom_model)) = None /\
  List.length (value (get_residue_orientation plane_x_oracle two_atom_model))
  = 1%nat /\
  Forall (fun f => f_resn f = "NAG")
         (value (get_residue_orientation plane_x_oracle two_atom_model)).
Proof.
  split; [left; reflexivity|]. split; [vm_compute; lia|].
  split; [rewrite orientations_of_get; reflexivity|].
  split; [reflexivity|].
  assert (E : value (get_residue_orientation plane_x_oracle two_atom_model)
              = [value (residue_frame plane_x_oracle sample_key
                          (required_atoms_of two_atom_model sample_key))])
    by reflexivity.
  rewrite E. constructor; [|constructor].
  rewrite residue_frame_few by (vm_compute; lia). reflexivity.
Qed.

(** ** The per-residue loop of render_snfg *)

Lemma render_residue_cgo_objects (G : Generators) (scale : R)
  (debug_axes : bool) (st : LoopState) (f : Frame) :
  cgo_objects (value (render_residue G scale debug_axes st f))
  = cgo_objects st ++ primitives_of G scale f.
Proof.
  unfold render_residue, primitives_of, generated.
  destruct (dict_get String.eqb (f_resn f) snfg_shapes) as [[color shape]|];
    [|w_simpl; rewrite app_nil_r; reflexivity].
  w_simpl. fold (value (dispatch_shape G scale (f_resn f) shape color
                          (vx (f_center f)) (vy (f_center f)) (vz (f_center f))
                          (x_axis f) (y_axis f) (z_axis f))).
  destruct (value (dispatch_shape _ _ _ _ _ _ _ _ _ _ _)) as [cgo_obj|e];
    [|w_simpl; rewrite app_nil_r; reflexivity].
  destruct cgo_obj as [|t rest]; destruct debug_axes; cbn;
    rewrite ?app_nil_r; reflexivity.
Qed.

Lemma render_loop_cgo_objects (G : Generators) (scale : R) (debug_axes : bool)
  (frames : list Frame) :
  forall st,
    cgo_objects (value (render_loop G scale debug_axes frames st))
    = cgo_objects st ++ flat_map (primitives_of G scale) frames.
Proof.
  induction frames as [|f rest IH]; intros st; simpl.
  - rewrite app_nil_r. reflexivity.
  - unfold value, bind in *; cbn [fst].
    rewrite IH. fold (value (render_residue G scale debug_axes st f)).
    rewrite render_residue_cgo_objects, app_assoc. reflexivity.
Qed.

Lemma render_residue_logs_error (G : Generators) (scale : R)
  (debug_axes : bool) (st : LoopState) (f : Frame) (e : pyexn) :
  generated G scale f = Some (Raises e) ->
  In (MsgErrorGenerating (f_resn f) (f_center f) e)
     (diags (render_residue G scale debug_axes st f)).
Proof.
  unfold generated, render_residue.
  destruct (dict_get String.eqb (f_resn f) snfg_shapes) as [[color shape]|];
    [|discriminate].
  intros H. injection H as H. unfold value in H.
  unfold diags, bind; cbn [snd]. rewrite H. cbn [snd fst tell ret].
  apply in_or_app. right. left. reflexivity.
Qed.

Lemma render_loop_logs_error (G : Generators) (scale : R) (debug_axes : bool)
  (frames : list Frame) (f : Frame) (e : pyexn) :
  In f frames -> generated G scale f = Some (Raises e) ->
  forall st,
    In (MsgErrorGenerating (f_resn f) (f_center f) e)
       (diags (render_loop G scale debug_axes frames st)).
Proof.
  intros Hin Hgen. induction frames as [|f' rest IH]; [contradiction|].
  intros st. simpl. unfold diags, bind; cbn [snd]. apply in_or_app.
  destruct Hin as [->|Hin].
  - left. apply (render_residue_logs_error G scale debug_axes st f e Hgen).
  - right. apply (IH Hin).
Qed.

Lemma render_snfg_value (la : LinAlg) (G : Generators)
  (get_model : string -> list Atom) (selection : string)
  (transparency scale : R) (debug_axes : bool) :
  value (render_snfg la G get_model selection transparency scale debug_axes)
  = let frames :=
      value (get_residue_orientation la (get_model (full_selection selection))) in
    if is_empty frames then []
    else value (render_emit selection transparency debug_axes
                  (value (render_loop G scale debug_axes frames (mkLoopState [] [] 0)))).
Proof.
  unfold render_snfg. w_simpl. cbv zeta.
  destruct (is_empty _); reflexivity.
Qed.

Lemma render_snfg_diags (la : LinAlg) (G : Generators)
  (get_model : string -> list Atom) (selection : string)
  (transparency scale : R) (debug_axes : bool) :
  let frames :=
    value (get_residue_orientation la (get_model (full_selection selection))) in
  is_empty frames = false ->
  forall d,
    In d (diags (render_loop G scale debug_axes frames (mkLoopState [] [] 0))) ->
    In d (diags (render_snfg la G get_model selection transparency scale
                   debug_axes)).
Proof.
  intros frames Hne d Hd. unfold render_snfg, diags, bind; cbn [snd fst tell ret].
  fold (value (get_residue_orientation la (get_model (full_selection selection)))).
  fold frames. rewrite Hne. cbn [snd fst app].
  right. apply in_or_app. right. right. apply in_or_app. left. exact Hd.
Qed.

(** C4.  For every selection and every table of generators: a residue
    whose generator raises is logged with its name, its centre and the
    exception; it contributes no primitives; the loop goes on, and the
    primitives of all residues whose generator returned are loaded, in
    order, as the main object. *)
Theorem render_survives_failing_residue (la : LinAlg) (G : Generators)
  (get_model : string -> list Atom) (selection : string)
  (transparency scale : R) (debug_axes : bool) :
  let frames :=
    value (get_residue_orientation la (get_model (full_selection selection))) in
  let run := render_snfg la G get_model selection transparency scale debug_axes in
  let primitives := flat_map (primitives_of G scale) frames in
  (forall f e,
      In f frames -> generated G scale f = Some (Raises e) ->
      In (MsgErrorGenerating (f_resn f) (f_center f) e) (diags run) /\
      primitives_of G scale f = []) /\
  (primitives <> [] ->
   In (LoadCgo primitives (cgo_name_of selection)) (value run)).
Proof.
  intros frames run primitives. split.
  - intros f e Hin Hgen. split.
    + apply render_snfg_diags.
      * fold frames. destruct frames; [contradiction | reflexivity].
      * apply render_loop_logs_error; assumption.
    + unfold primitives_of. rewrite Hgen. reflexivity.
  - intros Hne. unfold run. rewrite render_snfg_value. cbv zeta. fold frames.
    assert (Hobj : cgo_objects
                     (value (render_loop G scale debug_axes frames (mkLoopState [] [] 0)))
                   = primitives)
      by apply render_loop_cgo_objects.
    destruct (is_empty frames) eqn:Ef.
    { destruct frames; [contradiction Hne; reflexivity | discriminate]. }
    unfold render_emit. rewrite Hobj.
    destruct primitives as [|t ps]; [contradiction Hne; reflexivity|].
    cbn [is_empty]. w_simpl. right. left. reflexivity.
Qed.

Lemma render_survives_failing_residue_witness :
  let frames :=
    value (get_residue_orientation plane_x_oracle cube_and_sphere_model) in
  let run := render_snfg plane_x_oracle failing_cube_generators
               (fun _ => cube_and_sphere_model) "all" 0.3 0.5 false in
  let primitives := flat_map (primitives_of failing_cube_generators 0.5) frames in
  (exists f e,
      In f frames /\
      generated failing_cube_generators 0.5 f = Some (Raises e) /\
      f_resn f = "NAG" /\
      In (MsgErrorGenerating (f_resn f) (f_center f) e) (diags run) /\
      primitives_of failing_cube_generators 0.5 f = []) /\
  primitives <> [] /\
  In (LoadCgo primitives (cgo_name_of "all")) (value run).
Proof.
  intros frames run primitives.
  pose proof (render_survives_failing_residue plane_x_oracle
                failing_cube_generators (fun _ => cube_and_sphere_model)
                "all" 0.3 0.5 false) as [Herr Hload].
  assert (Hne : primitives <> []) by (vm_compute; discriminate).
  split; [|split; [exact Hne | exact (Hload Hne)]].
  exists (value (residue_frame plane_x_oracle sample_key
                   [("C1", mkV3 1 0 0)])).
  exists (PyExn "singular matrix").
  assert (Hin : In (value (residue_frame plane_x_oracle sample_key
                             [("C1", mkV3 1 0 0)])) frames)
    by (left; reflexivity).
  assert (Hgen : generated failing_cube_generators 0.5
                   (value (residue_frame plane_x_oracle sample_key
                             [("C1", mkV3 1 0 0)]))
                 = Some (Raises (PyExn "singular matrix")))
    by reflexivity.
  split; [exact Hin|]. split; [exact Hgen|]. split; [reflexivity|].
  exact (Herr _ _ Hin Hgen).
Defined.

(** ** The tail of render_snfg *)

Lemma append_axes_neq (s : string) : (s ++ "_axes")%string <> s.
Proof.
  induction s as [|c s IH]; simpl; [discriminate|].
  intros H. injection H as H. exact (IH H).
Qed.

Lemma render_emit_empty (selection : string) (transparency : R)
  (debug_axes : bool) (st : LoopState) :
  cgo_objects st = [] ->
  value (render_emit selection transparency debug_axes st)
  = if debug_axes && negb (is_empty (debug_cgo_objects st))
    then [LoadCgo (debug_cgo_objects st) (cgo_name_of selection ++ "_axes")%string]
    else [].
Proof.
  intros H. unfold render_emit. rewrite H. cbn [is_empty]. w_simpl.
  destruct (debug_axes && negb (is_empty (debug_cgo_objects st))); reflexivity.
Qed.

Lemma render_emit_nonempty (selection : string) (transparency : R)
  (debug_axes : bool) (st : LoopState) :
  cgo_objects st <> [] ->
  value (render_emit selection transparency debug_axes st)
  = [Delete (cgo_name_of selection);
     LoadCgo (cgo_objects st) (cgo_name_of selection)]
    ++ (if debug_axes && negb (is_empty (debug_cgo_objects st))
        then [Delete (cgo_name_of selection ++ "_axes")%string;
              LoadCgo (debug_cgo_objects st)
                (cgo_name_of selection ++ "_axes")%string]
        else []).
Proof.
  intros H. unfold render_emit.
  destruct (cgo_objects st) as [|t rest] eqn:E; [contradiction|].
  cbn [is_empty]. w_simpl.
  destruct (debug_axes && negb (is_empty (debug_cgo_objects st)));
    [reflexivity|].
  destruct debug_axes; reflexivity.
Qed.

(** C10.  When the main primitive list is empty at the end of the loop,
    [render_snfg] neither deletes nor loads the main object name, so an
    object already under that name stays as it was; debug axes, if
    requested and generated, are loaded under the axes name, and that
    name is not deleted first. *)
Theorem empty_main_list_leaves_object (la : LinAlg) (G : Generators)
  (get_model : string -> list Atom) (selection : string)
  (transparency scale : R) (debug_axes : bool) (table : ObjectTable) :
  let frames :=
    value (get_residue_orientation la (get_model (full_selection selection))) in
  let st := value (render_loop G scale debug_axes frames (mkLoopState [] [] 0)) in
  let cmds :=
    value (render_snfg la G get_model selection transparency scale debug_axes) in
  let cgo_name := cgo_name_of selection in
  let debug_cgo_name := (cgo_name ++ "_axes")%string in
  cgo_objects st = [] ->
  ~ In (Delete cgo_name) cmds /\
  (forall primitives, ~ In (LoadCgo primitives cgo_name) cmds) /\
  ~ In (Delete debug_cgo_name) cmds /\
  dict_get String.eqb cgo_name (run_sink cmds table)
  = dict_get String.eqb cgo_name table /\
  (debug_axes = true -> debug_cgo_objects st <> [] ->
   cmds = [LoadCgo (debug_cgo_objects st) debug_cgo_name]).
Proof.
  intros frames st cmds cgo_name debug_cgo_name Hempty.
  assert (Hcmds : cmds = [] \/
                  (cmds = [LoadCgo (debug_cgo_objects st) debug_cgo_name] /\
                   frames <> [])).
  { unfold cmds. rewrite render_snfg_value. cbv zeta. fold frames.
    destruct frames as [|f0 rest] eqn:Ef; [left; reflexivity|].
    cbn [is_empty]. fold st. rewrite (render_emit_empty _ _ _ _ Hempty).
    destruct (debug_axes && negb (is_empty (debug_cgo_objects st)));
      [right; split; [reflexivity | discriminate] | left; reflexivity]. }
  assert (Hlast : debug_axes = true -> debug_cgo_objects st <> [] ->
                  cmds = [LoadCgo (debug_cgo_objects st) debug_cgo_name]).
  { intros Hd Hne. unfold cmds. rewrite render_snfg_value. cbv zeta. fold frames.
    destruct frames as [|f0 rest] eqn:Ef.
    - exfalso. apply Hne. unfold st. reflexivity.
    - cbn [is_empty]. fold st. rewrite (render_emit_empty _ _ _ _ Hempty), Hd.
      destruct (debug_cgo_objects st); [contradiction Hne; reflexivity|].
      reflexivity. }
  split; [|split; [|split; [|split; [|exact Hlast]]]];
    destruct Hcmds as [E|[E _]]; rewrite E.
  - intros [].
  - intros [H|[]]. discriminate.
  - intros p [].
  - intros p [H|[]]. apply (f_equal (fun c => match c with
                                          | LoadCgo _ name => name
                                          | Delete name => name
                                          end)) in H.
    exact (append_axes_neq cgo_name H).
  - intros [].
  - intros [H|[]]. discriminate.
  - reflexivity.
  - cbn [run_sink fold_left run_cmd]. unfold table_load.
    destruct (dict_get String.eqb debug_cgo_name table);
      apply (dict_get_set_other String.eqb String.eqb_eq);
      apply append_axes_neq.
Qed.

Lemma empty_main_list_leaves_object_witness :
  let frames :=
    value (get_residue_orientation plane_x_oracle cube_and_sphere_model) in
  let st := value (render_loop silent_generators 0.5 true frames
                     (mkLoopState [] [] 0)) in
  let cmds :=
    value (render_snfg plane_x_oracle silent_generators
             (fun _ => cube_and_sphere_model) "all" 0.3 0.5 true) in
  let cgo_name := cgo_name_of "all" in
  let debug_cgo_name := (cgo_name ++ "_axes")%string in
  cgo_objects st = [] /\
  debug_cgo_objects st <> [] /\
  ~ In (Delete cgo_name) cmds /\
  (forall primitives, ~ In (LoadCgo primitives cgo_name) cmds) /\
  ~ In (Delete debug_cgo_name) cmds /\
  dict_get String.eqb cgo_name (run_sink cmds earlier_table)
  = dict_get String.eqb cgo_name earlier_table /\
  cmds = [LoadCgo (debug_cgo_objects st) debug_cgo_name].
Proof.
  intros frames st cmds cgo_name debug_cgo_name.
  assert (Hempty : cgo_objects st = []) by reflexivity.
  assert (Hdebug : debug_cgo_objects st <> []) by (vm_compute; discriminate).
  destruct (empty_main_list_leaves_object plane_x_oracle silent_generators
              (fun _ => cube_and_sphere_model) "all" 0.3 0.5 true
              earlier_table Hempty)
    as (H1 & H2 & H3 & H4 & H5).
  split; [exact Hempty|]. split; [exact Hdebug|].
  split; [exact H1|]. split; [exact H2|]. split; [exact H3|].
  split; [exact H4|]. exact (H5 eq_refl Hdebug).
Defined.

(** ** Rendering twice *)

Lemma dispatch_cgo_generators_nonempty (scale : R) (resn shape : string)
  (color : Color) (x y z : R) (xa ya za : V3) :
  exists t rest,
    value (dispatch_shape cgo_generators scale resn shape color x y z xa ya za)
    = Returns (t :: rest).
Proof.
  unfold dispatch_shape.
  repeat match goal with
         | |- context [String.eqb shape ?s] => destruct (String.eqb shape s)
         end;
    eexists; eexists; reflexivity.
Qed.

(** With the module's own generators, debug axes are only ever added
    after primitives of the same residue: an empty main list comes with
    an empty axes list. *)
Lemma render_residue_axes_need_primitives (scale : R) (debug_axes : bool)
  (st : LoopState) (f : Frame) :
  (cgo_objects st = [] -> debug_cgo_objects st = []) ->
  let st1 := value (render_residue cgo_generators scale debug_axes st f) in
  cgo_objects st1 = [] -> debug_cgo_objects st1 = [].
Proof.
  intros Hinv st1. unfold st1, render_residue.
  destruct (dict_get String.eqb (f_resn f) snfg_shapes) as [[color shape]|];
    [|exact Hinv].
  destruct (dispatch_cgo_generators_nonempty scale (f_resn f) shape color
              (vx (f_center f)) (vy (f_center f)) (vz (f_center f))
              (x_axis f) (y_axis f) (z_axis f)) as (t & rest & E).
  unfold value in *. unfold bind at 1. cbn [fst]. rewrite E.
  destruct debug_axes; cbn; intros H; destruct (cgo_objects st); discriminate.
Qed.

Lemma render_loop_axes_need_primitives (scale : R) (debug_axes : bool)
  (frames : list Frame) :
  forall st,
    (cgo_objects st = [] -> debug_cgo_objects st = []) ->
    let st' := value (render_loop cgo_generators scale debug_axes frames st) in
    cgo_objects st' = [] -> debug_cgo_objects st' = [].
Proof.
  induction frames as [|f rest IH]; intros st Hinv; [exact Hinv|].
  simpl. unfold value, bind; cbn [fst].
  apply (IH (fst (render_residue cgo_generators scale debug_axes st f))).
  apply (render_residue_axes_need_primitives scale debug_axes st f Hinv).
Qed.

(** *** Deleting and loading in the object table *)

Lemma table_delete_app (name : string) (a b : ObjectTable) :
  table_delete name (a ++ b) = table_delete name a ++ table_delete name b.
Proof. apply filter_app. Qed.

Lemma table_delete_get (name : string) (t : ObjectTable) :
  dict_get String.eqb name (table_delete name t) = None.
Proof.
  induction t as [|[k v] rest IH]; simpl; [reflexivity|].
  destruct (String.eqb k name) eqn:E; simpl; [exact IH|].
  rewrite String.eqb_sym, E. exact IH.
Qed.

Lemma table_delete_absent (name : string) (t : ObjectTable) :
  dict_get String.eqb name t = None -> table_delete name t = t.
Proof.
  induction t as [|[k v] rest IH]; simpl; [reflexivity|].
  rewrite (String.eqb_sym k name).
  destruct (String.eqb name k); [discriminate|].
  intros H. simpl. rewrite (IH H). reflexivity.
Qed.

Lemma table_delete_get_other (name other : string) (t : ObjectTable) :
  name <> other ->
  dict_get String.eqb other (table_delete name t) = dict_get String.eqb other t.
Proof.
  intros Hne. induction t as [|[k v] rest IH]; simpl; [reflexivity|].
  destruct (String.eqb k name) eqn:E; simpl.
  - apply String.eqb_eq in E. subst k.
    assert (E2 : String.eqb other name = false)
      by (apply String.eqb_neq; congruence).
    rewrite E2. exact IH.
  - rewrite IH. reflexivity.
Qed.

Lemma dict_set_absent (name : string) (v : list (list cgo_token))
  (t : ObjectTable) :
  dict_get String.eqb name t = None ->
  dict_set String.eqb name v t = t ++ [(name, v)].
Proof.
  induction t as [|[k v'] rest IH]; simpl; [reflexivity|].
  destruct (String.eqb name k); [discriminate|].
  intros H. rewrite (IH H). reflexivity.
Qed.

Lemma dict_get_app_absent (name : string) (a b : ObjectTable) :
  dict_get String.eqb name a = None ->
  dict_get String.eqb name (a ++ b) = dict_get String.eqb name b.
Proof.
  induction a as [|[k v] rest IH]; simpl; [reflexivity|].
  destruct (String.eqb name k); [discriminate | exact IH].
Qed.

(** [cmd.delete(name)] followed by [cmd.load_cgo(primitives, name)]
    leaves one object of that name, holding that one state. *)
Lemma delete_then_load (primitives : list cgo_token) (name : string)
  (t : ObjectTable) :
  run_sink [Delete name; LoadCgo primitives name] t
  = table_delete name t ++ [(name, [primitives])].
Proof.
  cbn [run_sink fold_left run_cmd]. unfold table_load.
  rewrite table_delete_get. apply dict_set_absent, table_delete_get.
Qed.

Lemma delete_then_load_twice (primitives : list cgo_token) (name : string)
  (t : ObjectTable) :
  run_sink [Delete name; LoadCgo primitives name]
    (run_sink [Delete name; LoadCgo primitives name] t)
  = run_sink [Delete name; LoadCgo primitives name] t.
Proof.
  rewrite !delete_then_load, table_delete_app.
  rewrite (table_delete_absent name (table_delete name t))
    by apply table_delete_get.
  unfold table_delete at 2. simpl. rewrite String.eqb_refl. simpl.
  rewrite app_nil_r. reflexivity.
Qed.

Lemma run_sink_app (a b : list SinkCmd) (t : ObjectTable) :
  run_sink (a ++ b) t = run_sink b (run_sink a t).
Proof. apply fold_left_app. Qed.

Lemma two_objects_loaded (p pa : list cgo_token) (n na : string)
  (t : ObjectTable) :
  n <> na ->
  run_sink ([Delete n; LoadCgo p n] ++ [Delete na; LoadCgo pa na]) t
  = table_delete na (table_delete n t) ++ [(n, [p]); (na, [pa])].
Proof.
  intros Hne. rewrite run_sink_app, !delete_then_load, table_delete_app.
  unfold table_delete at 2. simpl.
  assert (E : String.eqb n na = false) by (apply String.eqb_neq; exact Hne).
  rewrite E. simpl. rewrite <- app_assoc. reflexivity.
Qed.

Lemma two_objects_loaded_twice (p pa : list cgo_token) (n na : string)
  (t : ObjectTable) :
  n <> na ->
  run_sink ([Delete n; LoadCgo p n] ++ [Delete na; LoadCgo pa na])
    (run_sink ([Delete n; LoadCgo p n] ++ [Delete na; LoadCgo pa na]) t)
  = run_sink ([Delete n; LoadCgo p n] ++ [Delete na; LoadCgo pa na]) t.
Proof.
  intros Hne. rewrite !(two_objects_loaded p pa n na) by exact Hne.
  set (D := table_delete na (table_delete n t)).
  assert (E : String.eqb n na = false) by (apply String.eqb_neq; exact Hne).
  assert (E' : String.eqb na n = false) by (rewrite String.eqb_sym; exact E).
  assert (HDn : dict_get String.eqb n D = None).
  { unfold D. rewrite table_delete_get_other by congruence.
    apply table_delete_get. }
  assert (HDna : dict_get String.eqb na D = None) by apply table_delete_get.
  rewrite !table_delete_app.
  rewrite (table_delete_absent n D HDn), (table_delete_absent na D HDna).
  unfold table_delete. simpl.
  rewrite String.eqb_refl, E'. simpl. rewrite String.eqb_refl. simpl.
  rewrite app_nil_r. reflexivity.
Qed.

(** The commands [render_snfg] issues with the module's own generators:
    none, or the main object replaced, or the main object and the axes
    object replaced. *)
Lemma render_snfg_commands (la : LinAlg) (get_model : string -> list Atom)
  (selection : string) (transparency scale : R) (debug_axes : bool) :
  let cmds := value (render_snfg la cgo_generators get_model selection
                       transparency scale debug_axes) in
  let n := cgo_name_of selection in
  let na := (n ++ "_axes")%string in
  cmds = [] \/
  (exists p, cmds = [Delete n; LoadCgo p n]) \/
  (exists p pa, cmds = [Delete n; LoadCgo p n] ++ [Delete na; LoadCgo pa na]).
Proof.
  intros cmds n na. unfold cmds. rewrite render_snfg_value. cbv zeta.
  set (frames := value (get_residue_orientation la
                          (get_model (full_selection selection)))).
  destruct (is_empty frames); [left; reflexivity|].
  set (st := value (render_loop cgo_generators scale debug_axes frames
                      (mkLoopState [] [] 0))).
  destruct (cgo_objects st) as [|t rest] eqn:E.
  - rewrite (render_emit_empty _ _ _ _ E).
    assert (Hd : debug_cgo_objects st = []).
    { apply (render_loop_axes_need_primitives scale debug_axes frames
               (mkLoopState [] [] 0) (fun _ => eq_refl)). exact E. }
    rewrite Hd, andb_false_r. left. reflexivity.
  - rewrite render_emit_nonempty by (rewrite E; discriminate).
    destruct (debug_axes && negb (is_empty (debug_cgo_objects st))).
    + right. right. eexists. eexists. reflexivity.
    + right. left. eexists. rewrite app_nil_r. reflexivity.
Qed.

(** C5.  Rendering the same selection twice in a row issues the same
    commands with the same primitive lists both times, and leaves the
    object table as the first rendering left it: the main object (and
    the axes object) is replaced, with its single state, not added to. *)
Theorem render_twice_same (la : LinAlg) (selection : string)
  (transparency scale : R) (debug_axes : bool) (s : Session) :
  let s1 := render_session la cgo_generators selection transparency scale
              debug_axes s in
  let s2 := render_session la cgo_generators selection transparency scale
              debug_axes s1 in
  let first := value (render_snfg la cgo_generators (cmd_get_model s) selection
                        transparency scale debug_axes) in
  let second := value (render_snfg la cgo_generators (cmd_get_model s1) selection
                         transparency scale debug_axes) in
  second = first /\
  cgo_table s2 = cgo_table s1 /\
  (forall primitives name,
      In (LoadCgo primitives name) first ->
      dict_get String.eqb name (cgo_table s1) = Some [primitives] /\
      dict_get String.eqb name (cgo_table s2) = Some [primitives]).
Proof.
  intros s1 s2 first second.
  assert (Hsame : second = first) by reflexivity.
  assert (Htab1 : cgo_table s1 = run_sink first (cgo_table s)) by reflexivity.
  assert (Htab2 : cgo_table s2 = run_sink first (cgo_table s1)) by reflexivity.
  pose proof (render_snfg_commands la (cmd_get_model s) selection transparency
                scale debug_axes) as Hshape.
  cbv zeta in Hshape. fold first in Hshape.
  pose proof (append_axes_neq (cgo_name_of selection)) as Hne.
  remember (cgo_name_of selection) as n eqn:Hn. clear Hn.
  clearbody second s2. clearbody s1. clearbody first.
  assert (Hne' : n <> (n ++ "_axes")%string) by congruence.
  assert (E1 : String.eqb (n ++ "_axes") n = false)
    by (apply String.eqb_neq; exact Hne).
  assert (Hidem : cgo_table s2 = cgo_table s1).
  { rewrite Htab2, Htab1.
    destruct Hshape as [E|[[p E]|[p [pa E]]]]; rewrite E.
    - reflexivity.
    - apply delete_then_load_twice.
    - apply two_objects_loaded_twice. exact Hne'. }
  split; [exact Hsame|]. split; [exact Hidem|].
  intros primitives name Hin. rewrite Hidem.
  assert (H1 : dict_get String.eqb name (cgo_table s1) = Some [primitives]).
  { rewrite Htab1.
    destruct Hshape as [E|[[p E]|[p [pa E]]]]; rewrite E in *.
    - destruct Hin.
    - destruct Hin as [H|[H|[]]]; [discriminate|]. injection H as Hp Hname.
      subst p name.
      rewrite delete_then_load.
      rewrite dict_get_app_absent by apply table_delete_get.
      simpl. rewrite String.eqb_refl. reflexivity.
    - rewrite two_objects_loaded by exact Hne'.
      destruct Hin as [H|[H|[H|[H|[]]]]]; try discriminate;
        injection H as Hp Hname; subst name.
      + subst p. rewrite dict_get_app_absent.
        * simpl. rewrite String.eqb_refl. reflexivity.
        * rewrite table_delete_get_other by congruence.
          apply table_delete_get.
      + subst pa. rewrite dict_get_app_absent by apply table_delete_get.
        simpl. rewrite E1, String.eqb_refl. reflexivity. }
  split; exact H1.
Qed.

Lemma render_snfg_loads_main (la : LinAlg) (G : Generators)
  (get_model : string -> list Atom) (selection : string)
  (transparency scale : R) (debug_axes : bool) :
  let frames :=
    value (get_residue_orientation la (get_model (full_selection selection))) in
  let st := value (render_loop G scale debug_axes frames (mkLoopState [] [] 0)) in
  is_empty frames = false -> cgo_objects st <> [] ->
  In (LoadCgo (cgo_objects st) (cgo_name_of selection))
     (value (render_snfg la G get_model selection transparency scale debug_axes)).
Proof.
  intros frames st Hf Hne. rewrite render_snfg_value. cbv zeta.
  fold frames. rewrite Hf. fold st. rewrite render_emit_nonempty by exact Hne.
  right. left. reflexivity.
Qed.

Lemma render_twice_same_witness :
  let s1 := render_session plane_x_oracle cgo_generators "all" 0.3 0.5 true
              sample_session in
  let s2 := render_session plane_x_oracle cgo_generators "all" 0.3 0.5 true s1 in
  let first := value (render_snfg plane_x_oracle cgo_generators
                        (cmd_get_model sample_session) "all" 0.3 0.5 true) in
  let second := value (render_snfg plane_x_oracle cgo_generators
                         (cmd_get_model s1) "all" 0.3 0.5 true) in
  second = first /\
  cgo_table s2 = cgo_table s1 /\
  exists primitives,
    primitives <> [] /\
    In (LoadCgo primitives (cgo_name_of "all")) first /\
    dict_get String.eqb (cgo_name_of "all") (cgo_table s1) = Some [primitives] /\
    dict_get String.eqb (cgo_name_of "all") (cgo_table s2) = Some [primitives].
Proof.
  intros s1 s2 first second.
  destruct (render_twice_same plane_x_oracle "all" 0.3 0.5 true sample_session)
    as (Hsame & Hidem & Hone).
  split; [exact Hsame|]. split; [exact Hidem|].
  set (st := value (render_loop cgo_generators 0.5 true
                      (value (get_residue_orientation plane_x_oracle
                                cube_and_sphere_model))
                      (mkLoopState [] [] 0))).
  assert (Hne : cgo_objects st <> []) by (vm_compute; discriminate).
  exists (cgo_objects st). split; [exact Hne|].
  assert (Hin : In (LoadCgo (cgo_objects st) (cgo_name_of "all")) first).
  { apply (render_snfg_loads_main plane_x_oracle cgo_generators
             (fun _ => cube_and_sphere_model) "all" 0.3 0.5 true);
      [reflexivity | exact Hne]. }
  split; [exact Hin|]. exact (Hone _ _ Hin).
Defined.

(** * Further properties *)

(** ** normalize_vector, again *)





(** ** Rigid motion by an orthonormal frame *)

Lemma transformation_matrix_of_orthonormal (x y z : V3) :
  orthonormal_right_handed x y z ->
  get_transformation_matrix x y z = (transpose (mkM33 x y z), []).
Proof.
  intros (Hx & Hy & Hz & _). unfold get_transformation_matrix, bind, ret.
  rewrite (normalize_vector_of_unit x Hx). cbn [fst snd].
  rewrite (normalize_vector_of_unit y Hy). cbn [fst snd].
  rewrite (normalize_vector_of_unit z Hz). reflexivity.
Qed.

Lemma mdot_transpose_dot (x y z p q : V3) :
  dot (mdot (transpose (mkM33 x y z)) p) (mdot (transpose (mkM33 x y z)) q)
  = vx p * vx q * dot x x + vy p * vy q * dot y y + vz p * vz q * dot z z
    + (vx p * vy q + vy p * vx q) * dot x y
    + (vy p * vz q + vz p * vy q) * dot y z
    + (vz p * vx q + vx p * vz q) * dot z x.
Proof. unfold mdot, transpose, dot; simpl; ring. Qed.

Lemma rotation_preserves_dot (x y z p q : V3) :
  orthonormal_right_handed x y z ->
  dot (mdot (transpose (mkM33 x y z)) p) (mdot (transpose (mkM33 x y z)) q)
  = dot p q.
Proof.
  intros (Hx & Hy & Hz & Hxy & Hyz & Hzx & _).
  rewrite mdot_transpose_dot, Hx, Hy, Hz, Hxy, Hyz, Hzx.
  unfold dot; ring.
Qed.

(** X3.  With an orthonormal basis, [transform_vertices] is a rigid
    motion: the list keeps its length, and the squared distance between
    any two transformed vertices is that between the local vertices. *)
Theorem transform_vertices_rigid (x y z center : V3) (vertices : list V3) :
  orthonormal_right_handed x y z ->
  let rotation_matrix := value (get_transformation_matrix x y z) in
  let moved := transform_vertices vertices center rotation_matrix in
  List.length moved = List.length vertices /\
  forall i j,
    (i < List.length vertices)%nat -> (j < List.length vertices)%nat ->
    dot (vsub (item moved i) (item moved j)) (vsub (item moved i) (item moved j))
    = dot (vsub (item vertices i) (item vertices j))
          (vsub (item vertices i) (item vertices j)).
Proof.
  intros Hon rotation_matrix moved. unfold moved, transform_vertices.
  split; [apply length_map|].
  intros i j Hi Hj. unfold item.
  set (f := fun v => vadd (mdot rotation_matrix v) center).
  rewrite (nth_indep (map f vertices) (mkV3 0 0 0) (f (mkV3 0 0 0)))
    by (rewrite length_map; exact Hi).
  rewrite (nth_indep (map f vertices) (mkV3 0 0 0) (f (mkV3 0 0 0)))
    by (rewrite length_map; exact Hj).
  rewrite !map_nth. unfold f.
  set (p := nth i vertices (mkV3 0 0 0)). set (q := nth j vertices (mkV3 0 0 0)).
  unfold rotation_matrix, value.
  rewrite (transformation_matrix_of_orthonormal x y z Hon). cbn [fst].
  replace (vsub (vadd (mdot (transpose (mkM33 x y z)) p) center)
                (vadd (mdot (transpose (mkM33 x y z)) q) center))
    with (mdot (transpose (mkM33 x y z)) (vsub p q))
    by (apply V3_eq; unfold vsub, vadd, mdot, dot, transpose; simpl; ring).
  apply rotation_preserves_dot, Hon.
Qed.

Lemma transform_vertices_rigid_witness :
  orthonormal_right_handed (mkV3 0 (-1) 0) (mkV3 1 0 0) (mkV3 0 0 1) /\
  let vertices := [mkV3 1 2 3; mkV3 0 0 0; mkV3 (-1) 5 2] in
  let moved := transform_vertices vertices (mkV3 7 8 9)
                 (value (get_transformation_matrix (mkV3 0 (-1) 0) (mkV3 1 0 0)
                           (mkV3 0 0 1))) in
  List.length moved = 3%nat /\
  dot (vsub (item moved 0) (item moved 2)) (vsub (item moved 0) (item moved 2))
  = dot (vsub (mkV3 1 2 3) (mkV3 (-1) 5 2)) (vsub (mkV3 1 2 3) (mkV3 (-1) 5 2)).
Proof.
  assert (Hon : orthonormal_right_handed (mkV3 0 (-1) 0) (mkV3 1 0 0) (mkV3 0 0 1))
    by (unfold orthonormal_right_handed, dot, cross; simpl; repeat split; ring).
  split; [exact Hon|]. cbv zeta.
  destruct (transform_vertices_rigid (mkV3 0 (-1) 0) (mkV3 1 0 0) (mkV3 0 0 1)
              (mkV3 7 8 9) [mkV3 1 2 3; mkV3 0 0 0; mkV3 (-1) 5 2] Hon)
    as [Hlen Hdist].
  split; [exact Hlen|].
  apply (Hdist 0%nat 2%nat); simpl; lia.
Defined.

(** X4.  The columns of the matrix are the normalised axes: whatever
    the axes, [transform_vertices] sends the local origin to the centre
    and the three local unit points to the centre plus the normalised X,
    Y and Z axis. *)
Theorem transform_vertices_columns (x y z center : V3) :
  transform_vertices
    [mkV3 0 0 0; mkV3 1 0 0; mkV3 0 1 0; mkV3 0 0 1] center
    (value (get_transformation_matrix x y z))
  = [ center;
      vadd (value (normalize_vector x)) center;
      vadd (value (normalize_vector y)) center;
      vadd (value (normalize_vector z)) center ].
Proof.
  unfold get_transformation_matrix, transform_vertices, bind, ret, value.
  cbn [fst map].
  repeat (f_equal; try (apply V3_eq; unfold vadd, mdot, dot, transpose; simpl; ring)).
Qed.

Lemma transform_normals_value (normals : list V3) (m : M33) :
  value (transform_normals normals m)
  = map (fun n => value (normalize_vector (mdot m n))) normals.
Proof.
  induction normals as [|n rest IH]; [reflexivity|].
  simpl. unfold value, bind in *; cbn [fst ret]. rewrite IH. reflexivity.
Qed.

(** X5.  [transform_normals] returns one unit vector per normal given,
    whatever the matrix; and with an orthonormal basis a unit normal is
    rotated exactly, without a warning, and the dot product of two
    rotated unit normals is that of the two normals. *)
Theorem transform_normals_unit (x y z : V3) (normals : list V3) (m : M33) :
  List.length (value (transform_normals normals m)) = List.length normals /\
  Forall (fun n => norm n = 1) (value (transform_normals normals m)) /\
  (orthonormal_right_handed x y z ->
   forall n1 n2,
     dot n1 n1 = 1 -> dot n2 n2 = 1 ->
     let r := value (get_transformation_matrix x y z) in
     transform_normals [n1; n2] r = ([mdot r n1; mdot r n2], []) /\
     dot (mdot r n1) (mdot r n2) = dot n1 n2).
Proof.
  rewrite transform_normals_value. split; [apply length_map|]. split.
  - apply Forall_forall. intros u Hu. apply in_map_iff in Hu as (n & <- & _).
    apply norm_unit, normalize_vector_unit.
  - intros Hon n1 n2 H1 H2 r. unfold r, value.
    rewrite (transformation_matrix_of_orthonormal x y z Hon). cbn [fst].
    split; [|apply rotation_preserves_dot, Hon].
    unfold transform_normals, bind, ret.
    rewrite !normalize_vector_of_unit
      by (rewrite rotation_preserves_dot by exact Hon; assumption).
    reflexivity.
Qed.

Lemma transform_normals_unit_witness :
  orthonormal_right_handed (mkV3 0 (-1) 0) (mkV3 1 0 0) (mkV3 0 0 1) /\
  dot (mkV3 1 0 0) (mkV3 1 0 0) = 1 /\ dot (mkV3 0 0 (-1)) (mkV3 0 0 (-1)) = 1 /\
  let r := value (get_transformation_matrix (mkV3 0 (-1) 0) (mkV3 1 0 0)
                    (mkV3 0 0 1)) in
  transform_normals [mkV3 1 0 0; mkV3 0 0 (-1)] r
  = ([mdot r (mkV3 1 0 0); mdot r (mkV3 0 0 (-1))], []) /\
  dot (mdot r (mkV3 1 0 0)) (mdot r (mkV3 0 0 (-1)))
  = dot (mkV3 1 0 0) (mkV3 0 0 (-1)).
Proof.
  assert (Hon : orthonormal_right_handed (mkV3 0 (-1) 0) (mkV3 1 0 0) (mkV3 0 0 1))
    by (unfold orthonormal_right_handed, dot, cross; simpl; repeat split; ring).
  assert (H1 : dot (mkV3 1 0 0) (mkV3 1 0 0) = 1) by (unfold dot; simpl; ring).
  assert (H2 : dot (mkV3 0 0 (-1)) (mkV3 0 0 (-1)) = 1) by (unfold dot; simpl; ring).
  split; [exact Hon|]. split; [exact H1|]. split; [exact H2|].
  exact (proj2 (proj2 (transform_normals_unit (mkV3 0 (-1) 0) (mkV3 1 0 0)
                         (mkV3 0 0 1) [] (mkM33 (mkV3 0 0 0) (mkV3 0 0 0)
                                            (mkV3 0 0 0))))
           Hon _ _ H1 H2).
Defined.

(** ** The shape dispatch *)

(** X6.  A shape name that is none of the seven implemented ones does
    not fail: the dispatch logs one "not implemented" warning and
    returns exactly the sphere it returns for the name "sphere", which
    does not depend on the axes. *)
Theorem unknown_shape_is_sphere (scale : R) (resn shape : string)
  (color : Color) (x y z : R) (xa ya za xa' ya' za' : V3) :
  ~ In shape implemented_shapes ->
  dispatch_shape cgo_generators scale resn shape color x y z xa ya za
  = (Returns (cgo_sphere x y z (1.8 * scale) color),
     [MsgShapeNotImplemented shape resn]) /\
  dispatch_shape cgo_generators scale resn "sphere" color x y z xa' ya' za'
  = (Returns (cgo_sphere x y z (1.8 * scale) color), []).
Proof.
  intros Hnot. split; [|reflexivity].
  unfold dispatch_shape.
  repeat match goal with
         | |- context [String.eqb shape ?s] =>
             destruct (String.eqb_spec shape s) as [E|_];
             [exfalso; apply Hnot; rewrite E; simpl; tauto|]
         end.
  reflexivity.
Qed.

Lemma unknown_shape_is_sphere_witness :
  ~ In "hexagon" implemented_shapes /\
  dispatch_shape cgo_generators 0.5 "XXX" "hexagon" SNFG_RED 1 2 3
    default_x default_y default_z
  = (Returns (cgo_sphere 1 2 3 (1.8 * 0.5) SNFG_RED),
     [MsgShapeNotImplemented "hexagon" "XXX"]) /\
  dispatch_shape cgo_generators 0.5 "XXX" "sphere" SNFG_RED 1 2 3
    default_z default_x default_y
  = (Returns (cgo_sphere 1 2 3 (1.8 * 0.5) SNFG_RED), []).
Proof.
  assert (H : ~ In "hexagon" implemented_shapes).
  { simpl. intros [E|[E|[E|[E|[E|[E|[E|[]]]]]]]]; discriminate. }
  split; [exact H|].
  exact (unknown_shape_is_sphere 0.5 "XXX" "hexagon" SNFG_RED 1 2 3
           default_x default_y default_z default_z default_x default_y H).
Defined.

(** ** cgo_cone *)

(** X7.  The cone runs along the normalised Z axis through the centre:
    its first end point is the centre plus [r] times that axis, with
    radius 0, its second the centre minus [r] times that axis, with
    radius [r]; the X and Y axes do not enter the primitives. *)
Theorem cgo_cone_along_z (x y z r : R) (color : Color) (xa ya za : V3) :
  let center := mkV3 x y z in
  let z_hat := value (normalize_vector za) in
  instructions (value (cgo_cone x y z r color xa ya za))
  = [ (COLOR, [vx color; vy color; vz color]);
      (CONE,
       [ vx center + r * vx z_hat; vy center + r * vy z_hat;
         vz center + r * vz z_hat;
         vx center - r * vx z_hat; vy center - r * vy z_hat;
         vz center - r * vz z_hat;
         0; r; vx color; vy color; vz color; vx color; vy color; vz color;
         1; 1 ]) ].
Proof.
  intros center z_hat.
  unfold cgo_cone, get_transformation_matrix, bind, ret, value.
  cbn [fst snd transform_vertices map item nth splat app instructions
       instructions_from rev].
  unfold z_hat, value, center.
  repeat (f_equal; try (unfold vadd, mdot, dot, transpose; simpl; ring)).
Qed.

(** ** cgo_diamond and cgo_half_diamond *)

Lemma sqrt3_pos : 0 < sqrt 3.
Proof. apply sqrt_lt_R0. lra. Qed.

Lemma sqrt3_sqr : sqrt 3 * sqrt 3 = 3.
Proof. apply sqrt_sqrt. lra. Qed.

Lemma normalize_diagonal (a b c : R) :
  a * a = 1 -> b * b = 1 -> c * c = 1 ->
  normalize_vector (mkV3 a b c) = (vdiv (mkV3 a b c) (sqrt 3), []).
Proof.
  intros Ha Hb Hc.
  assert (Hd : dot (mkV3 a b c) (mkV3 a b c) = 3)
    by (unfold dot; simpl; lra).
  assert (Hn : norm (mkV3 a b c) = sqrt 3) by (unfold norm; rewrite Hd; reflexivity).
  rewrite normalize_vector_large; rewrite Hn; [reflexivity|].
  pose proof sqrt3_pos. pose proof sqrt3_sqr. nra.
Qed.

Lemma normalize_all_exact (g : V3 -> V3) (l : list V3) :
  Forall (fun v => normalize_vector v = (g v, [])) l ->
  normalize_all l = (map g l, []).
Proof.
  induction 1 as [|v rest Hv _ IH]; [reflexivity|].
  cbn [normalize_all map]. unfold bind, ret. rewrite Hv. cbn [fst snd].
  rewrite IH. reflexivity.
Qed.

Lemma diamond_normals_local_value :
  diamond_normals_local
  = (map (fun u => vdiv u (sqrt 3)) diamond_signs, []).
Proof.
  unfold diamond_normals_local. apply normalize_all_exact.
  repeat constructor; apply normalize_diagonal; lra.
Qed.

Lemma diagonal_unit (u : V3) : dot u u = 3 -> dot (vdiv u (sqrt 3)) (vdiv u (sqrt 3)) = 1.
Proof.
  intros H. pose proof sqrt3_pos. rewrite dot_vdiv_self by lra.
  rewrite H, sqrt3_sqr. field.
Qed.

Lemma transform_normals_rotates (x y z : V3) (normals : list V3) :
  orthonormal_right_handed x y z ->
  Forall (fun n => dot n n = 1) normals ->
  value (transform_normals normals (transpose (mkM33 x y z)))
  = map (mdot (transpose (mkM33 x y z))) normals.
Proof.
  intros Hon Hall. rewrite transform_normals_value.
  apply map_ext_in. intros n Hn.
  rewrite Forall_forall in Hall.
  rewrite normalize_vector_of_unit; [reflexivity|].
  rewrite rotation_preserves_dot by exact Hon. apply Hall, Hn.
Qed.

Lemma v3_of_splat (v : V3) : v3_of [vx v; vy v; vz v] = v.
Proof. destruct v; reflexivity. Qed.

Lemma diamond_stream_triangles (color : V3) (normals vertices : list V3) :
  triangles_of ((COLOR :: splat color) ++ [BEGIN; TRIANGLES]
                ++ List.concat (diamond_faces normals vertices) ++ [END])
  = map (fun '(n, a, b, c) =>
           mkTriangle color (item normals n) (item vertices a)
             (item vertices b) (item vertices c))
        [(0, 0, 2, 4); (1, 0, 5, 2); (2, 0, 3, 5); (3, 0, 4, 3);
         (4, 1, 4, 2); (5, 1, 2, 5); (6, 1, 5, 3); (7, 1, 3, 4)]%nat.
Proof.
  unfold diamond_faces, diamond_face. cbn [map].
  destruct color. abstract_items. reflexivity.
Qed.

Lemma cgo_diamond_stream (x y z r : R) (color : Color) (xa ya za : V3) :
  value (cgo_diamond x y z r color xa ya za)
  = (COLOR :: splat color) ++ [BEGIN; TRIANGLES]
    ++ List.concat (diamond_faces
                 (value (transform_normals (value diamond_normals_local)
                           (value (get_transformation_matrix xa ya za))))
                 (transform_vertices (diamond_vertices_local r) (mkV3 x y z)
                    (value (get_transformation_matrix xa ya za))))
    ++ [END].
Proof.
  unfold cgo_diamond, diamond_faces, value, bind, ret. cbn [fst List.concat].
  rewrite <- !app_assoc. reflexivity.
Qed.


Lemma diamond_signs_unit :
  Forall (fun n => dot n n = 1) (map (fun u => vdiv u (sqrt 3)) diamond_signs).
Proof.
  unfold diamond_signs. cbn [map].
  repeat constructor; apply diagonal_unit; unfold dot; simpl; ring.
Qed.



Lemma half_diamond_stream_triangles (color color_2 : V3)
  (normals vertices : list V3) :
  triangles_of
    ([BEGIN; TRIANGLES]
     ++ (COLOR :: splat color_2) ++ diamond_face normals vertices 0 0 2 4
     ++ (COLOR :: splat color) ++ diamond_face normals vertices 1 0 5 2
     ++ (COLOR :: splat color) ++ diamond_face normals vertices 2 0 3 5
     ++ (COLOR :: splat color_2) ++ diamond_face normals vertices 3 0 4 3
     ++ (COLOR :: splat color_2) ++ diamond_face normals vertices 4 1 4 2
     ++ (COLOR :: splat color) ++ diamond_face normals vertices 5 1 2 5
     ++ (COLOR :: splat color) ++ diamond_face normals vertices 6 1 5 3
     ++ (COLOR :: splat color_2) ++ diamond_face normals vertices 7 1 3 4
     ++ [END])
  = map (fun '(col, n, a, b, c) =>
           mkTriangle col (item normals n) (item vertices a)
             (item vertices b) (item vertices c))
        [(color_2, 0, 0, 2, 4); (color, 1, 0, 5, 2); (color, 2, 0, 3, 5);
         (color_2, 3, 0, 4, 3); (color_2, 4, 1, 4, 2); (color, 5, 1, 2, 5);
         (color, 6, 1, 5, 3); (color_2, 7, 1, 3, 4)]%nat.
Proof.
  unfold diamond_face. cbn [map].
  destruct color, color_2. abstract_items. reflexivity.
Qed.

Lemma cgo_half_diamond_stream (x y z r : R) (color color_2 : Color)
  (xa ya za : V3) :
  let normals := value (transform_normals (value diamond_normals_local)
                          (value (get_transformation_matrix xa ya za))) in
  let vertices := transform_vertices (diamond_vertices_local r) (mkV3 x y z)
                    (value (get_transformation_matrix xa ya za)) in
  triangles_of (value (cgo_half_diamond x y z r color color_2 xa ya za))
  = map (fun '(col, n, a, b, c) =>
           mkTriangle col (item normals n) (item vertices a)
             (item vertices b) (item vertices c))
        [(color_2, 0, 0, 2, 4); (color, 1, 0, 5, 2); (color, 2, 0, 3, 5);
         (color_2, 3, 0, 4, 3); (color_2, 4, 1, 4, 2); (color, 5, 1, 2, 5);
         (color, 6, 1, 5, 3); (color_2, 7, 1, 3, 4)]%nat.
Proof.
  intros normals vertices.
  rewrite <- half_diamond_stream_triangles. reflexivity.
Qed.

(** X9.  [cgo_half_diamond] draws the same eight triangles as
    [cgo_diamond], with the same normals and corners in the same order,
    whatever the axes.  With an orthonormal basis the two colours split
    the solid along the local X axis: the four faces whose normal leans
    towards +X are drawn in [color_2], the four that lean towards -X in
    [color]. *)
Theorem cgo_half_diamond_halves (x y z r : R) (color color_2 : Color)
  (xa ya za : V3) :
  let ts := triangles_of (value (cgo_half_diamond x y z r color color_2
                                   xa ya za)) in
  let plain := triangles_of (value (cgo_diamond x y z r color xa ya za)) in
  map (fun t => (t_normal t, t_a t, t_b t, t_c t)) ts
  = map (fun t => (t_normal t, t_a t, t_b t, t_c t)) plain /\
  (orthonormal_right_handed xa ya za ->
   map (fun t => (t_color t, dot (t_normal t) xa)) ts
   = [ (color_2, 1 / sqrt 3); (color, - (1 / sqrt 3));
       (color, - (1 / sqrt 3)); (color_2, 1 / sqrt 3);
       (color_2, 1 / sqrt 3); (color, - (1 / sqrt 3));
       (color, - (1 / sqrt 3)); (color_2, 1 / sqrt 3) ]).
Proof.
  intros ts plain. unfold ts, plain.
  rewrite cgo_half_diamond_stream, cgo_diamond_stream, diamond_stream_triangles.
  split; [reflexivity|].
  intros Hon. unfold value.
  rewrite (transformation_matrix_of_orthonormal xa ya za Hon),
    diamond_normals_local_value. cbn [fst].
  fold (value (transform_normals (map (fun u => vdiv u (sqrt 3)) diamond_signs)
                 (transpose (mkM33 xa ya za)))).
  rewrite (transform_normals_rotates xa ya za _ Hon diamond_signs_unit).
  unfold diamond_signs. cbn [map item nth t_color t_normal].
  assert (Hx : forall u, dot (mdot (transpose (mkM33 xa ya za)) (vdiv u (sqrt 3))) xa
                         = vx u / sqrt 3).
  { intros u.
    replace xa with (mdot (transpose (mkM33 xa ya za)) (mkV3 1 0 0)) at 2
      by (apply V3_eq; unfold mdot, dot, transpose; simpl; ring).
    rewrite rotation_preserves_dot by exact Hon.
    unfold dot, vdiv; simpl. unfold Rdiv. ring. }
  rewrite !Hx. cbn [vx]. pose proof sqrt3_pos.
  replace (-1 / sqrt 3) with (- (1 / sqrt 3)) by (field; lra).
  reflexivity.
Qed.

Lemma cgo_half_diamond_halves_witness :
  orthonormal_right_handed (mkV3 0 (-1) 0) (mkV3 1 0 0) (mkV3 0 0 1) /\
  map (fun t => (t_color t, dot (t_normal t) (mkV3 0 (-1) 0)))
    (triangles_of (value (cgo_half_diamond 1 2 3 1.5 SNFG_BLUE SNFG_WHITE
                            (mkV3 0 (-1) 0) (mkV3 1 0 0) (mkV3 0 0 1))))
  = [ (SNFG_WHITE, 1 / sqrt 3); (SNFG_BLUE, - (1 / sqrt 3));
      (SNFG_BLUE, - (1 / sqrt 3)); (SNFG_WHITE, 1 / sqrt 3);
      (SNFG_WHITE, 1 / sqrt 3); (SNFG_BLUE, - (1 / sqrt 3));
      (SNFG_BLUE, - (1 / sqrt 3)); (SNFG_WHITE, 1 / sqrt 3) ].
Proof.
  assert (Hon : orthonormal_right_handed (mkV3 0 (-1) 0) (mkV3 1 0 0) (mkV3 0 0 1))
    by (unfold orthonormal_right_handed, dot, cross; simpl; repeat split; ring).
  split; [exact Hon|].
  exact (proj2 (cgo_half_diamond_halves 1 2 3 1.5 SNFG_BLUE SNFG_WHITE _ _ _) Hon).
Defined.

(** ** cgo_cube, face by face *)




Lemma cube_normals_unit : Forall (fun n => dot n n = 1) cube_normals_local.
Proof.
  unfold cube_normals_local. repeat constructor; unfold dot; simpl; ring.
Qed.




(** ** More on get_residue_orientation *)

(** X11.  For a residue with at least three required atoms whose C4 is
    at least 1e-6 away from their mean, the frame is centred on that
    mean, carries the residue name, and its Z axis is the unit vector
    from the centre towards C4. *)
Theorem z_axis_towards_C4 (la : LinAlg) (model_atom : list Atom) (k : res_key)
  (coord_C4 : V3) :
  let atoms := required_atoms_of model_atom k in
  let center := vmean (coords_of required_atoms atoms) in
  (3 <= required_found model_atom k)%nat ->
  dict_get String.eqb "C4" atoms = Some coord_C4 ->
  1e-6 <= norm (vsub coord_C4 center) ->
  exists f,
    dict_get key_eqb k (value (orientations_of la model_atom)) = Some f /\
    f_resn f = snd k /\ f_center f = center /\
    z_axis f = vdiv (vsub coord_C4 center) (norm (vsub coord_C4 center)) /\
    dot (z_axis f) (vsub coord_C4 center) = norm (vsub coord_C4 center).
Proof.
  intros atoms center H Hc4 Hfar.
  exists (value (residue_frame la k atoms)).
  destruct (frame_emitted la model_atom k) as [Hget _]; [lia|].
  split; [exact Hget|].
  rewrite (residue_frame_with_C4 la k atoms coord_C4 H Hc4). fold center.
  cbn [f_resn f_center z_axis].
  destruct (Rlt_dec (norm (vsub coord_C4 center)) 1e-6) as [Hlt|_]; [lra|].
  rewrite normalize_vector_large by lra. unfold value; cbn [fst].
  repeat split.
  rewrite dot_vdiv_left, <- norm_sqr. field. lra.
Qed.

Lemma ring_model_atoms :
  required_atoms_of ring_model sample_key
  = [ ("C1", mkV3 1 0 0); ("C2", mkV3 0 1 0); ("C3", mkV3 (-1) 0 0);
      ("C4", mkV3 0 0 6); ("C5", mkV3 0 (-1) 0); ("O5", mkV3 0 0 0) ].
Proof. reflexivity. Qed.

Lemma ring_model_center :
  vmean (coords_of required_atoms (required_atoms_of ring_model sample_key))
  = mkV3 0 0 1.
Proof.
  rewrite ring_model_atoms.
  apply V3_eq; unfold vmean, vsum, vdiv; simpl; lra.
Qed.

Lemma z_axis_towards_C4_witness :
  let atoms := required_atoms_of ring_model sample_key in
  let center := vmean (coords_of required_atoms atoms) in
  (3 <= required_found ring_model sample_key)%nat /\
  dict_get String.eqb "C4" atoms = Some (mkV3 0 0 6) /\
  1e-6 <= norm (vsub (mkV3 0 0 6) center) /\
  exists f,
    dict_get key_eqb sample_key
      (value (orientations_of plane_x_oracle ring_model)) = Some f /\
    f_resn f = snd sample_key /\ f_center f = center /\
    z_axis f = vdiv (vsub (mkV3 0 0 6) center) (norm (vsub (mkV3 0 0 6) center)) /\
    dot (z_axis f) (vsub (mkV3 0 0 6) center) = norm (vsub (mkV3 0 0 6) center).
Proof.
  intros atoms center.
  assert (H3 : (3 <= required_found ring_model sample_key)%nat)
    by (vm_compute; lia).
  assert (Hc4 : dict_get String.eqb "C4" atoms = Some (mkV3 0 0 6))
    by reflexivity.
  assert (Hfar : 1e-6 <= norm (vsub (mkV3 0 0 6) center)).
  { unfold center, atoms. rewrite ring_model_center.
    apply norm_ge_sqr; [lra | unfold dot, vsub; simpl; lra]. }
  split; [exact H3|]. split; [exact Hc4|]. split; [exact Hfar|].
  exact (z_axis_towards_C4 plane_x_oracle ring_model sample_key (mkV3 0 0 6)
           H3 Hc4 Hfar).
Defined.

(** X12.  Step 4 on a unit plane normal and a unit Z axis.  When the two
    are not nearly parallel, X is orthogonal to the plane normal (it lies
    in the ring plane) and Y is exactly Z x X.  When they are nearly
    parallel the plane normal is not used at all: Y is orthogonal to the
    global X direction, or to the global Y direction if Z is within
    0.99 of global X, and X is exactly Y x Z. *)
Theorem xy_axes_of_cases (k : res_key) (plane_normal z : V3) :
  dot plane_normal plane_normal = 1 -> dot z z = 1 ->
  let x := fst (value (xy_axes_of k plane_normal z)) in
  let y := snd (value (xy_axes_of k plane_normal z)) in
  (Rabs (dot plane_normal z) <= 0.995 ->
   dot x plane_normal = 0 /\ y = cross z x /\
   diags (xy_axes_of k plane_normal z) = []) /\
  (Rabs (dot plane_normal z) > 0.995 ->
   x = cross y z /\
   (Rabs (vx z) <= 0.99 -> vx y = 0) /\
   (Rabs (vx z) > 0.99 -> vy y = 0) /\
   diags (xy_axes_of k plane_normal z) = [MsgNearParallel k]).
Proof.
  intros Hp Hz x y. unfold x, y, xy_axes_of.
  assert (Hex : dot (mkV3 1 0 0) z = vx z) by (unfold dot; simpl; ring).
  split; intros Hd;
    destruct (Rgt_dec (Rabs (dot plane_normal z)) 0.995) as [Hpar|Hpar];
    try lra.
  - apply Rabs_bound_sqr in Hpar.
    assert (Hc : 1e-9 * 1e-9
                 <= dot (cross plane_normal z) (cross plane_normal z))
      by (rewrite cross_norm_sqr, Hz, Hp; lra).
    pose proof (xy_axes_from_normal plane_normal z Hz Hp Hpar)
      as (Hxx & _ & _ & _ & _ & Hzx & _).
    cbv zeta in Hxx, Hzx.
    assert (Hyu : dot (cross z (value (normalize_vector (cross plane_normal z))))
                      (cross z (value (normalize_vector (cross plane_normal z))))
                  = 1)
      by (rewrite cross_norm_sqr, Hxx, Hz, Hzx; ring).
    unfold value in *. unfold diags, bind, ret; cbn [fst snd].
    rewrite (normalize_vector_of_unit _ Hyu). cbn [fst snd].
    rewrite (normalize_vector_large (cross plane_normal z))
      by (apply norm_ge_sqr; [lra | exact Hc]).
    cbn [fst snd]. repeat split.
    rewrite dot_vdiv_left, cross_dot_left. unfold Rdiv. ring.
  - rewrite Hex.
    assert (Harb : forall temp,
               dot temp temp = 1 -> dot z temp * dot z temp <= 0.9801 ->
               let y0 := fst (normalize_vector (cross z temp)) in
               normalize_vector (cross z temp)
               = (vdiv (cross z temp) (norm (cross z temp)), []) /\
               normalize_vector (cross y0 z) = (cross y0 z, [])).
    { intros temp Ht Hb y0.
      assert (Hc : 1e-9 * 1e-9 <= dot (cross z temp) (cross z temp))
        by (rewrite cross_norm_sqr, Hz, Ht; lra).
      pose proof (xy_axes_arbitrary z temp Hz Ht Hb)
        as (_ & Hyy & _ & _ & Hyz & _ & _).
      cbv zeta in Hyy, Hyz. unfold value in Hyy, Hyz. fold y0 in Hyy, Hyz.
      split.
      - apply normalize_vector_large, norm_ge_sqr; [lra | exact Hc].
      - apply normalize_vector_of_unit.
        rewrite cross_norm_sqr, Hyy, Hz, Hyz. ring. }
    destruct (Rgt_dec (Rabs (vx z)) 0.99) as [Hx|Hx].
    + assert (Hb : dot z (mkV3 0 1 0) * dot z (mkV3 0 1 0) <= 0.9801).
      { apply Rabs_gt_sqr in Hx; [|lra]. unfold dot in *; simpl in *. nra. }
      destruct (Harb (mkV3 0 1 0) ltac:(unfold dot; simpl; ring) Hb)
        as [Ey Ex].
      unfold value, diags, bind, ret, tell; cbn [fst snd].
      rewrite Ex. rewrite Ey. cbn [fst snd].
      repeat split; try lra.
      intros _. unfold vdiv, cross; simpl. unfold Rdiv. ring.
    + assert (Hb : dot z (mkV3 1 0 0) * dot z (mkV3 1 0 0) <= 0.9801).
      { apply Rabs_bound_sqr in Hx. rewrite dot_comm, Hex. lra. }
      destruct (Harb (mkV3 1 0 0) ltac:(unfold dot; simpl; ring) Hb)
        as [Ey Ex].
      unfold value, diags, bind, ret, tell; cbn [fst snd].
      rewrite Ex. rewrite Ey. cbn [fst snd].
      apply Rnot_gt_le in Hx.
      repeat split; try lra.
      intros _. unfold vdiv, cross; simpl. unfold Rdiv. ring.
Qed.

Lemma xy_axes_of_cases_witness :
  (dot (mkV3 1 0 0) (mkV3 1 0 0) = 1 /\ dot (mkV3 0 0 1) (mkV3 0 0 1) = 1 /\
   Rabs (dot (mkV3 1 0 0) (mkV3 0 0 1)) <= 0.995 /\
   dot (fst (value (xy_axes_of sample_key (mkV3 1 0 0) (mkV3 0 0 1))))
       (mkV3 1 0 0) = 0) /\
  (Rabs (dot (mkV3 0 0 1) (mkV3 0 0 1)) > 0.995 /\
   Rabs (vx (mkV3 0 0 1)) <= 0.99 /\
   vx (snd (value (xy_axes_of sample_key (mkV3 0 0 1) (mkV3 0 0 1)))) = 0 /\
   diags (xy_axes_of sample_key (mkV3 0 0 1) (mkV3 0 0 1))
   = [MsgNearParallel sample_key]).
Proof.
  assert (Hx : dot (mkV3 1 0 0) (mkV3 1 0 0) = 1) by (unfold dot; simpl; ring).
  assert (Hz : dot (mkV3 0 0 1) (mkV3 0 0 1) = 1) by (unfold dot; simpl; ring).
  assert (H0 : Rabs (dot (mkV3 1 0 0) (mkV3 0 0 1)) <= 0.995).
  { replace (dot (mkV3 1 0 0) (mkV3 0 0 1)) with 0 by (unfold dot; simpl; ring).
    rewrite Rabs_R0. lra. }
  assert (H1 : Rabs (dot (mkV3 0 0 1) (mkV3 0 0 1)) > 0.995).
  { rewrite Hz, Rabs_R1. lra. }
  assert (H2 : Rabs (vx (mkV3 0 0 1)) <= 0.99) by (simpl; rewrite Rabs_R0; lra).
  split.
  - split; [exact Hx|]. split; [exact Hz|]. split; [exact H0|].
    exact (proj1 (proj1 (xy_axes_of_cases sample_key _ _ Hx Hz) H0)).
  - split; [exact H1|]. split; [exact H2|].
    destruct (proj2 (xy_axes_of_cases sample_key _ _ Hz Hz) H1)
      as (_ & Hy & _ & Hd).
    split; [exact (Hy H2) | exact Hd].
Defined.

Lemma collect_ring_atoms (model_atom : list Atom) :
  forall d,
    fold_left collect_step model_atom d
    = fold_left collect_step (ring_atoms model_atom) d.
Proof.
  induction model_atom as [|a rest IH]; intros d; [reflexivity|].
  unfold ring_atoms in *. cbn [filter fold_left].
  destruct (str_in (atom_name a) required_atoms) eqn:E.
  - cbn [fold_left]. apply IH.
  - rewrite <- IH. f_equal. unfold collect_step. rewrite E. reflexivity.
Qed.

(** X13.  Atoms whose name is not one of C1-C5, O5 play no part: the
    frames and the diagnostics are those of the selection with these
    atoms removed. *)
Theorem other_atoms_ignored (la : LinAlg) (model_atom : list Atom) :
  get_residue_orientation la model_atom
  = get_residue_orientation la (ring_atoms model_atom).
Proof.
  unfold get_residue_orientation, orientations_of, collect_residue_atoms.
  rewrite collect_ring_atoms. reflexivity.
Qed.

Section DictOrder.
Context {K V : Type} (eqb : K -> K -> bool).
Hypothesis eqb_eq : forall a b, eqb a b = true <-> a = b.

Lemma dict_set_fresh (k : K) (v : V) (d : dict K V) :
  dict_get eqb k d = None -> dict_set eqb k v d = d ++ [(k, v)].
Proof.
  induction d as [|[k' v'] rest IH]; simpl; [reflexivity|].
  destruct (eqb k k'); [discriminate|].
  intros H. rewrite (IH H). reflexivity.
Qed.

Lemma dict_mem_keys (k : K) (d : dict K V) :
  dict_mem eqb k d = existsb (eqb k) (dict_keys d).
Proof.
  unfold dict_mem. induction d as [|[k' v'] rest IH]; simpl; [reflexivity|].
  destruct (eqb k k'); [reflexivity | exact IH].
Qed.
End DictOrder.

Lemma collect_step_keys (d : dict res_key (dict string V3)) (a : Atom) :
  dict_keys (collect_step d a)
  = if str_in (atom_name a) required_atoms
    then if existsb (key_eqb (residue_of a)) (dict_keys d)
         then dict_keys d else dict_keys d ++ [residue_of a]
    else dict_keys d.
Proof.
  unfold collect_step. fold (residue_of a).
  destruct (str_in (atom_name a) required_atoms); [|reflexivity].
  rewrite <- (dict_mem_keys key_eqb). unfold dict_mem.
  destruct (dict_get key_eqb (residue_of a) d) as [atoms|] eqn:Hd.
  - rewrite Hd. rewrite (dict_set_keys key_eqb). unfold dict_mem.
    rewrite Hd. reflexivity.
  - rewrite (dict_get_set_same key_eqb key_eqb_eq).
    rewrite (dict_set_keys key_eqb). unfold dict_mem.
    rewrite (dict_get_set_same key_eqb key_eqb_eq).
    rewrite (dict_set_keys key_eqb). unfold dict_mem. rewrite Hd.
    reflexivity.
Qed.

Lemma collect_keys (model_atom : list Atom) :
  forall d,
    dict_keys (fold_left collect_step model_atom d)
    = fold_left (fun seen k => if existsb (key_eqb k) seen then seen
                               else seen ++ [k])
        (map residue_of (ring_atoms model_atom)) (dict_keys d).
Proof.
  induction model_atom as [|a rest IH]; intros d; [reflexivity|].
  cbn [fold_left]. rewrite IH, collect_step_keys.
  unfold ring_atoms. cbn [filter].
  destruct (str_in (atom_name a) required_atoms); reflexivity.
Qed.

Lemma orientation_loop_value (la : LinAlg)
  (items : list (res_key * dict string V3)) :
  forall acc,
    NoDup (dict_keys acc ++ dict_keys items) ->
    value (orientation_loop la items acc)
    = acc ++ map (fun kv => (fst kv, value (residue_frame la (fst kv) (snd kv))))
               items.
Proof.
  induction items as [|[k1 a1] rest IH]; intros acc Hnd; simpl.
  - rewrite app_nil_r. reflexivity.
  - unfold value, bind in *; cbn [fst].
    assert (Hfresh : dict_get key_eqb k1 acc = None).
    { apply (dict_get_None_keys key_eqb key_eqb_eq).
      intros Hin. simpl in Hnd. apply NoDup_remove_2 in Hnd.
      apply Hnd. apply in_or_app. left. exact Hin. }
    rewrite (dict_set_fresh key_eqb k1 _ acc Hfresh).
    rewrite IH.
    + rewrite <- app_assoc. reflexivity.
    + unfold dict_keys in *. rewrite map_app. simpl in *.
      rewrite <- app_assoc. exact Hnd.
Qed.

Lemma residue_frame_resn (la : LinAlg) (k : res_key) (atoms : dict string V3) :
  f_resn (value (residue_frame la k atoms)) = snd k.
Proof.
  destruct (Nat.lt_ge_cases (List.length (coords_of required_atoms atoms)) 3)
    as [Hfew|Hok].
  - rewrite residue_frame_few by exact Hfew. reflexivity.
  - destruct (dict_get String.eqb "C4" atoms) as [coord_C4|] eqn:Hc4.
    + rewrite (residue_frame_with_C4 la k atoms coord_C4 Hok Hc4). reflexivity.
    + rewrite residue_frame_no_C4 by assumption. reflexivity.
Qed.

(** X14.  [get_residue_orientation] returns one frame per residue that
    has a required atom, in the order in which the residues first show
    such an atom, and each frame carries the name of its residue. *)
Theorem one_frame_per_residue (la : LinAlg) (model_atom : list Atom) :
  let residues := first_seen (map residue_of (ring_atoms model_atom)) in
  dict_keys (value (orientations_of la model_atom)) = residues /\
  NoDup residues /\
  map f_resn (value (get_residue_orientation la model_atom))
  = map snd residues.
Proof.
  intros residues.
  assert (Hk : dict_keys (collect_residue_atoms model_atom) = residues).
  { unfold collect_residue_atoms. rewrite collect_keys. reflexivity. }
  pose proof (collect_residue_atoms_NoDup model_atom) as Hnd.
  assert (Hv : value (orientations_of la model_atom)
               = map (fun kv => (fst kv,
                                 value (residue_frame la (fst kv) (snd kv))))
                   (collect_residue_atoms model_atom)).
  { unfold orientations_of. rewrite orientation_loop_value; [reflexivity|].
    exact Hnd. }
  assert (Hkeys : dict_keys (value (orientations_of la model_atom)) = residues).
  { rewrite Hv, <- Hk. unfold dict_keys. rewrite map_map. reflexivity. }
  split; [exact Hkeys|]. split; [rewrite <- Hk; exact Hnd|].
  rewrite get_residue_orientation_value, Hv, <- Hk.
  unfold dict_values, dict_keys. rewrite !map_map.
  apply map_ext. intros [k atoms]. apply residue_frame_resn.
Qed.

Lemma store_atoms_get (name : string) (l : list Atom) :
  forall d,
    dict_get String.eqb name (fold_left store_atom l d)
    = match last_coord name l with
      | Some c => Some c
      | None => dict_get String.eqb name d
      end.
Proof.
  intros d. unfold last_coord.
  induction l as [|a l IH] using rev_ind; [reflexivity|].
  rewrite !fold_left_app. cbn [fold_left]. unfold store_atom at 1.
  destruct (String.eqb_spec (atom_name a) name) as [E|E].
  - subst name. apply (dict_get_set_same String.eqb String.eqb_eq).
  - rewrite (dict_get_set_other String.eqb String.eqb_eq) by exact E.
    exact IH.
Qed.

(** X15.  When a residue lists a required atom name more than once, the
    coordinate kept for that name is the one of its last occurrence in
    the selection; a name the residue does not have is absent. *)
Theorem last_occurrence_wins (model_atom : list Atom) (k : res_key)
  (atoms : dict string V3) (name : string) :
  dict_get key_eqb k (collect_residue_atoms model_atom) = Some atoms ->
  dict_get String.eqb name atoms = last_coord name (required_in model_atom k).
Proof.
  rewrite collect_residue_atoms_get.
  destruct (required_in model_atom k) as [|a rest] eqn:E; [discriminate|].
  intros H. injection H as <-. unfold required_atoms_of. rewrite E.
  rewrite store_atoms_get. destruct (last_coord name (a :: rest)); reflexivity.
Qed.

Lemma last_occurrence_wins_witness :
  dict_get key_eqb sample_key (collect_residue_atoms altloc_model)
  = Some [("C1", mkV3 9 9 9); ("C2", mkV3 0 1 0)] /\
  dict_get String.eqb "C1" [("C1", mkV3 9 9 9); ("C2", mkV3 0 1 0)]
  = last_coord "C1" (required_in altloc_model sample_key) /\
  last_coord "C1" (required_in altloc_model sample_key) = Some (mkV3 9 9 9).
Proof.
  assert (H : dict_get key_eqb sample_key (collect_residue_atoms altloc_model)
              = Some [("C1", mkV3 9 9 9); ("C2", mkV3 0 1 0)]) by reflexivity.
  split; [exact H|]. split; [|reflexivity].
  exact (last_occurrence_wins altloc_model sample_key _ "C1" H).
Defined.

(** *** The centre of a frame *)

Lemma vadd_comm (a b : V3) : vadd a b = vadd b a.
Proof. apply V3_eq; unfold vadd; simpl; ring. Qed.

Lemma vadd_assoc (a b c : V3) : vadd (vadd a b) c = vadd a (vadd b c).
Proof. apply V3_eq; unfold vadd; simpl; ring. Qed.

Lemma fold_vadd_start (l : list V3) :
  forall a, fold_left vadd l a = vadd a (vsum l).
Proof.
  unfold vsum. induction l as [|x l IH]; intros a; cbn [fold_left].
  - apply V3_eq; unfold vadd; simpl; ring.
  - rewrite (IH (vadd a x)), (IH (vadd (mkV3 0 0 0) x)).
    generalize (fold_left vadd l (mkV3 0 0 0)). intros s.
    apply V3_eq; unfold vadd; simpl; ring.
Qed.

Lemma vsum_cons (x : V3) (l : list V3) : vsum (x :: l) = vadd x (vsum l).
Proof.
  unfold vsum at 1. cbn [fold_left]. rewrite fold_vadd_start.
  f_equal. apply V3_eq; unfold vadd; simpl; ring.
Qed.

Lemma vsum_permutation (l l' : list V3) : Permutation l l' -> vsum l = vsum l'.
Proof.
  induction 1 as [|x l l' _ IH|x y l|l l' l'' _ IH1 _ IH2].
  - reflexivity.
  - rewrite !vsum_cons, IH. reflexivity.
  - rewrite !vsum_cons, <- !vadd_assoc, (vadd_comm y x). reflexivity.
  - congruence.
Qed.

Lemma vmean_permutation (l l' : list V3) : Permutation l l' -> vmean l = vmean l'.
Proof.
  intros H. unfold vmean.
  rewrite (vsum_permutation l l' H), (Permutation_length H). reflexivity.
Qed.

Lemma coords_of_app (l1 l2 : list string) (atoms : dict string V3) :
  coords_of (l1 ++ l2) atoms = coords_of l1 atoms ++ coords_of l2 atoms.
Proof. unfold coords_of. apply flat_map_app. Qed.

Lemma coords_of_skip (n : string) (c : V3) (names : list string)
  (rest : dict string V3) :
  ~ In n names -> coords_of names ((n, c) :: rest) = coords_of names rest.
Proof.
  intros Hn. unfold coords_of. rewrite !flat_map_concat_map. f_equal.
  apply map_ext_in. intros m Hm. cbn [dict_get].
  assert (E : String.eqb m n = false).
  { apply String.eqb_neq. intros ->. apply Hn. exact Hm. }
  rewrite E. reflexivity.
Qed.

Lemma coords_of_permutation (atoms : dict string V3) :
  forall names,
    NoDup names -> NoDup (dict_keys atoms) -> incl (dict_keys atoms) names ->
    Permutation (coords_of names atoms) (dict_values atoms).
Proof.
  induction atoms as [|[n c] rest IH]; intros names Hnames Hkeys Hincl.
  - unfold coords_of. clear. induction names; [constructor | exact IHnames].
  - assert (Hin : In n names) by (apply Hincl; left; reflexivity).
    apply in_split in Hin as (l1 & l2 & ->).
    apply NoDup_remove in Hnames as [Hnd Hnot].
    inversion Hkeys as [|? ? Hnrest Hkrest]; subst.
    assert (H1 : ~ In n l1) by (intros H; apply Hnot, in_or_app; left; exact H).
    assert (H2 : ~ In n l2) by (intros H; apply Hnot, in_or_app; right; exact H).
    rewrite coords_of_app. change (n :: l2) with ([n] ++ l2).
    rewrite coords_of_app, (coords_of_skip n c l1 rest H1),
      (coords_of_skip n c l2 rest H2).
    unfold coords_of at 2. cbn [flat_map dict_get]. rewrite String.eqb_refl.
    cbn [app dict_values map snd].
    apply Permutation_sym, Permutation_cons_app, Permutation_sym.
    rewrite <- coords_of_app. apply IH; [exact Hnd | exact Hkrest|].
    intros m Hm.
    assert (Hm' : In m (l1 ++ n :: l2)) by (apply Hincl; right; exact Hm).
    apply in_app_or in Hm' as [Hm'|[Hm'|Hm']].
    + apply in_or_app. left. exact Hm'.
    + subst m. contradiction.
    + apply in_or_app. right. exact Hm'.
Qed.

Lemma store_atoms_keys (l : list Atom) :
  Forall (fun a => str_in (atom_name a) required_atoms = true) l ->
  forall d,
    NoDup (dict_keys d) -> incl (dict_keys d) required_atoms ->
    NoDup (dict_keys (fold_left store_atom l d)) /\
    incl (dict_keys (fold_left store_atom l d)) required_atoms.
Proof.
  induction 1 as [|a l Ha _ IH]; intros d Hnd Hincl; [split; assumption|].
  cbn [fold_left]. apply IH.
  - apply (dict_set_NoDup String.eqb String.eqb_eq), Hnd.
  - unfold store_atom. rewrite (dict_set_keys String.eqb).
    destruct (dict_mem String.eqb (atom_name a) d); [exact Hincl|].
    intros m Hm. apply in_app_or in Hm as [Hm|[<-|[]]]; [apply Hincl, Hm|].
    unfold str_in in Ha. apply existsb_exists in Ha as (s & Hs & E).
    apply String.eqb_eq in E. subst s. exact Hs.
Qed.

Lemma required_atoms_of_coords (model_atom : list Atom) (k : res_key) :
  Permutation (coords_of required_atoms (required_atoms_of model_atom k))
              (dict_values (required_atoms_of model_atom k)).
Proof.
  destruct (store_atoms_keys (required_in model_atom k)) with (d := @nil (string * V3))
    as [Hnd Hincl].
  - unfold required_in. apply Forall_forall. intros a Ha.
    apply filter_In in Ha as [_ Ha]. apply andb_true_iff in Ha as [Ha _].
    exact Ha.
  - constructor.
  - intros m [].
  - apply coords_of_permutation; [|exact Hnd | exact Hincl].
    unfold required_atoms.
    repeat constructor; simpl; intuition discriminate.
Qed.

(** X16.  Whichever branch produces it, the frame of a residue is
    centred on the mean of the coordinates kept for its required atoms,
    one per atom name; with fewer than three of them as with three or
    more. *)
Theorem frame_center_is_mean (la : LinAlg) (model_atom : list Atom)
  (k : res_key) :
  (1 <= required_found model_atom k)%nat ->
  exists f,
    dict_get key_eqb k (value (orientations_of la model_atom)) = Some f /\
    f_center f = vmean (dict_values (required_atoms_of model_atom k)) /\
    List.length (dict_values (required_atoms_of model_atom k))
    = required_found model_atom k.
Proof.
  intros H1.
  exists (value (residue_frame la k (required_atoms_of model_atom k))).
  destruct (frame_emitted la model_atom k H1) as [Hget _].
  split; [exact Hget|].
  pose proof (required_atoms_of_coords model_atom k) as Hperm.
  split; [|symmetry; apply (Permutation_length Hperm)].
  set (atoms := required_atoms_of model_atom k) in *.
  destruct (Nat.lt_ge_cases (List.length (coords_of required_atoms atoms)) 3)
    as [Hfew|Hok].
  - rewrite residue_frame_few by exact Hfew. cbn [f_center].
    apply required_found_positive in H1 as [_ Hne]. fold atoms in Hne.
    destruct (dict_values atoms); [contradiction | reflexivity].
  - destruct (dict_get String.eqb "C4" atoms) as [coord_C4|] eqn:Hc4.
    + rewrite (residue_frame_with_C4 la k atoms coord_C4 Hok Hc4).
      cbn [f_center]. apply vmean_permutation, Hperm.
    + rewrite residue_frame_no_C4 by assumption.
      cbn [f_center]. apply vmean_permutation, Hperm.
Qed.

Lemma frame_center_is_mean_witness :
  (1 <= required_found ring_model sample_key)%nat /\
  exists f,
    dict_get key_eqb sample_key
      (value (orientations_of plane_x_oracle ring_model)) = Some f /\
    f_center f = vmean (dict_values (required_atoms_of ring_model sample_key)) /\
    List.length (dict_values (required_atoms_of ring_model sample_key))
    = required_found ring_model sample_key.
Proof.
  assert (H : (1 <= required_found ring_model sample_key)%nat)
    by (vm_compute; lia).
  split; [exact H|].
  exact (frame_center_is_mean plane_x_oracle ring_model sample_key H).
Defined.

(** ** More on render_snfg *)

(** X17.  When no atom of the filtered selection carries a required
    name (in particular when the selection is empty), [render_snfg]
    stops after the frame estimation: it issues no sink command and logs
    that no residue was found, whatever the generators. *)
Theorem render_without_ring_atoms (la : LinAlg) (G : Generators)
  (get_model : string -> list Atom) (selection : string)
  (transparency scale : R) (debug_axes : bool) :
  ring_atoms (get_model (full_selection selection)) = [] ->
  render_snfg la G get_model selection transparency scale debug_axes
  = ([], [MsgApplying (full_selection selection); MsgNoResidues]).
Proof.
  intros H.
  assert (E : get_residue_orientation la (get_model (full_selection selection))
              = ([], [])).
  { unfold get_residue_orientation, orientations_of, collect_residue_atoms.
    rewrite collect_ring_atoms, H. reflexivity. }
  unfold render_snfg. rewrite E. reflexivity.
Qed.

Lemma render_without_ring_atoms_witness :
  ring_atoms ((fun _ : string => no_ring_model) (full_selection "all")) = [] /\
  render_snfg plane_x_oracle cgo_generators (fun _ => no_ring_model) "all"
    0.3 0.5 true
  = ([], [MsgApplying (full_selection "all"); MsgNoResidues]).
Proof.
  assert (H : ring_atoms ((fun _ : string => no_ring_model) (full_selection "all"))
              = []) by reflexivity.
  split; [exact H|].
  exact (render_without_ring_atoms plane_x_oracle cgo_generators
           (fun _ => no_ring_model) "all" 0.3 0.5 true H).
Defined.

Lemma render_residue_state (G : Generators) (scale : R) (debug_axes : bool)
  (st : LoopState) (f : Frame) :
  value (render_residue G scale debug_axes st f)
  = mkLoopState
      (cgo_objects st ++ primitives_of G scale f)
      (debug_cgo_objects st ++ (if debug_axes then axes_of G scale f else []))
      (processed_count st
       + (if negb (is_empty (primitives_of G scale f)) then 1 else 0)).
Proof.
  unfold render_residue, primitives_of, axes_of, generated.
  destruct st as [objs dbg n].
  destruct (dict_get String.eqb (f_resn f) snfg_shapes) as [[color shape]|].
  - w_simpl.
    fold (value (dispatch_shape G scale (f_resn f) shape color
                   (vx (f_center f)) (vy (f_center f)) (vz (f_center f))
                   (x_axis f) (y_axis f) (z_axis f))).
    destruct (value (dispatch_shape _ _ _ _ _ _ _ _ _ _ _)) as [cgo_obj|e].
    + destruct cgo_obj as [|t rest]; destruct debug_axes; cbn;
        rewrite ?app_nil_r, ?Nat.add_0_r, ?Nat.add_1_r; reflexivity.
    + w_simpl. destruct debug_axes; cbn;
        rewrite ?app_nil_r, ?Nat.add_0_r; reflexivity.
  - w_simpl. destruct debug_axes; cbn;
      rewrite ?app_nil_r, ?Nat.add_0_r; reflexivity.
Qed.

(** X18.  The per-residue loop, for any table of generators: the
    processed count grows by the number of frames that contributed
    primitives, and the axes list grows, when debug axes are requested,
    by three cylinders for every frame whose generator returned (also
    when it returned no primitives); without the request the axes list
    is left as it was. *)
Theorem render_loop_accounting (G : Generators) (scale : R) (debug_axes : bool)
  (frames : list Frame) (st : LoopState) :
  let st' := value (render_loop G scale debug_axes frames st) in
  processed_count st'
  = (processed_count st
     + List.length (filter (fun f => negb (is_empty (primitives_of G scale f)))
                      frames))%nat /\
  debug_cgo_objects st'
  = debug_cgo_objects st
    ++ (if debug_axes then flat_map (axes_of G scale) frames else []) /\
  (forall f, generated G scale f <> None ->
             (forall e, generated G scale f <> Some (Raises e)) ->
             count_op CYLINDER (axes_of G scale f) = 3%nat).
Proof.
  cbv zeta. split; [|split].
  - revert st. induction frames as [|f rest IH]; intros st.
    + simpl. lia.
    + cbn [render_loop]. unfold value, bind in *; cbn [fst].
      rewrite IH. fold (value (render_residue G scale debug_axes st f)).
      rewrite render_residue_state. cbn [processed_count filter].
      destruct (negb (is_empty (primitives_of G scale f))); simpl; lia.
  - revert st. induction frames as [|f rest IH]; intros st.
    + simpl. destruct debug_axes; rewrite app_nil_r; reflexivity.
    + cbn [render_loop]. unfold value, bind in *; cbn [fst].
      rewrite IH. fold (value (render_residue G scale debug_axes st f)).
      rewrite render_residue_state. cbn [debug_cgo_objects].
      destruct debug_axes; cbn [flat_map]; rewrite <- ?app_assoc; reflexivity.
  - intros f Hsome Hret. unfold axes_of.
    destruct (generated G scale f) as [[obj|e]|];
      [|exfalso; exact (Hret e eq_refl) | congruence].
    destruct (f_center f), (x_axis f), (y_axis f), (z_axis f). reflexivity.
Qed.

Lemma render_loop_accounting_witness :
  let frames :=
    value (get_residue_orientation plane_x_oracle cube_and_sphere_model) in
  let st' := value (render_loop failing_cube_generators 0.5 true frames
                      (mkLoopState [] [] 0)) in
  processed_count st' = 1%nat /\
  debug_cgo_objects st'
  = flat_map (axes_of failing_cube_generators 0.5) frames /\
  exists f,
    In f frames /\ generated failing_cube_generators 0.5 f <> None /\
    (forall e, generated failing_cube_generators 0.5 f <> Some (Raises e)) /\
    count_op CYLINDER (axes_of failing_cube_generators 0.5 f) = 3%nat.
Proof.
  intros frames st'.
  destruct (render_loop_accounting failing_cube_generators 0.5 true frames
              (mkLoopState [] [] 0)) as (Hcount & Hdebug & Hthree).
  split; [exact Hcount|]. split; [exact Hdebug|].
  exists (value (residue_frame plane_x_oracle ("A", "2", "MAN")
                   [("C1", mkV3 4 0 0)])).
  split; [right; left; reflexivity|].
  assert (H1 : generated failing_cube_generators 0.5
                 (value (residue_frame plane_x_oracle ("A", "2", "MAN")
                           [("C1", mkV3 4 0 0)])) <> None)
    by (vm_compute; discriminate).
  assert (H2 : forall e,
             generated failing_cube_generators 0.5
               (value (residue_frame plane_x_oracle ("A", "2", "MAN")
                         [("C1", mkV3 4 0 0)])) <> Some (Raises e))
    by (intros e; vm_compute; discriminate).
  split; [exact H1|]. split; [exact H2|]. exact (Hthree _ H1 H2).
Defined.

Lemma render_loop_debug_list (G : Generators) (scale : R) (debug_axes : bool)
  (frames : list Frame) :
  forall st,
    debug_cgo_objects (value (render_loop G scale debug_axes frames st))
    = debug_cgo_objects st
      ++ (if debug_axes then flat_map (axes_of G scale) frames else []).
Proof.
  induction frames as [|f rest IH]; intros st.
  - simpl. destruct debug_axes; rewrite app_nil_r; reflexivity.
  - cbn [render_loop]. unfold value, bind in *; cbn [fst].
    rewrite IH. fold (value (render_residue G scale debug_axes st f)).
    rewrite render_residue_state. cbn [debug_cgo_objects].
    destruct debug_axes; cbn [flat_map]; rewrite <- ?app_assoc; reflexivity.
Qed.

Lemma generated_cgo_generators (scale : R) (f : Frame) :
  if in_table f
  then exists t rest, generated cgo_generators scale f = Some (Returns (t :: rest))
  else generated cgo_generators scale f = None.
Proof.
  unfold in_table, dict_mem, generated.
  destruct (dict_get String.eqb (f_resn f) snfg_shapes) as [[color shape]|];
    [|reflexivity].
  destruct (dispatch_cgo_generators_nonempty scale (f_resn f) shape color
              (vx (f_center f)) (vy (f_center f)) (vz (f_center f))
              (x_axis f) (y_axis f) (z_axis f)) as (t & rest & E).
  exists t, rest. rewrite E. reflexivity.
Qed.

Lemma flat_map_nonempty {A B} (g : A -> list B) (l : list A) (p : A -> bool) :
  (forall a, p a = true -> g a <> []) ->
  (forall a, p a = false -> g a = []) ->
  is_empty (flat_map g l) = negb (existsb p l).
Proof.
  intros Hyes Hno. induction l as [|a l IH]; [reflexivity|].
  cbn [flat_map existsb]. destruct (p a) eqn:E.
  - specialize (Hyes a E). destruct (g a); [contradiction | reflexivity].
  - rewrite (Hno a E). exact IH.
Qed.

Lemma primitives_of_in_table (scale : R) (f : Frame) :
  (in_table f = true -> primitives_of cgo_generators scale f <> []) /\
  (in_table f = false -> primitives_of cgo_generators scale f = []) /\
  (in_table f = true -> axes_of cgo_generators scale f <> []) /\
  (in_table f = false -> axes_of cgo_generators scale f = []).
Proof.
  pose proof (generated_cgo_generators scale f) as H.
  unfold primitives_of, axes_of.
  destruct (in_table f).
  - destruct H as (t & rest & ->).
    repeat split; try discriminate.
  - rewrite H. repeat split; intros; congruence.
Qed.

(** X19.  With the module's own generators the outcome of [render_snfg]
    is decided by the residue names of the frames.  If no frame has a
    name in [snfg_shapes], nothing is sent to the sink.  Otherwise the
    main object is deleted and loaded with the primitives of all frames
    in order, and, when debug axes are requested, the axes object is
    deleted and loaded with their cylinders. *)
Theorem render_commands (la : LinAlg) (get_model : string -> list Atom)
  (selection : string) (transparency scale : R) (debug_axes : bool) :
  let frames :=
    value (get_residue_orientation la (get_model (full_selection selection))) in
  let cmds := value (render_snfg la cgo_generators get_model selection
                       transparency scale debug_axes) in
  let cgo_name := cgo_name_of selection in
  let debug_cgo_name := (cgo_name ++ "_axes")%string in
  cmds
  = if existsb in_table frames then
      [Delete cgo_name;
       LoadCgo (flat_map (primitives_of cgo_generators scale) frames) cgo_name]
      ++ (if debug_axes then
            [Delete debug_cgo_name;
             LoadCgo (flat_map (axes_of cgo_generators scale) frames)
               debug_cgo_name]
          else [])
    else [].
Proof.
  intros frames cmds cgo_name debug_cgo_name. unfold cmds.
  rewrite render_snfg_value. cbv zeta. fold frames.
  set (st := value (render_loop cgo_generators scale debug_axes frames
                      (mkLoopState [] [] 0))).
  assert (Hobj : cgo_objects st
                 = flat_map (primitives_of cgo_generators scale) frames)
    by apply render_loop_cgo_objects.
  assert (Hdbg : debug_cgo_objects st
                 = if debug_axes
                   then flat_map (axes_of cgo_generators scale) frames else [])
    by apply render_loop_debug_list.
  assert (Hp : is_empty (flat_map (primitives_of cgo_generators scale) frames)
               = negb (existsb in_table frames)).
  { apply flat_map_nonempty; intros a; apply primitives_of_in_table. }
  assert (Ha : is_empty (flat_map (axes_of cgo_generators scale) frames)
               = negb (existsb in_table frames)).
  { apply flat_map_nonempty; intros a; apply primitives_of_in_table. }
  destruct (existsb in_table frames) eqn:Ex.
  - destruct frames as [|f0 rest] eqn:Ef; [discriminate|]. cbn [is_empty].
    rewrite render_emit_nonempty.
    + rewrite Hobj, Hdbg. destruct debug_axes; [|reflexivity].
      rewrite Ha. reflexivity.
    + rewrite Hobj. intros E. rewrite E in Hp. discriminate.
  - destruct (is_empty frames); [reflexivity|].
    rewrite render_emit_empty.
    + rewrite Hdbg. destruct debug_axes; [|reflexivity].
      rewrite Ha. reflexivity.
    + rewrite Hobj.
      destruct (flat_map (primitives_of cgo_generators scale) frames);
        [reflexivity | discriminate].
Qed.

(** ** Object names *)

Lemma sanitize_chars (s : string) :
  Forall (fun c => safe_char c = true) (list_ascii_of_string (sanitize s)).
Proof.
  induction s as [|c s IH]; simpl; constructor; [|exact IH].
  unfold safe_char. destruct (isalnum c) eqn:E; [rewrite E|]; reflexivity.
Qed.

Lemma sanitize_idempotent (s : string) : sanitize (sanitize s) = sanitize s.
Proof.
  induction s as [|c s IH]; [reflexivity|]. simpl.
  destruct (isalnum c) eqn:E; [rewrite E | cbn]; rewrite IH; reflexivity.
Qed.

Lemma sanitize_length (s : string) :
  String.length (sanitize s) = String.length s.
Proof. induction s as [|c s IH]; simpl; congruence. Qed.

(** X20.  The name derived from a selection is never empty and holds
    only letters, digits and underscores, so that it carries no wildcard
    or operator into [cmd.delete]; sanitising is idempotent, and a
    non-empty selection keeps its length, each other character becoming
    one underscore. *)
Theorem safe_selection_name_safe (selection : string) :
  let name := safe_selection_name selection in
  name <> "" /\
  Forall (fun c => safe_char c = true) (list_ascii_of_string name) /\
  safe_selection_name name = name /\
  (selection <> "" -> String.length name = String.length selection).
Proof.
  cbv zeta. unfold safe_selection_name.
  destruct (String.eqb_spec (sanitize selection) "") as [E|E].
  - repeat split.
    + discriminate.
    + repeat constructor.
    + intros Hne. destruct selection; [contradiction | discriminate].
  - repeat split.
    + exact E.
    + apply sanitize_chars.
    + rewrite sanitize_idempotent.
      destruct (String.eqb_spec (sanitize selection) ""); [contradiction|].
      reflexivity.
    + intros _. apply sanitize_length.
Qed.

Lemma safe_selection_name_safe_witness :
  "resn NAG+MAN"%string <> ""%string /\
  safe_selection_name "resn NAG+MAN" = "resn_NAG_MAN"%string /\
  String.length (safe_selection_name "resn NAG+MAN")
  = String.length "resn NAG+MAN" /\
  safe_selection_name "" = "selection"%string /\
  safe_selection_name (safe_selection_name "") = safe_selection_name "".
Proof.
  assert (H : "resn NAG+MAN"%string <> ""%string) by discriminate.
  split; [exact H|]. split; [reflexivity|].
  split; [exact (proj2 (proj2 (proj2 (safe_selection_name_safe "resn NAG+MAN"))) H)|].
  split; [reflexivity|].
  exact (proj1 (proj2 (proj2 (safe_selection_name_safe "")))).
Defined.

(** X21.  Whatever the generators do, [render_snfg] issues one of four
    command sequences: none; a load of the axes object alone; a delete
    and load of the main object; or that followed by a delete and load
    of the axes object.  It touches no other object name, never loads an
    empty primitive list, and never deletes a name without loading it in
    the next command. *)
Theorem render_command_shapes (la : LinAlg) (G : Generators)
  (get_model : string -> list Atom) (selection : string)
  (transparency scale : R) (debug_axes : bool) :
  let cmds := value (render_snfg la G get_model selection transparency scale
                       debug_axes) in
  let n := cgo_name_of selection in
  let na := (n ++ "_axes")%string in
  cmds = [] \/
  (exists d, d <> [] /\ debug_axes = true /\ cmds = [LoadCgo d na]) \/
  (exists p, p <> [] /\ cmds = [Delete n; LoadCgo p n]) \/
  (exists p d, p <> [] /\ d <> [] /\ debug_axes = true /\
               cmds = [Delete n; LoadCgo p n; Delete na; LoadCgo d na]).
Proof.
  intros cmds n na. unfold cmds. rewrite render_snfg_value. cbv zeta.
  destruct (is_empty _); [left; reflexivity|].
  set (st := value (render_loop G scale debug_axes _ (mkLoopState [] [] 0))).
  destruct (cgo_objects st) as [|t rest] eqn:E.
  - rewrite (render_emit_empty _ _ _ _ E).
    destruct debug_axes; [|left; reflexivity].
    destruct (debug_cgo_objects st) as [|t d] eqn:Ed; [left; reflexivity|].
    right. left. exists (t :: d). repeat split. discriminate.
  - rewrite render_emit_nonempty by (rewrite E; discriminate). rewrite E.
    destruct debug_axes.
    + destruct (debug_cgo_objects st) as [|t' d] eqn:Ed.
      * right. right. left. exists (t :: rest). split; [discriminate|].
        reflexivity.
      * right. right. right. exists (t :: rest), (t' :: d).
        repeat split; discriminate.
    + right. right. left. exists (t :: rest). split; [discriminate|].
      reflexivity.
Qed.

(** ** get_specific_residues_as_dicts *)

Lemma pos_eqb_eq (a b : pos) : pos_eqb a b = true <-> a = b.
Proof.
  destruct a as [c1 n1], b as [c2 n2]. unfold pos_eqb; simpl.
  rewrite andb_true_iff, String.eqb_eq, Z.eqb_eq. split.
  - intros [-> ->]. reflexivity.
  - intros H. injection H as -> ->. auto.
Qed.

Lemma string_compare_refl (s : string) : String_as_OT.compare s s = Eq.
Proof.
  destruct (String_as_OT.compare_spec s s) as [_|H|H]; [reflexivity| |];
    exfalso; exact (StrictOrder_Irreflexive s H).
Qed.

Lemma pos_leb_cases (a b : pos) :
  pos_leb a b = true -> a = b \/ pos_lt a b.
Proof.
  destruct a as [c1 n1], b as [c2 n2]. unfold pos_leb, pos_lt; simpl.
  destruct (String_as_OT.compare_spec c1 c2) as [E|H|H]; intros Hle.
  - red in E. subst c2. apply Z.leb_le in Hle.
    destruct (Z.eq_dec n1 n2) as [->|Hne]; [left; reflexivity|].
    right. right. split; [reflexivity | lia].
  - right. left. exact H.
  - discriminate.
Qed.

Lemma pos_leb_total (a b : pos) : pos_leb a b = false -> pos_leb b a = true.
Proof.
  destruct a as [c1 n1], b as [c2 n2]. unfold pos_leb; simpl.
  destruct (String_as_OT.compare_spec c1 c2) as [E|H|H]; intros Hle.
  - red in E. subst c2. rewrite string_compare_refl. apply Z.leb_gt in Hle.
    apply Z.leb_le. lia.
  - discriminate.
  - unfold String_as_OT.lt in H. rewrite H. reflexivity.
Qed.

Lemma pos_lt_trans (a b c : pos) : pos_lt a b -> pos_lt b c -> pos_lt a c.
Proof.
  unfold pos_lt. intros [H1|[E1 H1]] [H2|[E2 H2]].
  - left. exact (StrictOrder_Transitive _ _ _ H1 H2).
  - left. rewrite <- E2. exact H1.
  - left. rewrite E1. exact H2.
  - right. split; [congruence | lia].
Qed.

Lemma insert_pos_permutation (k : pos) (l : list pos) :
  Permutation (insert_pos k l) (k :: l).
Proof.
  induction l as [|h t IH]; simpl; [reflexivity|].
  destruct (pos_leb k h); [reflexivity|].
  rewrite IH. apply perm_swap.
Qed.

Lemma sorted_permutation (l : list pos) : Permutation (sorted l) l.
Proof.
  induction l as [|k l IH]; simpl; [reflexivity|].
  rewrite insert_pos_permutation, IH. reflexivity.
Qed.

Lemma insert_pos_sorted (k : pos) (l : list pos) :
  Sorted (fun a b => pos_leb a b = true) l ->
  Sorted (fun a b => pos_leb a b = true) (insert_pos k l).
Proof.
  induction 1 as [|h t Ht IH Hhd]; simpl; [repeat constructor|].
  destruct (pos_leb k h) eqn:E.
  - constructor; [constructor; assumption | constructor; exact E].
  - constructor; [exact IH|].
    destruct t as [|h' t']; simpl.
    + constructor. apply pos_leb_total, E.
    + destruct (pos_leb k h'); constructor.
      * apply pos_leb_total, E.
      * inversion Hhd; assumption.
Qed.

Lemma sorted_is_sorted (l : list pos) :
  Sorted (fun a b => pos_leb a b = true) (sorted l).
Proof.
  induction l as [|k l IH]; simpl; [constructor|].
  apply insert_pos_sorted, IH.
Qed.

Lemma sorted_strictly (l : list pos) :
  NoDup l -> StronglySorted pos_lt (sorted l).
Proof.
  intros Hnd.
  assert (Hnd' : NoDup (sorted l)).
  { apply (Permutation_NoDup (Permutation_sym (sorted_permutation l))), Hnd. }
  apply Sorted_StronglySorted; [exact pos_lt_trans|].
  pose proof (sorted_is_sorted l) as Hs.
  induction Hs as [|h t Ht IH Hhd]; [constructor|].
  inversion Hnd' as [|? ? Hnotin Hnd'']; subst.
  constructor; [apply IH, Hnd''|].
  destruct Hhd as [|b t' Hle]; constructor.
  destruct (pos_leb_cases h b Hle) as [->|Hlt]; [|exact Hlt].
  exfalso. apply Hnotin. left. reflexivity.
Qed.

Lemma site_step_pos (residue_map : dict pos string) (key : pos) (s : Site) :
  In s (site_step residue_map key) -> site_pos s = key.
Proof.
  unfold site_step. destruct key as [chain resi_num]. cbn [fst snd].
  destruct (dict_get pos_eqb (chain, resi_num) residue_map) as [resn|];
    [|intros []].
  destruct (str_in resn simple_inclusion_residues).
  - intros [<-|[]]. reflexivity.
  - destruct (String.eqb resn "ASN"); [|intros []].
    destruct (dict_get pos_eqb (chain, (resi_num + 1)%Z) residue_map) as [x|];
      [|intros []].
    destruct (negb (String.eqb x "PRO") && _); [|intros []].
    intros [<-|[]]. reflexivity.
Qed.

Lemma site_step_short (residue_map : dict pos string) (key : pos) :
  site_step residue_map key = [] \/
  exists s, site_step residue_map key = [s].
Proof.
  unfold site_step.
  destruct (dict_get pos_eqb _ residue_map) as [resn|]; [|left; reflexivity].
  destruct (str_in resn simple_inclusion_residues);
    [right; eexists; reflexivity|].
  destruct (String.eqb resn "ASN"); [|left; reflexivity].
  destruct (dict_get pos_eqb _ residue_map) as [x|]; [|left; reflexivity].
  destruct (negb (String.eqb x "PRO") && _);
    [right; eexists; reflexivity | left; reflexivity].
Qed.

Lemma sites_strongly_sorted (residue_map : dict pos string) (keys : list pos) :
  StronglySorted pos_lt keys ->
  StronglySorted pos_lt (map site_pos (flat_map (site_step residue_map) keys)).
Proof.
  induction 1 as [|key rest Hrest IH Hall]; [constructor|].
  cbn [flat_map]. rewrite map_app.
  destruct (site_step_short residue_map key) as [E|[s E]].
  - rewrite E. exact IH.
  - assert (Hs : site_pos s = key)
      by (apply (site_step_pos residue_map); rewrite E; left; reflexivity).
    rewrite E. cbn [map app]. rewrite Hs. constructor; [exact IH|].
    apply Forall_forall. intros p Hp.
    apply in_map_iff in Hp as (s' & <- & Hs').
    apply in_flat_map in Hs' as (key' & Hkey' & Hin).
    rewrite (site_step_pos residue_map key' s' Hin).
    rewrite Forall_forall in Hall. apply Hall, Hkey'.
Qed.

Lemma str_in_In (s : string) (l : list string) : str_in s l = true <-> In s l.
Proof.
  unfold str_in. rewrite existsb_exists. split.
  - intros (x & Hx & E). apply String.eqb_eq in E. subst. exact Hx.
  - intros H. exists s. split; [exact H | apply String.eqb_refl].
Qed.

Lemma site_step_reported (residue_map : dict pos string) (s : Site) :
  In s (site_step residue_map (site_pos s)) <-> reported residue_map s.
Proof.
  destruct s as [id chain name]. unfold site_step, reported, site_pos.
  cbn [fst snd residueID residueChain residueName].
  destruct (dict_get pos_eqb (chain, id) residue_map) as [resn|];
    [|split; [intros [] | intros [H _]; discriminate]].
  destruct (str_in resn simple_inclusion_residues) eqn:Es.
  - split.
    + intros [H|[]]. injection H as <-. split; [reflexivity|].
      left. apply str_in_In, Es.
    + intros [H _]. injection H as <-. left. reflexivity.
  - assert (Hnot : ~ In resn simple_inclusion_residues)
      by (intros H; apply str_in_In in H; congruence).
    destruct (String.eqb_spec resn "ASN") as [->|Hasn].
    + destruct (dict_get pos_eqb (chain, (id + 1)%Z) residue_map) as [x|].
      * destruct (String.eqb_spec x "PRO") as [->|Hpro]; cbn [negb andb].
        -- split; [intros []|].
           intros (Hn & [Hs|(_ & x & t & Hx & Hne & _)]).
           ++ injection Hn as <-. contradiction.
           ++ injection Hx as <-. exfalso. apply Hne. reflexivity.
        -- unfold in_sequon_third.
           destruct (dict_get pos_eqb (chain, (id + 2)%Z) residue_map) as [t|].
           ++ destruct (str_in t sequon_third_pos_residues) eqn:Et.
              ** split.
                 --- intros [H|[]]. injection H as <-. split; [reflexivity|].
                     right. split; [reflexivity|]. exists x, t.
                     repeat split; try assumption. apply str_in_In, Et.
                 --- intros (Hn & [Hs|(Hname & _)]).
                     +++ injection Hn as <-. contradiction.
                     +++ rewrite Hname. left. reflexivity.
              ** split; [intros []|].
                 intros (Hn & [Hs|(_ & x' & t' & _ & _ & Ht & Hin)]).
                 --- injection Hn as <-. contradiction.
                 --- injection Ht as <-. apply str_in_In in Hin. congruence.
           ++ split; [intros []|].
              intros (Hn & [Hs|(_ & x' & t' & _ & _ & Ht & _)]).
              ** injection Hn as <-. contradiction.
              ** discriminate.
      * split; [intros []|].
        intros (Hn & [Hs|(_ & x' & t' & Hx & _)]).
        -- injection Hn as <-. contradiction.
        -- discriminate.
    + split; [intros []|].
      intros (Hn & [Hs|(Hname & _)]).
      * injection Hn as <-. contradiction.
      * injection Hn as <-. contradiction.
Qed.

(** *** The dictionary filled by cmd.iterate *)

Lemma dict_get_set (key k : pos) (v : string) (m : dict pos string) :
  dict_get pos_eqb key (dict_set pos_eqb k v m)
  = if pos_eqb k key then Some v else dict_get pos_eqb key m.
Proof.
  destruct (pos_eqb k key) eqn:E.
  - apply pos_eqb_eq in E. subst key.
    apply (dict_get_set_same pos_eqb pos_eqb_eq).
  - apply (dict_get_set_other pos_eqb pos_eqb_eq).
    intros H. subst key.
    assert (Ht : pos_eqb k k = true) by (apply pos_eqb_eq; reflexivity).
    congruence.
Qed.

Lemma dict_set_not_empty (k : pos) (v : string) (m : dict pos string) :
  is_empty (dict_set pos_eqb k v m) = false.
Proof.
  destruct m as [|[k' v'] rest]; simpl; [reflexivity|].
  destruct (pos_eqb k k'); reflexivity.
Qed.

Lemma iterate_residues_cons_ok (int : string -> option Z) (mode : IterateMode)
  (a : CaAtom) (rest : list CaAtom) (m : dict pos string) (n : Z) :
  int (ca_resi a) = Some n ->
  iterate_residues int mode (a :: rest) m
  = iterate_residues int mode rest
      (dict_set pos_eqb (ca_chain a, n) (ca_resn a) m).
Proof.
  intros E. cbn [iterate_residues]. unfold assign_residue. rewrite E.
  reflexivity.
Qed.

Lemma iterate_residues_cons_fail (int : string -> option Z) (mode : IterateMode)
  (a : CaAtom) (rest : list CaAtom) (m : dict pos string) :
  int (ca_resi a) = None ->
  iterate_residues int mode (a :: rest) m
  = match mode with
    | RaiseOnError exn => Raises (exn a)
    | StopOnError => Returns m
    | SkipOnError => iterate_residues int mode rest m
    end.
Proof.
  intros E. cbn [iterate_residues]. unfold assign_residue. rewrite E.
  reflexivity.
Qed.

Lemma recorded_cons_ok (int : string -> option Z) (mode : IterateMode)
  (a : CaAtom) (rest : list CaAtom) (n : Z) :
  int (ca_resi a) = Some n ->
  recorded int mode (a :: rest) = a :: recorded int mode rest.
Proof. intros E. cbn [recorded]. unfold parses. rewrite E. reflexivity. Qed.

Lemma recorded_cons_fail (int : string -> option Z) (mode : IterateMode)
  (a : CaAtom) (rest : list CaAtom) :
  int (ca_resi a) = None ->
  recorded int mode (a :: rest)
  = match mode with
    | StopOnError => []
    | _ => recorded int mode rest
    end.
Proof. intros E. cbn [recorded]. unfold parses. rewrite E. reflexivity. Qed.

Lemma recorded_all (int : string -> option Z) (mode : IterateMode)
  (atoms : list CaAtom) :
  Forall (fun a => parses int a = true) atoms -> recorded int mode atoms = atoms.
Proof.
  induction 1 as [|a rest Ha _ IH]; [reflexivity|].
  cbn [recorded]. rewrite Ha, IH. reflexivity.
Qed.

Lemma iterate_residues_get (int : string -> option Z) (mode : IterateMode)
  (atoms : list CaAtom) :
  forall m m',
    iterate_residues int mode atoms m = Returns m' ->
    forall key,
      dict_get pos_eqb key m'
      = last_resn_from int (dict_get pos_eqb key m) key
          (recorded int mode atoms).
Proof.
  induction atoms as [|a rest IH]; intros m m' H key.
  - injection H as <-. reflexivity.
  - destruct (int (ca_resi a)) as [n|] eqn:E.
    + rewrite (iterate_residues_cons_ok int mode a rest m n E) in H.
      rewrite (recorded_cons_ok int mode a rest n E), (IH _ _ H key).
      unfold last_resn_from. cbn [fold_left]. rewrite E, dict_get_set.
      reflexivity.
    + rewrite (iterate_residues_cons_fail int mode a rest m E) in H.
      rewrite (recorded_cons_fail int mode a rest E).
      destruct mode as [exn| |].
      * discriminate H.
      * injection H as <-. reflexivity.
      * apply IH, H.
Qed.

Lemma iterate_residues_NoDup (int : string -> option Z) (mode : IterateMode)
  (atoms : list CaAtom) :
  forall m m',
    NoDup (dict_keys m) ->
    iterate_residues int mode atoms m = Returns m' ->
    NoDup (dict_keys m').
Proof.
  induction atoms as [|a rest IH]; intros m m' Hnd H.
  - injection H as <-. exact Hnd.
  - destruct (int (ca_resi a)) as [n|] eqn:E.
    + rewrite (iterate_residues_cons_ok int mode a rest m n E) in H.
      apply (IH _ _ (dict_set_NoDup pos_eqb pos_eqb_eq _ _ _ Hnd) H).
    + rewrite (iterate_residues_cons_fail int mode a rest m E) in H.
      destruct mode as [exn| |].
      * discriminate H.
      * injection H as <-. exact Hnd.
      * apply (IH _ _ Hnd H).
Qed.

Lemma iterate_residues_not_empty (int : string -> option Z) (mode : IterateMode)
  (atoms : list CaAtom) :
  forall m m',
    is_empty m = false ->
    iterate_residues int mode atoms m = Returns m' ->
    is_empty m' = false.
Proof.
  induction atoms as [|a rest IH]; intros m m' Hne H.
  - injection H as <-. exact Hne.
  - destruct (int (ca_resi a)) as [n|] eqn:E.
    + rewrite (iterate_residues_cons_ok int mode a rest m n E) in H.
      apply (IH _ _ (dict_set_not_empty _ _ _) H).
    + rewrite (iterate_residues_cons_fail int mode a rest m E) in H.
      destruct mode as [exn| |].
      * discriminate H.
      * injection H as <-. exact Hne.
      * apply (IH _ _ Hne H).
Qed.

Lemma iterate_residues_returns (int : string -> option Z) (mode : IterateMode)
  (atoms : list CaAtom) :
  Forall (fun a => parses int a = true) atoms ->
  forall m, exists m', iterate_residues int mode atoms m = Returns m'.
Proof.
  induction 1 as [|a rest Ha _ IH]; intros m.
  - exists m. reflexivity.
  - unfold parses in Ha. destruct (int (ca_resi a)) as [n|] eqn:E;
      [|discriminate Ha].
    rewrite (iterate_residues_cons_ok int mode a rest m n E). apply IH.
Qed.

Lemma iterate_residues_raises (int : string -> option Z) (mode : IterateMode)
  (atoms : list CaAtom) :
  forall m e,
    iterate_residues int mode atoms m = Raises e ->
    exists exn a,
      mode = RaiseOnError exn /\ In a atoms /\ parses int a = false /\
      e = exn a.
Proof.
  induction atoms as [|a rest IH]; intros m e H; [discriminate H|].
  destruct (int (ca_resi a)) as [n|] eqn:E.
  - rewrite (iterate_residues_cons_ok int mode a rest m n E) in H.
    destruct (IH _ _ H) as (exn & b & Hm & Hin & Hb & He).
    exists exn, b. repeat split; try assumption. right. exact Hin.
  - rewrite (iterate_residues_cons_fail int mode a rest m E) in H.
    destruct mode as [exn| |].
    + injection H as <-. exists exn, a.
      repeat split; [left; reflexivity|]. unfold parses. rewrite E.
      reflexivity.
    + discriminate H.
    + destruct (IH _ _ H) as (exn & b & Hm & _). discriminate Hm.
Qed.

Lemma iterate_residues_must_raise (int : string -> option Z)
  (exn : CaAtom -> pyexn) (atoms : list CaAtom) :
  forall m a,
    In a atoms -> parses int a = false ->
    exists e, iterate_residues int (RaiseOnError exn) atoms m = Raises e.
Proof.
  induction atoms as [|a rest IH]; intros m b Hin Hb; [contradiction|].
  destruct (int (ca_resi a)) as [n|] eqn:E.
  - rewrite (iterate_residues_cons_ok int _ a rest m n E).
    destruct Hin as [->|Hin].
    + unfold parses in Hb. rewrite E in Hb. discriminate Hb.
    + apply (IH _ b Hin Hb).
  - rewrite (iterate_residues_cons_fail int _ a rest m E).
    exists (exn a). reflexivity.
Qed.

Lemma sites_of_map_sorted (residue_map : dict pos string) :
  NoDup (dict_keys residue_map) ->
  StronglySorted pos_lt
    (map site_pos
       (flat_map (site_step residue_map) (sorted (dict_keys residue_map)))).
Proof. intros H. apply sites_strongly_sorted, sorted_strictly, H. Qed.

Lemma sites_of_map_rule (residue_map : dict pos string) (s : Site) :
  In s (flat_map (site_step residue_map) (sorted (dict_keys residue_map)))
  <-> reported residue_map s.
Proof.
  rewrite in_flat_map. split.
  - intros (key & _ & Hin).
    pose proof (site_step_pos residue_map key s Hin) as Hpos. subst key.
    apply site_step_reported, Hin.
  - intros Hrep. exists (site_pos s). split.
    + apply (Permutation_in _ (Permutation_sym (sorted_permutation _))).
      destruct Hrep as [Hget _].
      apply (dict_get_In pos_eqb pos_eqb_eq) in Hget.
      unfold dict_keys.
      change (site_pos s) with (fst (site_pos s, residueName s)).
      apply in_map, Hget.
    + apply site_step_reported, Hrep.
Qed.

(** X22.  When [get_specific_residues_as_dicts] returns, its list is in
    strictly ascending order of chain, then residue number, so that no
    position is listed twice, whatever the order of the atoms, and one
    line is printed: the number of entries, or the "empty selection"
    warning with an empty list.  It raises only as [cmd.iterate] does,
    for an atom whose residue identifier [int] rejects, and then prints
    nothing; if [cmd.iterate] propagates the error, one such atom is
    enough.  When [int] accepts every identifier the function returns:
    the empty list with the warning for a selection without CA atoms,
    and the count of the entries for any other. *)
Theorem sites_sorted (int : string -> option Z) (mode : IterateMode)
  (select : string -> list CaAtom) (selection : string) :
  let atoms := select ("(" ++ selection ++ ") and name CA")%string in
  let result := get_specific_residues_as_dicts int mode select selection in
  (forall sites,
      fst result = Returns sites ->
      StronglySorted pos_lt (map site_pos sites) /\
      (snd result = [MsgFoundSites (List.length sites) selection] \/
       sites = [] /\ snd result = [MsgEmptySelection selection])) /\
  (forall e,
      fst result = Raises e ->
      snd result = [] /\
      exists exn a,
        mode = RaiseOnError exn /\ In a atoms /\ parses int a = false /\
        e = exn a) /\
  (forall exn a,
      mode = RaiseOnError exn -> In a atoms -> parses int a = false ->
      exists e, result = (Raises e, [])) /\
  (Forall (fun a => parses int a = true) atoms ->
   exists sites,
     fst result = Returns sites /\
     (atoms = [] -> result = (Returns [], [MsgEmptySelection selection])) /\
     (atoms <> [] ->
      snd result = [MsgFoundSites (List.length sites) selection])).
Proof.
  intros atoms result. unfold result, get_specific_residues_as_dicts.
  fold atoms. split; [|split; [|split]].
  - intros sites.
    destruct (iterate_residues int mode atoms []) as [m|e] eqn:Hit;
      [|intros H; discriminate H].
    pose proof (iterate_residues_NoDup int mode atoms [] m (NoDup_nil _) Hit)
      as Hnd.
    destruct (is_empty m); cbn [fst snd]; intros H; injection H as <-.
    + split; [constructor|]. right. split; reflexivity.
    + split; [apply sites_of_map_sorted, Hnd|]. left. reflexivity.
  - intros e.
    destruct (iterate_residues int mode atoms []) as [m|e'] eqn:Hit.
    + destruct (is_empty m); intros H; discriminate H.
    + cbn [fst snd]. intros H. injection H as <-.
      split; [reflexivity|]. apply (iterate_residues_raises _ _ _ _ _ Hit).
  - intros exn a Hmode Hin Ha. subst mode.
    destruct (iterate_residues_must_raise int exn atoms [] a Hin Ha)
      as [e He].
    exists e. rewrite He. reflexivity.
  - intros Hall.
    destruct (iterate_residues_returns int mode atoms Hall []) as [m Hit].
    rewrite Hit.
    destruct (is_empty m) eqn:Em.
    + exists []. cbn [fst snd]. split; [reflexivity|].
      split; [reflexivity|]. intros Hne. exfalso.
      destruct atoms as [|a rest]; [apply Hne; reflexivity|].
      inversion Hall as [|? ? Ha Hrest]; subst.
      unfold parses in Ha. destruct (int (ca_resi a)) as [n|] eqn:E;
        [|discriminate Ha].
      rewrite (iterate_residues_cons_ok int mode a rest [] n E) in Hit.
      pose proof (iterate_residues_not_empty int mode rest _ m
                    (dict_set_not_empty _ _ _) Hit) as Hm.
      congruence.
    + eexists. cbn [fst snd]. split; [reflexivity|].
      split; [|reflexivity]. intros Hnil.
      rewrite Hnil in Hit. injection Hit as <-. discriminate Em.
Qed.

Lemma sites_sorted_witness :
  Forall (fun a => parses decimal_int a = true) sequon_chain /\
  (exists sites,
      fst (get_specific_residues_as_dicts decimal_int
             (RaiseOnError insertion_code_error) (fun _ => sequon_chain) "sele")
      = Returns sites /\
      StronglySorted pos_lt (map site_pos sites) /\
      sites = [mkSite 10 "A" "ASN"; mkSite 12 "A" "THR"; mkSite 14 "A" "PRO";
               mkSite 15 "A" "SER"] /\
      snd (get_specific_residues_as_dicts decimal_int
             (RaiseOnError insertion_code_error) (fun _ => sequon_chain) "sele")
      = [MsgFoundSites 4 "sele"]) /\
  In (mkCaAtom "A" "12A" "GLY") insertion_chain /\
  parses decimal_int (mkCaAtom "A" "12A" "GLY") = false /\
  exists e,
    get_specific_residues_as_dicts decimal_int
      (RaiseOnError insertion_code_error) (fun _ => insertion_chain) "sele"
    = (Raises e, []).
Proof.
  assert (Hall : Forall (fun a => parses decimal_int a = true) sequon_chain)
    by (repeat constructor).
  assert (Hne : sequon_chain <> []) by discriminate.
  assert (Hin : In (mkCaAtom "A" "12A" "GLY") insertion_chain)
    by (right; left; reflexivity).
  assert (Hbad : parses decimal_int (mkCaAtom "A" "12A" "GLY") = false)
    by reflexivity.
  pose proof (sites_sorted decimal_int (RaiseOnError insertion_code_error)
                (fun _ => sequon_chain) "sele") as (Hret & _ & _ & Hok).
  pose proof (sites_sorted decimal_int (RaiseOnError insertion_code_error)
                (fun _ => insertion_chain) "sele") as (_ & _ & Hraise & _).
  split; [exact Hall|]. split.
  - destruct (Hok Hall) as (sites & Hsites & _ & Hlog).
    exists sites. split; [exact Hsites|].
    split; [exact (proj1 (Hret sites Hsites))|].
    assert (E : sites = [mkSite 10 "A" "ASN"; mkSite 12 "A" "THR";
                         mkSite 14 "A" "PRO"; mkSite 15 "A" "SER"]).
    { vm_compute in Hsites. injection Hsites as <-. reflexivity. }
    split; [exact E|]. rewrite (Hlog Hne), E. reflexivity.
  - split; [exact Hin|]. split; [exact Hbad|].
    exact (Hraise insertion_code_error _ eq_refl Hin Hbad).
Defined.

(** X23.  Which residues are returned.  The dictionary holds, for each
    position, the residue name of the last atom assigned to it, among
    the atoms for which the assignment took place; these are all the
    atoms when [int] accepts every residue identifier.  When the
    function returns, an entry is in the list exactly when the residue
    recorded at its position has its name and the name is SER, THR, TRP
    or PRO, or the name is ASN, the position numbered one higher in the
    same chain holds a residue other than PRO, and the position numbered
    two higher holds SER, THR or CYS. *)
Theorem sites_rule (int : string -> option Z) (mode : IterateMode)
  (select : string -> list CaAtom) (selection : string) :
  let atoms := select ("(" ++ selection ++ ") and name CA")%string in
  (Forall (fun a => parses int a = true) atoms ->
   recorded int mode atoms = atoms) /\
  (forall sites,
      fst (get_specific_residues_as_dicts int mode select selection)
      = Returns sites ->
      exists residue_map,
        (forall key, dict_get pos_eqb key residue_map
                     = last_resn int key (recorded int mode atoms)) /\
        (forall s, In s sites <-> reported residue_map s)).
Proof.
  intros atoms. split; [apply recorded_all|].
  intros sites. unfold get_specific_residues_as_dicts. fold atoms.
  destruct (iterate_residues int mode atoms []) as [m|e] eqn:Hit;
    [|intros H; discriminate H].
  assert (Hget : forall key, dict_get pos_eqb key m
                             = last_resn int key (recorded int mode atoms))
    by (intros key; apply (iterate_residues_get int mode atoms [] m Hit key)).
  destruct (is_empty m) eqn:E; cbn [fst]; intros H; injection H as <-;
    exists m; (split; [exact Hget|]).
  - intros s. split; [intros []|].
    intros [Hs _]. destruct m; [discriminate Hs | discriminate E].
  - intros s. apply sites_of_map_rule.
Qed.

Lemma sites_rule_witness :
  exists sites residue_map,
    fst (get_specific_residues_as_dicts decimal_int StopOnError
           (fun _ => insertion_chain) "sele") = Returns sites /\
    recorded decimal_int StopOnError insertion_chain
    = [mkCaAtom "A" "12" "THR"] /\
    dict_get pos_eqb ("A", 12%Z) residue_map = Some "THR"%string /\
    dict_get pos_eqb ("A", 10%Z) residue_map = None /\
    (In (mkSite 12 "A" "THR") sites <-> reported residue_map (mkSite 12 "A" "THR")) /\
    In (mkSite 12 "A" "THR") sites /\
    ~ In (mkSite 10 "A" "ASN") sites.
Proof.
  assert (Hres : fst (get_specific_residues_as_dicts decimal_int StopOnError
                        (fun _ => insertion_chain) "sele")
                 = Returns [mkSite 12 "A" "THR"]) by reflexivity.
  destruct (proj2 (sites_rule decimal_int StopOnError
                     (fun _ => insertion_chain) "sele") _ Hres)
    as (residue_map & Hget & Hrule).
  exists [mkSite 12 "A" "THR"], residue_map.
  split; [exact Hres|]. split; [reflexivity|].
  assert (H12 : dict_get pos_eqb ("A", 12%Z) residue_map = Some "THR"%string)
    by (rewrite Hget; reflexivity).
  assert (H10 : dict_get pos_eqb ("A", 10%Z) residue_map = None)
    by (rewrite Hget; reflexivity).
  split; [exact H12|]. split; [exact H10|].
  split; [apply Hrule|].
  split.
  - apply Hrule. split; [exact H12|]. left. right. left. reflexivity.
  - intros Hin. apply Hrule in Hin. destruct Hin as [Hs _].
    unfold site_pos in Hs. cbn [residueChain residueID] in Hs.
    rewrite H10 in Hs. discriminate Hs.
Defined.

(** ** The star in space *)




(** ** The debug axes *)

(** X25.  The debug axes of a frame are three cylinders of radius
    [0.1 * scale] from the centre to the centre plus [6 * scale] times
    the X, Y and Z axis, coloured red, green and blue at both ends. *)
Theorem debug_axes_cylinders (scale : R) (center xa ya za : V3) :
  let tip axis := vadd center (vscale axis (6 * scale)) in
  let cylinder axis color :=
    (CYLINDER,
     [vx center; vy center; vz center;
      vx (tip axis); vy (tip axis); vz (tip axis); 0.1 * scale;
      vx color; vy color; vz color; vx color; vy color; vz color]) in
  instructions (debug_axes_cgo scale center xa ya za)
  = [ cylinder xa (mkV3 1 0 0); cylinder ya (mkV3 0 1 0);
      cylinder za (mkV3 0 0 1) ].
Proof.
  cbv zeta. unfold debug_axes_cgo, AXIS_X_COLOR, AXIS_Y_COLOR, AXIS_Z_COLOR.
  cbn [splat app instructions instructions_from rev vx vy vz].
  repeat (f_equal; try (unfold vadd, vscale; simpl; lra)).
Qed.

(** ** Warnings of the generators *)

Lemma transform_normals_silent (x y z : V3) (normals : list V3) :
  orthonormal_right_handed x y z ->
  Forall (fun n => dot n n = 1) normals ->
  diags (transform_normals normals (transpose (mkM33 x y z))) = [].
Proof.
  intros Hon. induction 1 as [|n rest Hn _ IH]; [reflexivity|].
  cbn [transform_normals]. unfold diags, bind, ret in *. cbn [snd fst].
  rewrite normalize_vector_of_unit
    by (rewrite rotation_preserves_dot by exact Hon; exact Hn).
  cbn [snd fst]. rewrite IH. reflexivity.
Qed.

(** X26.  With orthonormal axes, as every frame of
    [get_residue_orientation] has, no generator has a vector to
    normalise that is near zero: for each of the seven implemented shape
    names the dispatch returns its primitives without any warning. *)
Theorem implemented_shapes_silent (scale : R) (resn shape : string)
  (color : Color) (x y z : R) (xa ya za : V3) :
  orthonormal_right_handed xa ya za ->
  In shape implemented_shapes ->
  diags (dispatch_shape cgo_generators scale resn shape color x y z xa ya za)
  = [] /\
  exists primitives,
    value (dispatch_shape cgo_generators scale resn shape color x y z xa ya za)
    = Returns primitives /\ primitives <> [].
Proof.
  intros Hon Hin. split.
  - assert (Hm : get_transformation_matrix xa ya za
                 = (transpose (mkM33 xa ya za), []))
      by (apply transformation_matrix_of_orthonormal, Hon).
    assert (Hc : diags (transform_normals cube_normals_local
                          (transpose (mkM33 xa ya za))) = [])
      by (apply transform_normals_silent; [exact Hon | apply cube_normals_unit]).
    assert (Hd : diags (transform_normals
                          (map (fun u => vdiv u (sqrt 3)) diamond_signs)
                          (transpose (mkM33 xa ya za))) = [])
      by (apply transform_normals_silent; [exact Hon | apply diamond_signs_unit]).
    assert (Hs : forall n, dot n n = 1 ->
                 diags (transform_normals [n] (transpose (mkM33 xa ya za))) = [])
      by (intros n Hn; apply transform_normals_silent;
          [exact Hon | repeat constructor; exact Hn]).
    unfold implemented_shapes in Hin. simpl in Hin.
    unfold diags in *.
    destruct Hin as [<-|[<-|[<-|[<-|[<-|[<-|[<-|[]]]]]]]];
      cbn [dispatch_shape String.eqb Ascii.eqb Bool.eqb cgo_generators
           gen_sphere gen_star gen_cone gen_cube gen_diamond gen_half_diamond];
      unfold returning, cgo_star, cgo_cone, cgo_cube, cgo_diamond,
        cgo_half_diamond, bind, ret;
      rewrite ?Hm, ?diamond_normals_local_value; cbn [fst snd app];
      rewrite ?Hc, ?Hd,
        ?(Hs (mkV3 0 1 0) ltac:(unfold dot; simpl; ring)),
        ?(Hs (mkV3 0 (-1) 0) ltac:(unfold dot; simpl; ring));
      reflexivity.
  - destruct (dispatch_cgo_generators_nonempty scale resn shape color x y z
                xa ya za) as (t & rest & E).
    exists (t :: rest). split; [exact E | discriminate].
Qed.

Lemma implemented_shapes_silent_witness :
  orthonormal_right_handed (mkV3 0 (-1) 0) (mkV3 1 0 0) (mkV3 0 0 1) /\
  In "cube"%string implemented_shapes /\
  diags (dispatch_shape cgo_generators 0.5 "NAG" "cube" SNFG_BLUE 1 2 3
           (mkV3 0 (-1) 0) (mkV3 1 0 0) (mkV3 0 0 1)) = [] /\
  exists primitives,
    value (dispatch_shape cgo_generators 0.5 "NAG" "cube" SNFG_BLUE 1 2 3
             (mkV3 0 (-1) 0) (mkV3 1 0 0) (mkV3 0 0 1))
    = Returns primitives /\ primitives <> [].
Proof.
  assert (Hon : orthonormal_right_handed (mkV3 0 (-1) 0) (mkV3 1 0 0) (mkV3 0 0 1))
    by (unfold orthonormal_right_handed, dot, cross; simpl; repeat split; ring).
  assert (Hin : In "cube"%string implemented_shapes) by (simpl; tauto).
  split; [exact Hon|]. split; [exact Hin|].
  exact (implemented_shapes_silent 0.5 "NAG" "cube" SNFG_BLUE 1 2 3 _ _ _ Hon Hin).
Defined.

(** ** The plane normal *)

(** X27.  The plane normal of step 3.  Every failure ends in the default
    normal (0, 0, 1): whenever a diagnostic is logged, and whenever
    [matrix_rank] or [svd] raises [LinAlgError], the value is the
    default.  Conversely a normal other than the default was obtained
    from at least three of C1-C5, with a rank of at least 2: it is the
    last right-singular vector of the centred coordinates divided by its
    norm, which is at least 1e-9. *)
Theorem plane_normal_fallbacks (la : LinAlg) (k : res_key)
  (atoms : dict string V3) :
  let pts := coords_of plane_atoms atoms in
  let centered := map (fun p => vsub p (vmean pts)) pts in
  (diags (plane_normal_of la k atoms) <> [] ->
   value (plane_normal_of la k atoms) = default_z) /\
  (matrix_rank la centered = None \/ svd_vh_last la centered = None ->
   value (plane_normal_of la k atoms) = default_z) /\
  (value (plane_normal_of la k atoms) <> default_z ->
   (3 <= List.length pts)%nat /\
   exists rank v,
     matrix_rank la centered = Some rank /\ (2 <= rank)%nat /\
     svd_vh_last la centered = Some v /\ 1e-9 <= norm v /\
     value (plane_normal_of la k atoms) = vdiv v (norm v)).
Proof.
  intros pts centered. unfold plane_normal_of. fold pts. cbv zeta.
  fold centered.
  destruct (Nat.ltb_spec (List.length pts) 3) as [Hfew|Hok].
  { w_simpl. unfold diags. cbn [snd].
    split; [reflexivity|]. split; [reflexivity|]. intros H. contradiction. }
  change (3 <? 2)%nat with false. cbv iota.
  assert (Hmin : (Nat.min (List.length centered) 3 - 1 = 2)%nat).
  { unfold centered. rewrite length_map. lia. }
  rewrite Hmin.
  destruct (matrix_rank la centered) as [rank|].
  2:{ w_simpl. unfold diags. cbn [snd].
      split; [reflexivity|]. split; [reflexivity|]. intros H. contradiction. }
  destruct (Nat.ltb_spec rank 2) as [Hlow|Hrank].
  { w_simpl. unfold diags. cbn [snd].
    split; [reflexivity|]. split; [reflexivity|]. intros H. contradiction. }
  destruct (svd_vh_last la centered) as [v|].
  2:{ w_simpl. unfold diags. cbn [snd].
      split; [reflexivity|]. split; [reflexivity|]. intros H. contradiction. }
  destruct (Rlt_dec (norm v) 1e-9) as [Hsmall|Hbig].
  - rewrite (normalize_vector_small v Hsmall). unfold value, diags.
    cbn [fst snd].
    split; [reflexivity|]. split; [intros [H|H]; discriminate H|].
    intros H. contradiction.
  - assert (Hn : 1e-9 <= norm v) by lra.
    rewrite (normalize_vector_large v Hn). unfold value, diags. cbn [fst snd].
    split; [intros H; contradiction|].
    split; [intros [H|H]; discriminate H|].
    intros _. split; [exact Hok|]. exists rank, v.
    repeat split; try reflexivity; assumption.
Qed.

Lemma plane_normal_fallbacks_witness :
  value (plane_normal_of raising_oracle sample_key flat_ring_atoms) = default_z /\
  diags (plane_normal_of raising_oracle sample_key flat_ring_atoms)
  = [MsgSvdFailed sample_key] /\
  value (plane_normal_of plane_x_oracle sample_key flat_ring_atoms)
  <> default_z /\
  exists rank v,
    (2 <= rank)%nat /\ 1e-9 <= norm v /\
    value (plane_normal_of plane_x_oracle sample_key flat_ring_atoms)
    = vdiv v (norm v).
Proof.
  split.
  { apply (plane_normal_fallbacks raising_oracle sample_key flat_ring_atoms).
    left. reflexivity. }
  split; [reflexivity|].
  assert (Hv : value (plane_normal_of plane_x_oracle sample_key flat_ring_atoms)
               = mkV3 1 0 0).
  { unfold plane_normal_of. simpl.
    rewrite normalize_vector_of_unit by (unfold dot; simpl; ring).
    reflexivity. }
  assert (Hne : value (plane_normal_of plane_x_oracle sample_key flat_ring_atoms)
                <> default_z).
  { rewrite Hv. unfold default_z. intros H. injection H as H1 H2. lra. }
  split; [exact Hne|].
  destruct (proj2 (proj2 (plane_normal_fallbacks plane_x_oracle sample_key
                            flat_ring_atoms)) Hne)
    as (_ & rank & v & _ & Hrank & _ & Hnorm & Hval).
  exists rank, v. repeat split; assumption.
Defined.
